(** * A platformer's player controller and camera, verified against its spec

    Shallow embedding of [Knight.py] (movement, gravity, tile collisions,
    world clamp, sprite animation), [Camera.py] (smoothed, bounded
    scrolling) and [main.py] (set-up, event handling, the performance
    monitor and the main loop).

    Numbers.  Python mixes [int] and [float] freely in this program.  The
    embedding uses [Z] for values that are integers in every execution (the
    fields of a [pygame.Rect], [vel_y], the animation index and counter) and
    exact rationals [Q] for the values that hold floats ([vel_x], the sprint
    ratio, the camera vectors).  Binary64 rounding is not modelled: [Q]
    arithmetic is exact.  Every concrete input used below is chosen so that
    the quantities compared differ by far more than a rounding error.

    pygame.  A [pygame.Rect] stores C integers.  A float passed as a
    coordinate to [colliderect] is truncated toward zero, as Python's
    [int()] does; a float assigned to a coordinate, as in [rect.x = ...], is
    rounded to the nearest integer, halves away from zero ([nearest]).  An
    integer outside the range of a C int cannot be stored ([TypeError]): the
    [x] and [y] given to the constructor are checked against that range
    ([fits_int]).  The coordinates that [update] computes are unbounded
    here: a frame that would carry a coordinate out of the range of a C int
    is not modelled.

    Assets.  The two sprite sheets are image files that are not part of the
    sources.  A state records their pixel sizes, and what is proved about
    [update] assumes that the run sheet holds 16 frames and the idle sheet
    4 ([sheets_ok]); without that [subsurface] raises [ValueError]. *)

From Stdlib Require Import ZArith QArith Qabs Qpower Bool List Lia Lqa.
Import ListNotations.

Local Open Scope Z_scope.

(** ** Python numbers *)

Module Py.

(** [int(q)], and the conversion pygame applies to a float passed as a
    coordinate to [colliderect]: truncation toward zero. *)
Definition int (q : Q) : Z := Z.quot (Qnum q) (Zpos (Qden q)).

Definition ltb (a b : Q) : bool :=
  match a ?= b with Lt => true | _ => false end%Q.

Definition gtb (a b : Q) : bool := ltb b a.

(** [max(a, b)] returns [b] only when [b > a]; [min(a, b)] returns [b] only
    when [b < a]. *)
Definition max (a b : Q) : Q := if gtb b a then b else a.
Definition min (a b : Q) : Q := if ltb b a then b else a.

(** [z] is [q] rounded toward zero. *)
Definition truncated (q : Q) (z : Z) : Prop :=
  ((0 <= q -> inject_Z z <= q /\ q < inject_Z z + 1) /\
   (q <= 0 -> q <= inject_Z z /\ inject_Z z - 1 < q))%Q.

End Py.

(** ** pygame.Rect *)

Record Rect : Set := mkRect { x : Z; y : Z; width : Z; height : Z }.

Definition left (r : Rect) : Z := x r.
Definition top (r : Rect) : Z := y r.
Definition right (r : Rect) : Z := x r + width r.
Definition bottom (r : Rect) : Z := y r + height r.

(** [tile.colliderect(r)] for rectangles of positive width and height, the
    only ones this program builds: the two rectangles share interior area;
    touching edges do not collide. *)
Definition colliderect (tile r : Rect) : bool :=
  (left tile <? right r) && (left r <? right tile) &&
  (top tile <? bottom r) && (top r <? bottom tile).

(** The rectangle pygame builds from the four arguments of
    [colliderect(x, y, w, h)] when [x] is a float. *)
Definition rect_of_args (fx : Q) (y w h : Z) : Rect := mkRect (Py.int fx) y w h.

(** The integer a coordinate holds after a float has been assigned to it:
    the nearest one, halves away from zero. *)
Definition nearest (q : Q) : Z :=
  if Py.ltb q 0 then Py.int (q - 0.5)%Q else Py.int (q + 0.5)%Q.

(** The range of a C int, which a coordinate is stored in. *)
Definition INT_MIN : Z := -2147483648.
Definition INT_MAX : Z := 2147483647.
Definition fits_int (z : Z) : bool := (INT_MIN <=? z) && (z <=? INT_MAX).

(** ** Knight.py *)

(** A snapshot of [pygame.key.get_pressed()], restricted to the four keys
    the player reads. *)
Record Keys : Set := mkKeys {
  K_a : bool; K_d : bool; K_LSHIFT : bool; K_SPACE : bool }.

(** A loaded sprite sheet: only its pixel size matters here. *)
Record Surface : Set := mkSurface { surf_w : Z; surf_h : Z }.

(** The picture the player is drawn with: the area cut out of a sheet,
    mirrored or not.  The scaling factor is the same for every frame. *)
Record Frame : Set := mkFrame {
  sheet : Surface; area : Rect; mirrored : bool }.

(** [surface.subsurface(x, y, w, h)]: pygame raises [ValueError] when the
    rectangle is not inside the surface. *)
Definition subsurface (surface : Surface) (x y w h : Z) : option Frame :=
  if (0 <=? x) && (0 <=? y) && (x + w <=? surf_w surface) && (y + h <=? surf_h surface)
  then Some (mkFrame surface (mkRect x y w h) false)
  else None.

(** [pygame.transform.flip(aux, True, False)]. *)
Definition flip (aux : Frame) : Frame :=
  mkFrame (sheet aux) (area aux) (negb (mirrored aux)).

Module Knight.

(** The attributes of a [Knight].  [screen] (only drawn on) and [moving]
    (never read) are left out; [size] is the constant [(14, 19)].
    [sprint_decel_ratio] is an attribute that exists only at times
    ([hasattr] / [del]): [None] stands for its absence.
    [was_sprinting_when_jumped] is set by the constructor, so the [hasattr]
    test on it always succeeds. *)
Record State : Type := mkState {
  index : Z;
  counter : Z;
  world_rects : list Rect;
  idle_sheet : Surface;
  run_sheet : Surface;
  image : Frame;
  rect : Rect;
  vel_x : Q;
  vel_y : Z;
  sprinting : bool;
  jumped : bool;
  flipped : bool;
  was_sprinting_when_jumped : bool;
  sprint_decel_ratio : option Q }.

Definition size : Z * Z := (14, 19).

(** Attribute assignments. *)
Definition with_index (v : Z) (s : State) : State :=
  mkState v (counter s) (world_rects s) (idle_sheet s) (run_sheet s) (image s)
    (rect s) (vel_x s) (vel_y s) (sprinting s) (jumped s) (flipped s)
    (was_sprinting_when_jumped s) (sprint_decel_ratio s).
Definition with_counter (v : Z) (s : State) : State :=
  mkState (index s) v (world_rects s) (idle_sheet s) (run_sheet s) (image s)
    (rect s) (vel_x s) (vel_y s) (sprinting s) (jumped s) (flipped s)
    (was_sprinting_when_jumped s) (sprint_decel_ratio s).
Definition with_image (v : Frame) (s : State) : State :=
  mkState (index s) (counter s) (world_rects s) (idle_sheet s) (run_sheet s) v
    (rect s) (vel_x s) (vel_y s) (sprinting s) (jumped s) (flipped s)
    (was_sprinting_when_jumped s) (sprint_decel_ratio s).
Definition with_rect (v : Rect) (s : State) : State :=
  mkState (index s) (counter s) (world_rects s) (idle_sheet s) (run_sheet s) (image s)
    v (vel_x s) (vel_y s) (sprinting s) (jumped s) (flipped s)
    (was_sprinting_when_jumped s) (sprint_decel_ratio s).
Definition with_vel_x (v : Q) (s : State) : State :=
  mkState (index s) (counter s) (world_rects s) (idle_sheet s) (run_sheet s) (image s)
    (rect s) v (vel_y s) (sprinting s) (jumped s) (flipped s)
    (was_sprinting_when_jumped s) (sprint_decel_ratio s).
Definition with_vel_y (v : Z) (s : State) : State :=
  mkState (index s) (counter s) (world_rects s) (idle_sheet s) (run_sheet s) (image s)
    (rect s) (vel_x s) v (sprinting s) (jumped s) (flipped s)
    (was_sprinting_when_jumped s) (sprint_decel_ratio s).
Definition with_sprinting (v : bool) (s : State) : State :=
  mkState (index s) (counter s) (world_rects s) (idle_sheet s) (run_sheet s) (image s)
    (rect s) (vel_x s) (vel_y s) v (jumped s) (flipped s)
    (was_sprinting_when_jumped s) (sprint_decel_ratio s).
Definition with_jumped (v : bool) (s : State) : State :=
  mkState (index s) (counter s) (world_rects s) (idle_sheet s) (run_sheet s) (image s)
    (rect s) (vel_x s) (vel_y s) (sprinting s) v (flipped s)
    (was_sprinting_when_jumped s) (sprint_decel_ratio s).
Definition with_flipped (v : bool) (s : State) : State :=
  mkState (index s) (counter s) (world_rects s) (idle_sheet s) (run_sheet s) (image s)
    (rect s) (vel_x s) (vel_y s) (sprinting s) (jumped s) v
    (was_sprinting_when_jumped s) (sprint_decel_ratio s).
Definition with_was_sprinting_when_jumped (v : bool) (s : State) : State :=
  mkState (index s) (counter s) (world_rects s) (idle_sheet s) (run_sheet s) (image s)
    (rect s) (vel_x s) (vel_y s) (sprinting s) (jumped s) (flipped s)
    v (sprint_decel_ratio s).
Definition with_sprint_decel_ratio (v : option Q) (s : State) : State :=
  mkState (index s) (counter s) (world_rects s) (idle_sheet s) (run_sheet s) (image s)
    (rect s) (vel_x s) (vel_y s) (sprinting s) (jumped s) (flipped s)
    (was_sprinting_when_jumped s) v.

(** [_init_sprite]: the first frame of the idle sheet is cut out and scaled
    to [(14 * 3.5, 19 * 3.5)], which pygame truncates to 49 by 66 pixels;
    the rectangle takes that size and is moved to [(x, y)].  [None] is the
    [ValueError] of [subsurface] or the [TypeError] of an [x] or [y] that
    does not fit a C int. *)
Definition _init_sprite (x y : Z) (idle_sheet : Surface)
  : option (Frame * Rect) :=
  match subsurface idle_sheet 0 0 (fst size) (snd size) with
  | None => None
  | Some aux =>
    if fits_int x && fits_int y then
      Some (aux, mkRect x y (Py.int (inject_Z (fst size) * 3.5))
                            (Py.int (inject_Z (snd size) * 3.5)))
    else None
  end.

(** [__init__]; the two sheets stand for the images it loads. *)
Definition __init__ (x y : Z) (world_rects : list Rect)
  (idle_sheet run_sheet : Surface) : option State :=
  match _init_sprite x y idle_sheet with
  | None => None
  | Some (image, rect) =>
    Some (mkState 0 0 world_rects idle_sheet run_sheet image rect
            0 0 false false false false None)
  end.

(** [animate], lines 180-207.  [None] is the [ValueError] of
    [subsurface]. *)
Definition animate (sprite_sheet : Surface) (steps anim_cooldown : Z)
  (s : State) : option State :=
  let s := with_counter (counter s + 1) s in
  if anim_cooldown <? counter s then
    let s := with_counter 0 s in
    let s := with_index ((index s + 1) mod steps) s in
    match subsurface sprite_sheet (index s * fst size) 0 (fst size) (snd size) with
    | None => None
    | Some aux =>
      let aux := if flipped s then flip aux else aux in
      Some (with_image aux s)
    end
  else Some s.

(** [_move_x], lines 93-120: the sprint flag, the speed ratio captured when
    sprint is released on the ground, the ground ramp back to normal speed
    and the air rule.  The result carries the local variables [max_vel_x]
    and [increment] as the rest of the function sees them.  The divisor
    [max_vel_x * sprint_max_mod] is [7.5 * 1.7] at the only call. *)
Definition sprint_rules (key : Keys)
  (increment max_vel_x sprint_inc_mod sprint_max_mod : Q) (s : State)
  : State * Q * Q :=
  let was_sprinting := sprinting s in
  let s := with_sprinting (K_LSHIFT key) s in
  if negb (jumped s) then
    let s :=
      if was_sprinting && negb (sprinting s)
      then with_sprint_decel_ratio
             (Some (Qabs (vel_x s) / (max_vel_x * sprint_max_mod))%Q) s
      else s in
    if sprinting s then
      (s, max_vel_x * sprint_max_mod, increment * sprint_inc_mod)%Q
    else
      match sprint_decel_ratio s with
      | Some ratio =>
        let decel_factor := 0.99%Q in
        let current_target := (max_vel_x * ratio)%Q in
        if Py.gtb (Qabs (vel_x s)) current_target then
          (with_sprint_decel_ratio (Some (ratio * decel_factor)%Q)
             (with_vel_x (vel_x s * decel_factor)%Q s), max_vel_x, increment)
        else (with_sprint_decel_ratio None s, max_vel_x, increment)
      | None => (s, max_vel_x, increment)
      end
  else
    if was_sprinting_when_jumped s then
      (s, max_vel_x * sprint_max_mod, increment * sprint_inc_mod)%Q
    else (s, max_vel_x, increment).

(** The factor applied to the target velocity, lines 125-126 and 133-134. *)
Definition scale_target (target_vel : Q) (s : State) : Q :=
  match sprint_decel_ratio s with
  | Some ratio =>
    if negb (sprinting s) && negb (jumped s) then (target_vel * ratio)%Q
    else target_vel
  | None => target_vel
  end.

(** [_move_x], lines 122-140: left key, right key, sprint state at jump
    time. *)
Definition steer (key : Keys) (increment max_vel_x : Q) (s : State) : State :=
  let s :=
    if K_a key then
      let target_vel := scale_target (- max_vel_x)%Q s in
      with_flipped true
        (with_vel_x (Py.max target_vel (vel_x s - increment)%Q) s)
    else s in
  let s :=
    if K_d key then
      let target_vel := scale_target max_vel_x s in
      with_flipped false
        (with_vel_x (Py.min target_vel (vel_x s + increment)%Q) s)
    else s in
  if K_SPACE key && negb (jumped s)
  then with_was_sprinting_when_jumped (sprinting s) s
  else s.

Definition _move_x (key : Keys)
  (increment max_vel_x sprint_inc_mod sprint_max_mod : Q) (s : State) : State :=
  let '(s, max_vel_x, increment) :=
    sprint_rules key increment max_vel_x sprint_inc_mod sprint_max_mod s in
  steer key increment max_vel_x s.

Definition _apply_friction (key : Keys) (amount : Q) (s : State) : State :=
  if negb (K_a key || K_d key) then
    if Py.gtb (vel_x s) 0 then with_vel_x (Py.max 0 (vel_x s - amount)%Q) s
    else if Py.ltb (vel_x s) 0 then with_vel_x (Py.min 0 (vel_x s + amount)%Q) s
    else s
  else s.

Definition _handle_movement (key : Keys) (s : State) : State :=
  let s := _move_x key 0.5 7.5 1.7 1.7 s in
  let s := if negb (jumped s) then _apply_friction key 1.3 s else s in
  if K_SPACE key && negb (jumped s)
  then with_jumped true (with_vel_y (-20) s)
  else s.

Definition _apply_gravity (terminal_velocity gravity : Z) (s : State) : State :=
  if vel_y s <? terminal_velocity then with_vel_y (vel_y s + gravity) s else s.

(** The body of the loop of [_handle_collisions] for one tile.  The
    rectangle [self.rect] is not assigned in the loop; the velocities are. *)
Definition collide (s : State) (tile : Rect) : State :=
  let r := rect s in
  let s :=
    if colliderect tile
         (rect_of_args (inject_Z (x r) + vel_x s)%Q (y r) (width r) (height r))
    then
      if Py.gtb (vel_x s) 0 then with_vel_x (inject_Z (left tile - right r)) s
      else if Py.ltb (vel_x s) 0 then with_vel_x (inject_Z (right tile - left r)) s
      else s
    else s in
  if colliderect tile (mkRect (x r) (y r + vel_y s) (width r) (height r))
  then
    if 0 <? vel_y s then with_jumped false (with_vel_y (top tile - bottom r) s)
    else if vel_y s <? 0 then with_vel_y (bottom tile - top r) s
    else s
  else s.

Definition _handle_collisions (s : State) : State :=
  fold_left collide (world_rects s) s.

(** [rect.x] receives a float and holds the nearest integer. *)
Definition _clamp_position (world_limit : Q) (s : State) : State :=
  let r := rect s in
  let new_x :=
    nearest (Py.max 0 (Py.min (inject_Z (x r) + vel_x s)
                              (world_limit - inject_Z (width r)))%Q) in
  with_rect (mkRect new_x (y r + vel_y s) (width r) (height r)) s.

(** [update], lines 65-71: movement and physics, then the position update
    within the world boundaries. *)
Definition physics (key : Keys) (world_limit : Q) (s : State) : State :=
  let s := _handle_movement key s in
  let s := _apply_gravity 30 1 s in
  let s := _handle_collisions s in
  _clamp_position world_limit s.

(** [update], without the final [blit]: the camera offsets are only used to
    draw.  [key] is the result of [pygame.key.get_pressed()]. *)
Definition update (key : Keys) (world_limit : Q) (s : State) : option State :=
  match
    (if K_a key || K_d key then animate (run_sheet s) 16 8 s
     else animate (idle_sheet s) 4 10 s)
  with
  | None => None
  | Some s => Some (physics key world_limit s)
  end.

(** One [update] per frame, for the key states of successive frames. *)
Fixpoint run (keys : list Keys) (world_limit : Q) (s : State) : option State :=
  match keys with
  | [] => Some s
  | key :: keys =>
    match update key world_limit s with
    | None => None
    | Some s => run keys world_limit s
    end
  end.

(** The attributes that movement and physics read and write agree. *)
Definition same_body (s a : State) : Prop :=
  world_rects a = world_rects s /\ idle_sheet a = idle_sheet s /\
  run_sheet a = run_sheet s /\ rect a = rect s /\ vel_x a = vel_x s /\
  vel_y a = vel_y s /\ sprinting a = sprinting s /\ jumped a = jumped s /\
  flipped a = flipped s /\
  was_sprinting_when_jumped a = was_sprinting_when_jumped s /\
  sprint_decel_ratio a = sprint_decel_ratio s.

(** The attributes that movement and physics leave alone agree. *)
Definition untouched (s a : State) : Prop :=
  world_rects a = world_rects s /\ idle_sheet a = idle_sheet s /\
  run_sheet a = run_sheet s /\ index a = index s /\ counter a = counter s /\
  image a = image s /\ width (rect a) = width (rect s) /\
  height (rect a) = height (rect s).

(** The run sheet holds 16 frames and the idle sheet 4, each of [size]. *)
Definition sheets_ok (s : State) : Prop :=
  16 * fst size <= surf_w (run_sheet s) /\ snd size <= surf_h (run_sheet s) /\
  4 * fst size <= surf_w (idle_sheet s) /\ snd size <= surf_h (idle_sheet s).

(** The rectangle lies within the surface. *)
Definition inside (surface : Surface) (r : Rect) : Prop :=
  0 <= x r /\ 0 <= y r /\ x r + width r <= surf_w surface /\
  y r + height r <= surf_h surface.

(** The steps of [physics] that settle the velocities; the rectangle moves
    only afterwards, in [_clamp_position]. *)
Definition resolve (key : Keys) (s : State) : State :=
  _handle_collisions (_apply_gravity 30 1 (_handle_movement key s)).

(** The animation cycle [update] selects: frames, hold time, sheet. *)
Definition cycle_steps (key : Keys) : Z := if K_a key || K_d key then 16 else 4.

Definition cycle_cooldown (key : Keys) : Z := if K_a key || K_d key then 8 else 10.

Definition cycle_sheet (key : Keys) (s : State) : Surface :=
  if K_a key || K_d key then run_sheet s else idle_sheet s.

(** The attributes that horizontal movement leaves alone agree. *)
Definition same_flight (s a : State) : Prop :=
  rect a = rect s /\ vel_y a = vel_y s /\ jumped a = jumped s.

(** The sprint and facing attributes agree. *)
Definition same_sprint (s a : State) : Prop :=
  sprinting a = sprinting s /\ flipped a = flipped s /\
  was_sprinting_when_jumped a = was_sprinting_when_jumped s /\
  sprint_decel_ratio a = sprint_decel_ratio s.

(** No tile overlaps the player's box moved down by [v]. *)
Definition no_vertical_hit (s : State) (v : Z) : Prop :=
  Forall (fun tile =>
            colliderect tile
              (mkRect (x (rect s)) (y (rect s) + v) (width (rect s))
                 (height (rect s))) = false)
         (world_rects s).

(** No tile overlaps the player's box moved right by [v]. *)
Definition no_horizontal_hit (s : State) (v : Q) : Prop :=
  Forall (fun tile =>
            colliderect tile
              (rect_of_args (inject_Z (x (rect s)) + v) (y (rect s))
                 (width (rect s)) (height (rect s))) = false)
         (world_rects s).

End Knight.

(** ** Camera.py *)

Module Vector2.
Record t : Set := mk { x : Q; y : Q }.
End Vector2.

Module Camera.

(** The attributes of a [Camera].  [self.player] is a reference to the
    [Knight] object, which [update] keeps mutating: whoever calls [scroll]
    passes the player as it is at that moment. *)
Record State : Set := mkState {
  screen_width : Q;
  screen_height : Q;
  offset : Vector2.t;
  offset_float : Vector2.t;
  CONST : Vector2.t }.

Definition __init__ (player : Knight.State) (screen_width screen_height : Q)
  : State :=
  mkState screen_width screen_height (Vector2.mk 0 0) (Vector2.mk 0 0)
    (Vector2.mk
       (- screen_width / 2 + inject_Z (x (Knight.rect player)) / 4)%Q
       (- inject_Z (y (Knight.rect player)))%Q).

Definition scroll (player : Knight.State)
  (left_border right_border top_border bottom_border : Q) (c : State) : State :=
  let target_x := (inject_Z (x (Knight.rect player)) + Vector2.x (CONST c))%Q in
  let target_y := (inject_Z (y (Knight.rect player)) + Vector2.y (CONST c))%Q in
  let float_x :=
    (Vector2.x (offset_float c)
     + (target_x - Vector2.x (offset_float c)) * 0.1)%Q in
  let float_y :=
    (Vector2.y (offset_float c)
     + (target_y - Vector2.y (offset_float c)) * 0.1)%Q in
  let offset_x := inject_Z (Py.int float_x) in
  let offset_y := inject_Z (Py.int float_y) in
  let offset_x := Py.max left_border offset_x in
  let offset_x := Py.min offset_x (right_border - screen_width c)%Q in
  let offset_y := Py.max top_border offset_y in
  let offset_y := Py.min offset_y (bottom_border - screen_height c)%Q in
  mkState (screen_width c) (screen_height c)
    (Vector2.mk offset_x offset_y) (Vector2.mk float_x float_y) (CONST c).

End Camera.

(** ** main.py *)

Module Game.

(** The part of a [Game] that [_update] works on. *)
Record State : Type := mkState {
  world_limit_x : Z;
  world_limit_y : Z;
  player : Knight.State;
  camera : Camera.State }.

(** [_update], without the drawing of the world: the player is updated
    first, the camera then follows the updated player. *)
Definition _update (key : Keys) (g : State) : option State :=
  match Knight.update key (inject_Z (world_limit_x g)) (player g) with
  | None => None
  | Some p =>
    Some (mkState (world_limit_x g) (world_limit_y g) p
            (Camera.scroll p 0 (inject_Z (world_limit_x g))
                             0 (inject_Z (world_limit_y g)) (camera g)))
  end.

(** The frames of [run], one key state per frame. *)
Fixpoint frames (keys : list Keys) (g : State) : option State :=
  match keys with
  | [] => Some g
  | key :: keys =>
    match _update key g with
    | None => None
    | Some g => frames keys g
    end
  end.

End Game.

(** ** Sample data *)

Module Samples.
Import Knight.
Definition idle0 : Surface := mkSurface 56 19.
Definition run0 : Surface := mkSurface 224 19.
Definition no_key : Keys := mkKeys false false false false.
Definition jump_key : Keys := mkKeys false false false true.
(** A player of the usual size in a given physical state. *)
Definition knight (tiles : list Rect) (px py : Z) (vx : Q) (vy : Z)
  (sprint airborne : bool) (ratio : option Q) : State :=
  mkState 0 0 tiles idle0 run0 (mkFrame idle0 (mkRect 0 0 14 19) false)
    (mkRect px py 49 66) vx vy sprint airborne false false ratio.
Definition floor : Rect := mkRect 0 100 50 50.
Definition standing : State := knight [floor] 0 34 0 0 false false None.

(** A tile below and to the right of an airborne player that drifts right
    while it falls. *)
Definition corner_tile : Rect := mkRect 50 100 50 50.
Definition before_corner : State := knight [corner_tile] 0 30 5 4 false true None.

(** A player that is off the ground with the flag still clear, and no tile
    anywhere. *)
Definition floating : State := knight [] 0 34 0 0 false false None.

(** A grounded player at top sprint speed, [7.5 * 1.7], sprint key held
    until now. *)
Definition sprinting_fast : State := knight [] 0 34 12.75 0 true false None.

(** A grounded player sliding right on the floor. *)
Definition sliding : State := knight [floor] 0 34 3 0 false false None.

(** A player that stopped running on the last frame of the run cycle, with
    the hold time of the idle cycle used up. *)
Definition switching : State := with_counter 10 (with_index 15 standing).

(** Two tiles that an airborne player moving right runs into. *)
Definition side_tiles : list Rect := [mkRect 55 34 50 50; mkRect 52 50 50 50].
Definition pushing : State := knight side_tiles 0 34 10 0 false true None.

(** An airborne player drifting right by 2.9 pixels a frame, and one that
    moves by 5 pixels from [x = 50], no tile anywhere. *)
Definition creeping : State := knight [] 10 34 2.9 0 false true None.
Definition arriving : State := knight [] 50 34 5 0 false true None.

(** The camera and the game of [main.py], in a world 2000 pixels wide. *)
Definition camera0 : Camera.State := Camera.__init__ standing 900 700.
Definition game0 : Game.State := Game.mkState 2000 700 standing camera0.
End Samples.

(** ** Knight.py: what a frame is about to do *)

Module Pending.
Import Knight.

(** The velocities that [update] hands to the collision loop: [vel_x] after
    [_handle_movement], [vel_y] after [_apply_gravity]. *)
Definition vel_x (key : Keys) (s : State) : Q :=
  Knight.vel_x (_handle_movement key s).

Definition vel_y (key : Keys) (s : State) : Z :=
  Knight.vel_y (_apply_gravity 30 1 (_handle_movement key s)).

(** The player's box moved by [v] along one axis, as the loop tests it. *)
Definition box_x (s : State) (v : Q) : Rect :=
  rect_of_args (inject_Z (x (rect s)) + v) (y (rect s)) (width (rect s))
    (height (rect s)).

Definition box_y (s : State) (v : Z) : Rect :=
  mkRect (x (rect s)) (y (rect s) + v) (width (rect s)) (height (rect s)).

(** The key state with the jump key set to [b]. *)
Definition with_space (b : bool) (key : Keys) : Keys :=
  mkKeys (K_a key) (K_d key) (K_LSHIFT key) b.

(** The speed limit and increment [_move_x] works with in the air. *)
Definition air_limit (s : State) : Q :=
  if was_sprinting_when_jumped s then (7.5 * 1.7)%Q else 7.5%Q.

Definition air_increment (s : State) : Q :=
  if was_sprinting_when_jumped s then (0.5 * 1.7)%Q else 0.5%Q.

(** Within the sprint speed limit, with a stored ratio that is a fraction. *)
Definition speed_ok (s : State) : Prop :=
  (Qabs (Knight.vel_x s) <= 7.5 * 1.7)%Q /\
  match sprint_decel_ratio s with
  | Some ratio => (0 <= ratio <= 1)%Q
  | None => True
  end.

(** Within the plain speed limit, with no trace of a sprint. *)
Definition walk_ok (s : State) : Prop :=
  (Qabs (Knight.vel_x s) <= 7.5)%Q /\ sprinting s = false /\
  was_sprinting_when_jumped s = false /\ sprint_decel_ratio s = None.

(** The player's box overlaps no tile. *)
Definition clear_of_tiles (s : State) : Prop :=
  Forall (fun tile => colliderect tile (rect s) = false) (world_rects s).

(** The floor under a falling player: every tile it would sink into has its
    top at the player's feet, and there is such a tile. *)
Definition on_floor (s : State) : Prop :=
  Exists (fun tile => colliderect tile (box_y s 1) = true) (world_rects s) /\
  Forall (fun tile => colliderect tile (box_y s 1) = true ->
                      top tile = bottom (rect s)) (world_rects s).

(** The speed limit and the increment of a frame in which the ground ramp is
    out of play, and when it is. *)
Definition limit (key : Keys) (s : State) : Q :=
  if jumped s then air_limit s
  else if K_LSHIFT key then (7.5 * 1.7)%Q else 7.5%Q.

Definition increment (key : Keys) (s : State) : Q :=
  if jumped s then air_increment s
  else if K_LSHIFT key then (0.5 * 1.7)%Q else 0.5%Q.

Definition ramp_idle (key : Keys) (s : State) : Prop :=
  jumped s = true \/ K_LSHIFT key = true \/
  (sprinting s = false /\ sprint_decel_ratio s = None).

End Pending.

(** ** Camera.py: repeated scrolling *)

Module Follow.

(** [n] calls of [scroll] while the player does not move. *)
Fixpoint scrolls (n : nat) (player : Knight.State)
  (left_border right_border top_border bottom_border : Q)
  (c : Camera.State) : Camera.State :=
  match n with
  | O => c
  | S n =>
    scrolls n player left_border right_border top_border bottom_border
      (Camera.scroll player left_border right_border top_border
         bottom_border c)
  end.

(** The point the camera is pulled toward. *)
Definition target (player : Knight.State) (c : Camera.State) : Vector2.t :=
  Vector2.mk
    (inject_Z (x (Knight.rect player)) + Vector2.x (Camera.CONST c))%Q
    (inject_Z (y (Knight.rect player)) + Vector2.y (Camera.CONST c))%Q.

End Follow.

(** ** main.py: events, the performance monitor, the loop *)

Module Main.

(** [pygame.QUIT], the type of the event sent when the window is closed. *)
Definition QUIT : Z := 256.

Record Event : Set := mkEvent { type : Z }.

(** [_handle_events], for the events [pygame.event.get()] returns: the loop
    over them returns at the first [QUIT]. *)
Fixpoint _handle_events (events : list Event) : bool :=
  match events with
  | [] => true
  | event :: events =>
    if type event =? QUIT then false else _handle_events events
  end.

(** The attributes of a [Game] that [_monitor_performance] works on. *)
Record Monitor : Set := mkMonitor {
  cpu_usage : Q;
  max_cpu_usage : Q;
  cpu_update_interval : Q;
  cpu_update_accumulator : Q }.

(** The monitor [Game.__init__] sets up from a first reading of
    [cpu_percent]. *)
Definition monitor_init (reading : Q) : Monitor :=
  mkMonitor reading reading 1 0.

(** [_monitor_performance].  [get_time] is the value of
    [self.clock.get_time()], in milliseconds; [reading] is what
    [cpu_percent(interval=None)] returns if it is called in this frame. *)
Definition _monitor_performance (get_time : Z) (reading : Q) (m : Monitor)
  : Monitor :=
  let dt := (inject_Z get_time / 1000)%Q in
  let accumulator := (cpu_update_accumulator m + dt)%Q in
  if negb (Py.ltb accumulator (cpu_update_interval m)) then
    let cpu := reading in
    let accumulator := (accumulator - cpu_update_interval m)%Q in
    if Py.gtb cpu (max_cpu_usage m)
    then mkMonitor cpu cpu (cpu_update_interval m) accumulator
    else mkMonitor cpu (max_cpu_usage m) (cpu_update_interval m) accumulator
  else
    mkMonitor (cpu_usage m) (max_cpu_usage m) (cpu_update_interval m)
      accumulator.

(** What one frame of the loop reads from outside. *)
Record Input : Set := mkInput {
  events : list Event;
  key : Keys;
  get_time : Z;
  reading : Q }.

Record State : Type := mkState {
  game : Game.State;
  monitor : Monitor }.

(** [Game.__init__], for a level of [columns] by [rows] tiles of 50 pixels
    with the given collision rectangles, on a 900 by 700 screen. *)
Definition __init__ (columns rows : Z) (rects : list Rect)
  (idle_sheet run_sheet : Surface) (reading : Q) : option State :=
  let tile_size := 50 in
  match Knight.__init__ 450 (700 - 230) rects idle_sheet run_sheet with
  | None => None
  | Some player =>
    Some (mkState
            (Game.mkState (columns * tile_size) (rows * tile_size) player
               (Camera.__init__ player 900 700))
            (monitor_init reading))
  end.

(** The body of the loop of [run], without drawing: the result says whether
    the loop goes on. *)
Definition frame (i : Input) (st : State) : option (State * bool) :=
  let running := _handle_events (events i) in
  match Game._update (key i) (game st) with
  | None => None
  | Some g =>
    Some (mkState g
            (_monitor_performance (get_time i) (reading i) (monitor st)),
          running)
  end.

(** [run], for the inputs of successive frames.  The flag of the result is
    [true] when the inputs end before the loop does. *)
Fixpoint run (inputs : list Input) (st : State) : option (State * bool) :=
  match inputs with
  | [] => Some (st, true)
  | i :: inputs =>
    match frame i st with
    | None => None
    | Some (st, true) => run inputs st
    | Some (st, false) => Some (st, false)
    end
  end.

(** The monitor after the frames of [inputs]. *)
Definition monitors (inputs : list Input) (m : Monitor) : Monitor :=
  fold_left (fun m i => _monitor_performance (get_time i) (reading i) m)
    inputs m.

(** The player stands within the level and the view, at whole pixels, shows
    nothing outside it. *)
Definition in_world (g : Game.State) : Prop :=
  0 <= x (Knight.rect (Game.player g))
    <= Game.world_limit_x g - width (Knight.rect (Game.player g)) /\
  exists ox oy,
    Vector2.x (Camera.offset (Game.camera g)) == inject_Z ox /\
    Vector2.y (Camera.offset (Game.camera g)) == inject_Z oy /\
    (0 <= inject_Z ox
       <= inject_Z (Game.world_limit_x g)
          - Camera.screen_width (Game.camera g))%Q /\
    (0 <= inject_Z oy
       <= inject_Z (Game.world_limit_y g)
          - Camera.screen_height (Game.camera g))%Q.

End Main.

(** ** More sample data *)

Module Scenes.
Import Knight Samples.

Definition right_key : Keys := mkKeys false true false false.
Definition both_keys : Keys := mkKeys true true false false.

(** An airborne player falling at 25 pixels a frame, no tile anywhere. *)
Definition falling : State := knight [] 0 34 0 25 false true None.

(** A player four pixels above the floor, one under a tile, one with a tile
    ahead, one standing across two tiles, one sliding on the floor. *)
Definition dropping : State := knight [floor] 0 30 0 4 false true None.
Definition ceiling : Rect := mkRect 0 0 50 20.
Definition rising : State := knight [ceiling] 0 30 0 (-15) false true None.
Definition wall : Rect := mkRect 55 34 50 50.
Definition drifting : State := knight [wall] 0 34 10 0 false true None.
Definition floor_row : list Rect := [mkRect 0 100 50 50; mkRect 50 100 50 50].
Definition astride : State := knight floor_row 20 34 0 0 false false None.
Definition gliding : State := knight [floor] 0 34 5 0 false false None.

(** A camera at rest whose constant puts the target 100 pixels to the
    right of a player at [x = 0]. *)
Definition behind : Camera.State :=
  Camera.mkState 900 700 (Vector2.mk 0 0) (Vector2.mk 0 0) (Vector2.mk 100 0).

End Scenes.

Module Inputs.
Import Samples.

(** A frame of 16 ms with no event and no key, and one in which the window
    is closed after a key press. *)
Definition still : Main.Input := Main.mkInput [] no_key 16 5.
Definition closing : Main.Input :=
  Main.mkInput [Main.mkEvent 768; Main.mkEvent Main.QUIT]
    (mkKeys false true false false) 16 7.
Definition main0 : Main.State := Main.mkState game0 (Main.monitor_init 3).

End Inputs.

(** * Properties *)

(** ** Python numbers *)

Module PyFacts.

Lemma ltb_spec (a b : Q) : reflect (a < b)%Q (Py.ltb a b).
Proof.
  unfold Py.ltb. destruct (a ?= b)%Q eqn:E; constructor.
  - apply Qeq_alt in E. rewrite E. apply Qlt_irrefl.
  - now apply Qlt_alt.
  - apply Qgt_alt in E. now apply Qlt_le_weak, Qle_not_lt in E.
Qed.

Lemma gtb_spec (a b : Q) : reflect (b < a)%Q (Py.gtb a b).
Proof. apply ltb_spec. Qed.

Lemma ltb_true a b : Py.ltb a b = true -> (a < b)%Q.
Proof. now destruct (ltb_spec a b). Qed.
Lemma ltb_false a b : Py.ltb a b = false -> (b <= a)%Q.
Proof. destruct (ltb_spec a b); [discriminate | intros _; lra]. Qed.
Lemma gtb_true a b : Py.gtb a b = true -> (b < a)%Q.
Proof. apply ltb_true. Qed.
Lemma gtb_false a b : Py.gtb a b = false -> (a <= b)%Q.
Proof. apply ltb_false. Qed.

Lemma max_ge_l (a b : Q) : (a <= Py.max a b)%Q.
Proof. unfold Py.max. destruct (gtb_spec b a); lra. Qed.

Lemma max_ge_r (a b : Q) : (b <= Py.max a b)%Q.
Proof. unfold Py.max. destruct (gtb_spec b a); lra. Qed.

Lemma max_cases (a b : Q) :
  (b <= a /\ Py.max a b = a)%Q \/ (a < b /\ Py.max a b = b)%Q.
Proof. unfold Py.max. destruct (gtb_spec b a); [right | left]; split; auto; lra. Qed.

Lemma min_le_l (a b : Q) : (Py.min a b <= a)%Q.
Proof. unfold Py.min. destruct (ltb_spec b a); lra. Qed.

Lemma min_le_r (a b : Q) : (Py.min a b <= b)%Q.
Proof. unfold Py.min. destruct (ltb_spec b a); lra. Qed.

Lemma min_cases (a b : Q) :
  (a <= b /\ Py.min a b = a)%Q \/ (b < a /\ Py.min a b = b)%Q.
Proof. unfold Py.min. destruct (ltb_spec b a); [right | left]; split; auto; lra. Qed.

(** [Py.int] rounds toward zero: it never moves away from zero and drops less
    than one unit. *)
Lemma int_nonneg (q : Q) :
  (0 <= q)%Q -> (0 <= inject_Z (Py.int q) <= q)%Q /\ (q < inject_Z (Py.int q) + 1)%Q.
Proof.
  destruct q as [n d]. unfold Py.int, Qle, Qlt. simpl. intros H.
  assert (Hn : 0 <= n) by lia.
  pose proof (Z.quot_rem' n (Z.pos d)) as E.
  pose proof (Z.rem_bound_pos n (Z.pos d) Hn ltac:(lia)) as B.
  pose proof (Z.quot_pos n (Z.pos d) Hn ltac:(lia)) as P.
  nia.
Qed.

Lemma int_nonpos (q : Q) :
  (q <= 0)%Q -> (q <= inject_Z (Py.int q) <= 0)%Q /\ (inject_Z (Py.int q) - 1 < q)%Q.
Proof.
  destruct q as [n d]. unfold Py.int, Qle, Qlt. simpl. intros H.
  assert (Hn : n <= 0) by lia.
  pose proof (Z.quot_rem' n (Z.pos d)) as E.
  pose proof (Z.rem_bound_pos_neg n (Z.pos d) ltac:(lia) Hn) as B.
  assert (P : Z.quot n (Z.pos d) <= 0).
  { rewrite <- (Z.opp_involutive n), Z.quot_opp_l by lia.
    pose proof (Z.quot_pos (- n) (Z.pos d) ltac:(lia) ltac:(lia)). lia. }
  nia.
Qed.

Lemma int_inject (z : Z) : Py.int (inject_Z z) = z.
Proof. unfold Py.int. simpl. apply Z.quot_1_r. Qed.

Lemma Qabs_zero q : Qabs q == 0 -> q == 0.
Proof. apply Qabs_case; intros; lra. Qed.

Lemma int_truncated q : Py.truncated q (Py.int q).
Proof.
  split; intros H.
  - destruct (int_nonneg q H) as [[_ H1] H2]. auto.
  - destruct (int_nonpos q H) as [[H1 _] H2]. auto.
Qed.

Lemma clamp_between lo hi v :
  (lo <= hi)%Q -> (lo <= Py.min (Py.max lo v) hi <= hi)%Q.
Proof.
  intros H. pose proof (max_ge_l lo v) as H1.
  destruct (min_cases (Py.max lo v) hi) as [[H2 ->]|[H2 ->]]; lra.
Qed.

(** [nearest] is within half a unit of its argument, lies between the whole
    numbers its argument lies between, and leaves a whole number alone. *)
Lemma nearest_near (q : Q) :
  (q - 0.5 <= inject_Z (nearest q) <= q + 0.5)%Q.
Proof.
  unfold nearest. destruct (ltb_spec q 0) as [H|H].
  - destruct (int_nonpos (q - 0.5)) as [[H1 _] H2]; [lra|]. lra.
  - destruct (int_nonneg (q + 0.5)) as [[_ H1] H2]; [lra|]. lra.
Qed.

Lemma nearest_between (q : Q) (lo hi : Z) :
  (inject_Z lo <= q <= inject_Z hi)%Q -> lo <= nearest q <= hi.
Proof.
  intros [Hlo Hhi]. destruct (nearest_near q) as [H1 H2]. split.
  - destruct (Z_le_gt_dec lo (nearest q)) as [|Hgt]; [assumption|].
    exfalso. assert (E : nearest q + 1 <= lo) by lia.
    rewrite Zle_Qle, inject_Z_plus in E. change (inject_Z 1) with 1%Q in E. lra.
  - destruct (Z_le_gt_dec (nearest q) hi) as [|Hgt]; [assumption|].
    exfalso. assert (E : hi + 1 <= nearest q) by lia.
    rewrite Zle_Qle, inject_Z_plus in E. change (inject_Z 1) with 1%Q in E. lra.
Qed.

Lemma nearest_of_eq (q : Q) (z : Z) : q == inject_Z z -> nearest q = z.
Proof.
  intros E. assert (H : z <= nearest q <= z); [|lia].
  apply nearest_between. rewrite E. split; apply Qle_refl.
Qed.

End PyFacts.

(** ** The player: what each step reads and writes *)

Module KnightFacts.
Import Knight PyFacts.

(** The sample player is the one the constructor builds. *)
Example standing_is_initial :
  __init__ 0 34 [Samples.floor] Samples.idle0 Samples.run0
  = Some Samples.standing.
Proof. reflexivity. Qed.

(** At rest on the floor with no key held, a frame only advances the
    animation counter: gravity is cancelled by the floor. *)
Example rest_on_floor :
  update Samples.no_key 1000 Samples.standing
  = Some (with_counter 1 Samples.standing).
Proof. reflexivity. Qed.

(** Reads fields through the attribute assignments. *)
Ltac fields :=
  cbn [index counter world_rects idle_sheet run_sheet image rect vel_x vel_y
       sprinting jumped flipped was_sprinting_when_jumped sprint_decel_ratio
       with_index with_counter with_image with_rect with_vel_x with_vel_y
       with_sprinting with_jumped with_flipped with_was_sprinting_when_jumped
       with_sprint_decel_ratio fst snd negb andb orb
       K_a K_d K_LSHIFT K_SPACE] in *.

(** Replaces the fields of [a] that [same_body s a] fixes by those of [s]. *)
Ltac open_body s a H :=
  destruct s, a; unfold same_body in *; fields;
  decompose [and] H; clear H; subst.

(** Case analysis on a test that contains no other test. *)
Ltac split_if :=
  match goal with
  | |- context [if ?b then _ else _] =>
    lazymatch b with
    | context [if _ then _ else _] => fail
    | _ => destruct b
    end
  end; fields.

(** Closes a conjunction of equalities between fields. *)
Ltac done_fields := fields; repeat split; reflexivity.
Ltac done_body := done_fields.

(** Case analysis on a test that contains no other test, keeping what the
    test says. *)
Ltac split_if_eqn :=
  match goal with
  | |- context [if ?b then _ else _] =>
    lazymatch b with
    | context [if _ then _ else _] => fail
    | _ => destruct b eqn:?
    end
  end; fields.

(** Turns the outcome of a comparison into the order it decides. *)
Ltac read_tests :=
  repeat match goal with
         | H : (_ <? _) = true |- _ => apply Z.ltb_lt in H
         | H : (_ <? _) = false |- _ => apply Z.ltb_ge in H
         | H : Py.gtb _ _ = true |- _ => apply gtb_true in H
         | H : Py.gtb _ _ = false |- _ => apply gtb_false in H
         | H : Py.ltb _ _ = true |- _ => apply ltb_true in H
         | H : Py.ltb _ _ = false |- _ => apply ltb_false in H
         end.

Lemma same_body_refl s : same_body s s.
Proof. unfold same_body. tauto. Qed.

Lemma sprint_rules_body key i m si sm s a :
  same_body s a ->
  same_body (fst (fst (sprint_rules key i m si sm s)))
            (fst (fst (sprint_rules key i m si sm a))) /\
  snd (fst (sprint_rules key i m si sm s)) = snd (fst (sprint_rules key i m si sm a)) /\
  snd (sprint_rules key i m si sm s) = snd (sprint_rules key i m si sm a).
Proof.
  intros H. open_body s a H. destruct key as [ka kd ks kj].
  unfold sprint_rules. fields.
  destruct ks, jumped0, sprinting0, sprint_decel_ratio0,
    was_sprinting_when_jumped0; fields; try (repeat split; fail);
    destruct (Py.gtb _ _); done_body.
Qed.

Lemma steer_body key i m s a :
  same_body s a -> same_body (steer key i m s) (steer key i m a).
Proof.
  intros H. open_body s a H. destruct key as [ka kd ks kj].
  unfold steer, scale_target. fields.
  destruct ka, kd, kj, jumped0, sprinting0, sprint_decel_ratio0; done_body.
Qed.

Lemma move_x_body key i m si sm s a :
  same_body s a -> same_body (_move_x key i m si sm s) (_move_x key i m si sm a).
Proof.
  intros H. unfold _move_x.
  destruct (sprint_rules_body key i m si sm s a H) as (Hs & Hm & Hi).
  destruct (sprint_rules key i m si sm s) as [[s1 m1] i1].
  destruct (sprint_rules key i m si sm a) as [[a1 m2] i2].
  cbn [fst snd] in *. subst. now apply steer_body.
Qed.

Lemma apply_friction_body key amount s a :
  same_body s a ->
  same_body (_apply_friction key amount s) (_apply_friction key amount a).
Proof.
  intros H. open_body s a H. destruct key as [ka kd ks kj].
  unfold _apply_friction. fields.
  destruct ka, kd; fields; try done_body;
    destruct (Py.gtb _ _); try done_body; destruct (Py.ltb _ _); done_body.
Qed.

Lemma handle_movement_body key s a :
  same_body s a -> same_body (_handle_movement key s) (_handle_movement key a).
Proof.
  intros H. unfold _handle_movement.
  pose proof (move_x_body key 0.5 7.5 1.7 1.7 s a H) as H1.
  set (s1 := _move_x _ _ _ _ _ s) in *. set (a1 := _move_x _ _ _ _ _ a) in *.
  assert (H2 : same_body (if negb (jumped s1) then _apply_friction key 1.3 s1 else s1)
                         (if negb (jumped a1) then _apply_friction key 1.3 a1 else a1)).
  { replace (jumped a1) with (jumped s1) by (symmetry; apply H1).
    destruct (negb _); auto using apply_friction_body. }
  set (s2 := if negb (jumped s1) then _ else _) in *.
  set (a2 := if negb (jumped a1) then _ else _) in *.
  clearbody s2 a2. clear - H2. open_body s2 a2 H2.
  destruct (K_SPACE key), jumped0; done_body.
Qed.

Lemma apply_gravity_body t g s a :
  same_body s a -> same_body (_apply_gravity t g s) (_apply_gravity t g a).
Proof.
  intros H. open_body s a H. unfold _apply_gravity. fields.
  destruct (_ <? _); done_body.
Qed.

Lemma collide_body tile s a :
  same_body s a -> same_body (collide s tile) (collide a tile).
Proof.
  intros H. open_body s a H. unfold collide. fields.
  repeat split_if; done_body.
Qed.

Lemma fold_collide_body tiles s a :
  same_body s a -> same_body (fold_left collide tiles s) (fold_left collide tiles a).
Proof.
  revert s a. induction tiles as [|t tiles IH]; intros s a H; simpl; auto.
  apply IH. now apply collide_body.
Qed.

Lemma handle_collisions_body s a :
  same_body s a -> same_body (_handle_collisions s) (_handle_collisions a).
Proof.
  intros H. unfold _handle_collisions.
  replace (world_rects a) with (world_rects s) by (symmetry; apply H).
  now apply fold_collide_body.
Qed.

Lemma clamp_position_body wl s a :
  same_body s a -> same_body (_clamp_position wl s) (_clamp_position wl a).
Proof. intros H. open_body s a H. unfold _clamp_position. done_body. Qed.

Lemma physics_body key wl s a :
  same_body s a -> same_body (physics key wl s) (physics key wl a).
Proof.
  intros H. unfold physics.
  auto using clamp_position_body, handle_collisions_body, apply_gravity_body,
    handle_movement_body.
Qed.

Lemma untouched_refl s : untouched s s.
Proof. unfold untouched. tauto. Qed.

Lemma untouched_trans s a b : untouched s a -> untouched a b -> untouched s b.
Proof. unfold untouched. intuition congruence. Qed.

Lemma sprint_rules_untouched key i m si sm s :
  untouched s (fst (fst (sprint_rules key i m si sm s))).
Proof.
  destruct s, key. unfold untouched, sprint_rules. fields.
  destruct sprint_decel_ratio0; repeat split_if; done_fields.
Qed.

Lemma steer_untouched key i m s : untouched s (steer key i m s).
Proof.
  destruct s, key. unfold untouched, steer, scale_target. fields.
  destruct sprint_decel_ratio0; repeat split_if; done_fields.
Qed.

Lemma move_x_untouched key i m si sm s : untouched s (_move_x key i m si sm s).
Proof.
  unfold _move_x. pose proof (sprint_rules_untouched key i m si sm s) as H.
  destruct (sprint_rules key i m si sm s) as [[s1 m1] i1]. cbn [fst] in H.
  eapply untouched_trans; [exact H | apply steer_untouched].
Qed.

Lemma apply_friction_untouched key amount s :
  untouched s (_apply_friction key amount s).
Proof.
  destruct s, key. unfold untouched, _apply_friction. fields.
  repeat split_if; done_fields.
Qed.

Lemma handle_movement_untouched key s : untouched s (_handle_movement key s).
Proof.
  unfold _handle_movement.
  pose proof (move_x_untouched key 0.5 7.5 1.7 1.7 s) as H1.
  set (s1 := _move_x _ _ _ _ _ s) in *.
  assert (H2 : untouched s1 (if negb (jumped s1) then _apply_friction key 1.3 s1 else s1)).
  { destruct (negb _); auto using apply_friction_untouched, untouched_refl. }
  set (s2 := if negb (jumped s1) then _ else _) in *.
  apply (untouched_trans _ _ _ H1), (untouched_trans _ _ _ H2).
  clearbody s2. clear. destruct s2. unfold untouched.
  destruct (K_SPACE key); fields; repeat split_if; done_fields.
Qed.

Lemma apply_gravity_untouched t g s : untouched s (_apply_gravity t g s).
Proof.
  destruct s. unfold untouched, _apply_gravity. fields.
  repeat split_if; done_fields.
Qed.

Lemma collide_untouched s tile : untouched s (collide s tile).
Proof.
  destruct s. unfold untouched, collide. fields. repeat split_if; done_fields.
Qed.

Lemma collide_rect s tile : rect (collide s tile) = rect s.
Proof.
  destruct s. unfold collide. fields. repeat split_if; done_fields.
Qed.

Lemma fold_collide_untouched tiles s : untouched s (fold_left collide tiles s).
Proof.
  revert s. induction tiles as [|t tiles IH]; intros s; simpl.
  - apply untouched_refl.
  - eapply untouched_trans; [apply collide_untouched | apply IH].
Qed.

Lemma fold_collide_rect tiles s : rect (fold_left collide tiles s) = rect s.
Proof.
  revert s. induction tiles as [|t tiles IH]; intros s; simpl; auto.
  rewrite IH. apply collide_rect.
Qed.

Lemma clamp_position_untouched wl s : untouched s (_clamp_position wl s).
Proof. destruct s. unfold untouched, _clamp_position. done_fields. Qed.

Lemma physics_untouched key wl s : untouched s (physics key wl s).
Proof.
  unfold physics.
  eapply untouched_trans; [apply handle_movement_untouched|].
  eapply untouched_trans; [apply apply_gravity_untouched|].
  eapply untouched_trans; [apply fold_collide_untouched|].
  apply clamp_position_untouched.
Qed.

Lemma animate_frame sprite_sheet steps cooldown s :
  0 < steps -> steps * fst size <= surf_w sprite_sheet ->
  snd size <= surf_h sprite_sheet ->
  exists a, animate sprite_sheet steps cooldown s = Some a /\ same_body s a /\
    (cooldown < counter s + 1 ->
     counter a = 0 /\ index a = (index s + 1) mod steps /\
     0 <= index a <= steps - 1 /\
     image a = mkFrame sprite_sheet
                 (mkRect (index a * fst size) 0 (fst size) (snd size))
                 (flipped s) /\
     inside sprite_sheet (area (image a))) /\
    (counter s + 1 <= cooldown ->
     counter a = counter s + 1 /\ index a = index s /\ image a = image s).
Proof.
  intros Hsteps Hw Hh. unfold animate. fields.
  destruct (Z.ltb_spec cooldown (counter s + 1)) as [Hc|Hc].
  - pose proof (Z.mod_pos_bound (index s + 1) steps Hsteps) as Hm.
    unfold subsurface, size in *. cbn [fst snd] in *.
    replace ((0 <=? _) && _ && _ && _) with true.
    + eexists. split; [reflexivity|]. destruct s. fields.
      split; [unfold same_body; done_fields|]. split; [|lia]. intros _.
      unfold inside. destruct flipped0; cbn; repeat split; try reflexivity; nia.
    + symmetry. rewrite !andb_true_iff, !Z.leb_le. repeat split; nia.
  - eexists. split; [reflexivity|]. destruct s. fields.
    split; [unfold same_body; done_fields|]. split; [lia|]. intros _. auto.
Qed.

Lemma physics_resolve key wl s :
  physics key wl s = _clamp_position wl (resolve key s).
Proof. reflexivity. Qed.

Lemma same_flight_trans s a b : same_flight s a -> same_flight a b -> same_flight s b.
Proof. unfold same_flight. intuition congruence. Qed.

Lemma same_sprint_trans s a b : same_sprint s a -> same_sprint a b -> same_sprint s b.
Proof. unfold same_sprint. intuition congruence. Qed.

Lemma sprint_rules_flight key i m si sm s :
  same_flight s (fst (fst (sprint_rules key i m si sm s))).
Proof.
  destruct s, key. unfold same_flight, sprint_rules. fields.
  destruct sprint_decel_ratio0; repeat split_if; done_fields.
Qed.

Lemma steer_flight key i m s : same_flight s (steer key i m s).
Proof.
  destruct s, key. unfold same_flight, steer, scale_target. fields.
  destruct sprint_decel_ratio0; repeat split_if; done_fields.
Qed.

Lemma move_x_flight key i m si sm s : same_flight s (_move_x key i m si sm s).
Proof.
  unfold _move_x. pose proof (sprint_rules_flight key i m si sm s) as H.
  destruct (sprint_rules key i m si sm s) as [[s1 m1] i1]. cbn [fst] in H.
  eapply same_flight_trans; [exact H | apply steer_flight].
Qed.

Lemma apply_friction_flight key amount s :
  same_flight s (_apply_friction key amount s).
Proof.
  destruct s, key. unfold same_flight, _apply_friction. fields.
  repeat split_if; done_fields.
Qed.

(** What [_handle_movement] does to the vertical state: only the jump. *)
Lemma handle_movement_jump key s :
  rect (_handle_movement key s) = rect s /\
  jumped (_handle_movement key s) = jumped s || K_SPACE key /\
  vel_y (_handle_movement key s) =
    if K_SPACE key && negb (jumped s) then -20 else vel_y s.
Proof.
  unfold _handle_movement.
  pose proof (move_x_flight key 0.5 7.5 1.7 1.7 s) as H1.
  set (s1 := _move_x _ _ _ _ _ s) in *.
  assert (H2 : same_flight s1 (if negb (jumped s1) then _apply_friction key 1.3 s1 else s1)).
  { destruct (negb _); [apply apply_friction_flight | unfold same_flight; auto]. }
  pose proof (same_flight_trans _ _ _ H1 H2) as (Hr & Hv & Hj).
  set (s2 := if negb (jumped s1) then _ else _) in *. clearbody s2.
  rewrite <- Hr, <- Hv, <- Hj. clear. destruct s2.
  destruct (K_SPACE key), jumped0; done_fields.
Qed.

Lemma apply_gravity_sprint t g s : same_sprint s (_apply_gravity t g s).
Proof.
  destruct s. unfold same_sprint, _apply_gravity. fields.
  repeat split_if; done_fields.
Qed.

Lemma apply_gravity_flight t g s :
  rect (_apply_gravity t g s) = rect s /\ vel_x (_apply_gravity t g s) = vel_x s /\
  jumped (_apply_gravity t g s) = jumped s /\
  vel_y (_apply_gravity t g s) = if vel_y s <? t then vel_y s + g else vel_y s.
Proof.
  destruct s. unfold _apply_gravity. fields. repeat split_if; done_fields.
Qed.

Lemma collide_sprint s tile : same_sprint s (collide s tile).
Proof.
  destruct s. unfold same_sprint, collide. fields. repeat split_if; done_fields.
Qed.

Lemma fold_collide_sprint tiles s : same_sprint s (fold_left collide tiles s).
Proof.
  revert s. induction tiles as [|t tiles IH]; intros s; simpl.
  - unfold same_sprint. auto.
  - eapply same_sprint_trans; [apply collide_sprint | apply IH].
Qed.

Lemma clamp_position_sprint wl s : same_sprint s (_clamp_position wl s).
Proof. destruct s. unfold same_sprint, _clamp_position. done_fields. Qed.

Lemma clamp_position_vel wl s :
  vel_x (_clamp_position wl s) = vel_x s /\ vel_y (_clamp_position wl s) = vel_y s /\
  jumped (_clamp_position wl s) = jumped s.
Proof. destruct s. unfold _clamp_position. done_fields. Qed.

(** The vertical half of the loop body. *)
Lemma collide_vertical s tile :
  let r := rect s in
  let hit := colliderect tile (mkRect (x r) (y r + vel_y s) (width r) (height r)) in
  (hit = true -> 0 < vel_y s ->
   vel_y (collide s tile) = top tile - bottom r /\ jumped (collide s tile) = false) /\
  (hit = true -> vel_y s < 0 ->
   vel_y (collide s tile) = bottom tile - top r /\
   jumped (collide s tile) = jumped s) /\
  (hit = false \/ vel_y s = 0 ->
   vel_y (collide s tile) = vel_y s /\ jumped (collide s tile) = jumped s).
Proof.
  destruct s. unfold collide. fields. cbv zeta.
  repeat split_if_eqn; read_tests; repeat split; intros; try reflexivity;
    try discriminate; try lia; intuition (try discriminate; try lia).
Qed.

(** The horizontal half of the loop body. *)
Lemma collide_horizontal s tile :
  let r := rect s in
  let hit :=
    colliderect tile
      (rect_of_args (inject_Z (x r) + vel_x s) (y r) (width r) (height r)) in
  (hit = true -> (0 < vel_x s)%Q ->
   vel_x (collide s tile) = inject_Z (left tile - right r)) /\
  (hit = true -> (vel_x s < 0)%Q ->
   vel_x (collide s tile) = inject_Z (right tile - left r)) /\
  (hit = false \/ vel_x s == 0 -> vel_x (collide s tile) = vel_x s).
Proof.
  destruct s. unfold collide. fields. cbv zeta.
  repeat split_if_eqn; read_tests; repeat split; intros; try reflexivity;
    try discriminate; try lra; intuition (try discriminate; try lra).
Qed.

Lemma fold_collide_no_vertical tiles s :
  Forall (fun tile =>
            colliderect tile
              (mkRect (x (rect s)) (y (rect s) + vel_y s) (width (rect s))
                 (height (rect s))) = false) tiles ->
  vel_y (fold_left collide tiles s) = vel_y s /\
  jumped (fold_left collide tiles s) = jumped s.
Proof.
  revert s. induction tiles as [|t tiles IH]; intros s H; simpl; auto.
  inversion H as [|? ? Ht Hrest]; subst.
  destruct (collide_vertical s t) as (_ & _ & Hno).
  destruct (Hno (or_introl Ht)) as [Hv Hj].
  rewrite <- Hv, <- Hj. apply IH.
  rewrite collide_rect, Hv. exact Hrest.
Qed.

Lemma fold_collide_no_horizontal tiles s :
  Forall (fun tile =>
            colliderect tile
              (rect_of_args (inject_Z (x (rect s)) + vel_x s) (y (rect s))
                 (width (rect s)) (height (rect s))) = false) tiles ->
  vel_x (fold_left collide tiles s) = vel_x s.
Proof.
  revert s. induction tiles as [|t tiles IH]; intros s H; simpl; auto.
  inversion H as [|? ? Ht Hrest]; subst.
  destruct (collide_horizontal s t) as (_ & _ & Hno).
  pose proof (Hno (or_introl Ht)) as Hv.
  rewrite <- Hv. apply IH.
  rewrite collide_rect, Hv. exact Hrest.
Qed.

(** The flag is only ever cleared by the collision loop. *)
Lemma fold_collide_jumped tiles s :
  jumped (fold_left collide tiles s) = true -> jumped s = true.
Proof.
  revert s. induction tiles as [|t tiles IH]; intros s H; simpl in *; auto.
  apply IH in H. revert H. destruct s. unfold collide. fields.
  repeat split_if; fields; congruence.
Qed.

Lemma fold_collide_grounded tiles s :
  jumped s = false -> jumped (fold_left collide tiles s) = false.
Proof.
  intros H. destruct (jumped (fold_left collide tiles s)) eqn:E; auto.
  apply fold_collide_jumped in E. congruence.
Qed.

Lemma resolve_rect key s : rect (resolve key s) = rect s.
Proof.
  unfold resolve, _handle_collisions. rewrite fold_collide_rect.
  destruct (apply_gravity_flight 30 1 (_handle_movement key s)) as (-> & _).
  apply handle_movement_jump.
Qed.

Lemma update_physics key wl s :
  sheets_ok s ->
  exists a, update key wl s = Some (physics key wl a) /\ same_body s a /\
    (cycle_cooldown key < counter s + 1 ->
     counter a = 0 /\ index a = (index s + 1) mod cycle_steps key /\
     0 <= index a <= cycle_steps key - 1 /\
     image a = mkFrame (cycle_sheet key s)
                 (mkRect (index a * fst size) 0 (fst size) (snd size))
                 (flipped s) /\
     inside (cycle_sheet key s) (area (image a))) /\
    (counter s + 1 <= cycle_cooldown key ->
     counter a = counter s + 1 /\ index a = index s /\ image a = image s).
Proof.
  intros (Hrw & Hrh & Hiw & Hih).
  unfold update, cycle_steps, cycle_cooldown, cycle_sheet.
  destruct (K_a key || K_d key).
  - destruct (animate_frame (run_sheet s) 16 8 s) as (a & Ha & Hb & Hc);
      try lia. rewrite Ha. eauto.
  - destruct (animate_frame (idle_sheet s) 4 10 s) as (a & Ha & Hb & Hc);
      try lia. rewrite Ha. eauto.
Qed.

Lemma update_sheets_ok key wl s s' :
  sheets_ok s -> update key wl s = Some s' -> sheets_ok s'.
Proof.
  intros Hs Hu. destruct (update_physics key wl s Hs) as (a & Ha & Hb & _).
  rewrite Ha in Hu. injection Hu as <-.
  destruct (physics_untouched key wl a) as (_ & Hi & Hr & _).
  destruct Hb as (_ & Hi' & Hr' & _).
  unfold sheets_ok in *. rewrite Hi, Hr, Hi', Hr'. exact Hs.
Qed.

Lemma run_total keys wl s :
  sheets_ok s -> exists s', run keys wl s = Some s' /\ sheets_ok s'.
Proof.
  revert s. induction keys as [|key keys IH]; intros s Hs; simpl.
  - eauto.
  - destruct (update_physics key wl s Hs) as (a & Ha & _).
    pose proof (update_sheets_ok key wl s _ Hs Ha) as Hs'.
    rewrite Ha. now apply IH.
Qed.

Lemma resolve_vertical key s :
  no_vertical_hit s (vel_y (_apply_gravity 30 1 (_handle_movement key s))) ->
  vel_y (resolve key s) = vel_y (_apply_gravity 30 1 (_handle_movement key s)) /\
  jumped (resolve key s) = jumped s || K_SPACE key.
Proof.
  intros H. unfold resolve, _handle_collisions.
  set (m := _apply_gravity 30 1 (_handle_movement key s)) in *.
  destruct (handle_movement_jump key s) as (Hr & Hj & _).
  destruct (apply_gravity_flight 30 1 (_handle_movement key s)) as (Hr' & _ & Hj' & _).
  fold m in Hr', Hj'.
  destruct (handle_movement_untouched key s) as (Hw & _).
  destruct (apply_gravity_untouched 30 1 (_handle_movement key s)) as (Hw' & _).
  fold m in Hw'.
  destruct (fold_collide_no_vertical (world_rects m) m) as [Hv Hjj].
  - unfold no_vertical_hit in H. rewrite Hw', Hw, Hr', Hr. exact H.
  - rewrite Hv, Hjj, Hj', Hj. auto.
Qed.

(** The vertical velocity and the flag after one frame in which no tile is
    hit from above or below. *)
Lemma update_vertical key wl s :
  sheets_ok s ->
  let v := vel_y (_apply_gravity 30 1 (_handle_movement key s)) in
  no_vertical_hit s v ->
  exists s', update key wl s = Some s' /\ vel_y s' = v /\
    jumped s' = jumped s || K_SPACE key.
Proof.
  intros Hs v Hv. destruct (update_physics key wl s Hs) as (a & Ha & Hb & _).
  exists (physics key wl a). split; [exact Ha|].
  pose proof (physics_body key wl s a Hb) as Hp.
  destruct Hp as (_ & _ & _ & _ & _ & -> & _ & -> & _).
  rewrite physics_resolve.
  destruct (clamp_position_vel wl (resolve key s)) as (_ & -> & ->).
  now apply resolve_vertical.
Qed.

(** The flag can only rise in a frame with the jump key down. *)
Lemma update_jumped key wl s s' :
  update key wl s = Some s' -> jumped s' = true ->
  jumped s = true \/ K_SPACE key = true.
Proof.
  unfold update. intros Hu Hj.
  assert (exists a, same_body s a /\ s' = physics key wl a) as (a & Hb & ->).
  { destruct (K_a key || K_d key).
    - unfold animate in Hu. fields. destruct (_ <? _).
      + destruct subsurface; [|discriminate]. injection Hu as <-. eexists. split; [|reflexivity].
        destruct s. unfold same_body. done_fields.
      + injection Hu as <-. eexists. split; [|reflexivity].
        destruct s. unfold same_body. done_fields.
    - unfold animate in Hu. fields. destruct (_ <? _).
      + destruct subsurface; [|discriminate]. injection Hu as <-. eexists. split; [|reflexivity].
        destruct s. unfold same_body. done_fields.
      + injection Hu as <-. eexists. split; [|reflexivity].
        destruct s. unfold same_body. done_fields. }
  rewrite physics_resolve in Hj.
  destruct (clamp_position_vel wl (resolve key a)) as (_ & _ & Hc).
  rewrite Hc in Hj. unfold resolve, _handle_collisions in Hj.
  apply fold_collide_jumped in Hj.
  destruct (apply_gravity_flight 30 1 (_handle_movement key a)) as (_ & _ & Hg & _).
  rewrite Hg in Hj. destruct (handle_movement_jump key a) as (_ & Hm & _).
  rewrite Hm in Hj. destruct Hb as (_ & _ & _ & _ & _ & _ & _ & Hjs & _).
  rewrite Hjs in Hj. apply orb_true_iff in Hj. exact Hj.
Qed.

(** Frames without the jump key keep a grounded player grounded. *)
Lemma run_grounded keys wl s :
  sheets_ok s -> jumped s = false ->
  Forall (fun key => K_SPACE key = false) keys ->
  exists s', run keys wl s = Some s' /\ sheets_ok s' /\ jumped s' = false.
Proof.
  revert s. induction keys as [|key keys IH]; intros s Hs Hj Hk; simpl.
  - eauto.
  - inversion Hk as [|? ? Hkey Hrest]; subst.
    destruct (update_physics key wl s Hs) as (a & Ha & _).
    pose proof (update_sheets_ok key wl s _ Hs Ha) as Hs'.
    rewrite Ha. apply IH; auto.
    destruct (jumped (physics key wl a)) eqn:E; auto.
    destruct (update_jumped key wl s _ Ha E); congruence.
Qed.

(** On the ground the friction step is part of the movement. *)
Lemma handle_movement_grounded_friction key s :
  jumped s = false ->
  vel_x (_handle_movement key s) =
    vel_x (_apply_friction key 1.3 (_move_x key 0.5 7.5 1.7 1.7 s)) /\
  sprint_decel_ratio (_handle_movement key s) =
    sprint_decel_ratio (fst (fst (sprint_rules key 0.5 7.5 1.7 1.7 s))).
Proof.
  intros Hj. unfold _handle_movement.
  destruct (move_x_flight key 0.5 7.5 1.7 1.7 s) as (_ & _ & Hmj).
  assert (Hr : sprint_decel_ratio (_move_x key 0.5 7.5 1.7 1.7 s) =
               sprint_decel_ratio (fst (fst (sprint_rules key 0.5 7.5 1.7 1.7 s)))).
  { unfold _move_x. destruct (sprint_rules key 0.5 7.5 1.7 1.7 s) as [[s1 m1] i1].
    cbn [fst]. destruct s1, key. unfold steer, scale_target. fields.
    destruct sprint_decel_ratio0; repeat split_if; reflexivity. }
  rewrite <- Hr.
  set (s1 := _move_x _ _ _ _ _ s) in *. rewrite Hmj, Hj. cbn [negb].
  assert (Hf : sprint_decel_ratio (_apply_friction key 1.3 s1) = sprint_decel_ratio s1).
  { destruct s1, key. unfold _apply_friction. fields. repeat split_if; reflexivity. }
  rewrite <- Hf.
  set (s2 := _apply_friction key 1.3 s1). clearbody s2. destruct s2.
  destruct (K_SPACE key); fields; repeat split_if; done_fields.
Qed.

Lemma steer_idle key i m s :
  K_a key = false -> K_d key = false ->
  vel_x (steer key i m s) = vel_x s.
Proof.
  intros Ha Hd. destruct s, key. fields. subst. unfold steer. fields.
  repeat split_if; reflexivity.
Qed.

Lemma steer_ratio key i m s :
  sprint_decel_ratio (steer key i m s) = sprint_decel_ratio s.
Proof.
  destruct s, key. unfold steer, scale_target. fields.
  destruct sprint_decel_ratio0; repeat split_if; reflexivity.
Qed.

Lemma handle_movement_ratio key s :
  sprint_decel_ratio (_handle_movement key s) =
    sprint_decel_ratio (fst (fst (sprint_rules key 0.5 7.5 1.7 1.7 s))).
Proof.
  unfold _handle_movement.
  assert (Hr : sprint_decel_ratio (_move_x key 0.5 7.5 1.7 1.7 s) =
               sprint_decel_ratio (fst (fst (sprint_rules key 0.5 7.5 1.7 1.7 s)))).
  { unfold _move_x. destruct (sprint_rules key 0.5 7.5 1.7 1.7 s) as [[s1 m1] i1].
    apply steer_ratio. }
  rewrite <- Hr. set (s1 := _move_x _ _ _ _ _ s).
  assert (Hf : sprint_decel_ratio
                 (if negb (jumped s1) then _apply_friction key 1.3 s1 else s1) =
               sprint_decel_ratio s1).
  { destruct (negb _); auto. destruct s1, key. unfold _apply_friction. fields.
    repeat split_if; reflexivity. }
  rewrite <- Hf. set (s2 := if negb (jumped s1) then _ else _). clearbody s2.
  destruct s2. destruct (K_SPACE key); fields; repeat split_if; reflexivity.
Qed.

Lemma handle_movement_idle key s :
  jumped s = false -> K_a key = false -> K_d key = false ->
  vel_x (_handle_movement key s) =
    vel_x (_apply_friction key 1.3
             (fst (fst (sprint_rules key 0.5 7.5 1.7 1.7 s)))).
Proof.
  intros Hj Ha Hd.
  destruct (handle_movement_grounded_friction key s Hj) as (-> & _).
  unfold _move_x. destruct (sprint_rules key 0.5 7.5 1.7 1.7 s) as [[s1 m1] i1].
  cbn [fst]. pose proof (steer_idle key i1 m1 s1 Ha Hd) as Hv.
  set (s2 := steer key i1 m1 s1) in *. clearbody s2.
  destruct s1, s2, key. fields. subst. unfold _apply_friction. fields.
  repeat split_if; reflexivity.
Qed.

(** The ground ramp either leaves [vel_x] alone or takes one percent off. *)
Lemma sprint_rules_vel_x key s :
  jumped s = false ->
  let m := vel_x (fst (fst (sprint_rules key 0.5 7.5 1.7 1.7 s))) in
  (m = vel_x s \/ m = (vel_x s * 0.99)%Q) /\
  (K_LSHIFT key = true \/ (sprinting s = false /\ sprint_decel_ratio s = None) ->
   m = vel_x s).
Proof.
  intros Hj. destruct s, key. fields. subst. unfold sprint_rules. fields.
  destruct K_LSHIFT, sprinting0, sprint_decel_ratio0; fields;
    repeat split_if; fields; split; auto; intros [H|[H1 H2]]; auto; discriminate.
Qed.

(** Friction with no direction key: toward zero, by at most [amount]. *)
Lemma apply_friction_spec key s :
  K_a key = false -> K_d key = false ->
  let m := vel_x s in
  let f := vel_x (_apply_friction key 1.3 s) in
  ((0 <= m -> 0 <= f <= m) /\ (m <= 0 -> m <= f <= 0) /\
   Qabs m - Qabs f <= 1.3 /\ (Qabs m <= 1.3 -> f == 0))%Q.
Proof.
  intros Ha Hd. destruct s, key. fields. subst. unfold _apply_friction. fields.
  cbv zeta. repeat split_if_eqn; read_tests.
  - destruct (max_cases 0 (vel_x0 - 1.3)) as [[H1 ->]|[H1 ->]];
      rewrite (Qabs_pos vel_x0) by lra;
      [rewrite Qabs_pos by lra | rewrite Qabs_pos by lra];
      repeat split; intros; lra.
  - destruct (min_cases 0 (vel_x0 + 1.3)) as [[H1 ->]|[H1 ->]];
      rewrite (Qabs_neg vel_x0) by lra;
      [rewrite Qabs_pos by lra | rewrite Qabs_neg by lra];
      repeat split; intros; lra.
  - assert (E : vel_x0 == 0) by lra. rewrite Qabs_pos by lra.
    repeat split; intros; lra.
Qed.

Lemma resolve_horizontal key s :
  no_horizontal_hit s (vel_x (_handle_movement key s)) ->
  vel_x (resolve key s) = vel_x (_handle_movement key s).
Proof.
  intros H. unfold resolve, _handle_collisions.
  destruct (handle_movement_jump key s) as (Hr & _).
  destruct (apply_gravity_flight 30 1 (_handle_movement key s)) as (Hr' & Hx & _).
  destruct (handle_movement_untouched key s) as (Hw & _).
  destruct (apply_gravity_untouched 30 1 (_handle_movement key s)) as (Hw' & _).
  set (m := _apply_gravity 30 1 (_handle_movement key s)) in *.
  rewrite <- Hx. apply fold_collide_no_horizontal.
  unfold no_horizontal_hit in H. rewrite Hw', Hw, Hr', Hr, Hx. exact H.
Qed.

(** The horizontal velocity after one frame in which no tile is hit from
    the side. *)
Lemma update_horizontal key wl s :
  sheets_ok s ->
  no_horizontal_hit s (vel_x (_handle_movement key s)) ->
  exists s', update key wl s = Some s' /\
    vel_x s' = vel_x (_handle_movement key s).
Proof.
  intros Hs Hv. destruct (update_physics key wl s Hs) as (a & Ha & Hb & _).
  exists (physics key wl a). split; [exact Ha|].
  pose proof (physics_body key wl s a Hb) as Hp.
  destruct Hp as (_ & _ & _ & _ & -> & _).
  rewrite physics_resolve.
  destruct (clamp_position_vel wl (resolve key s)) as (-> & _).
  now apply resolve_horizontal.
Qed.

(** The sprint ratio after one frame is the one the sprint rules leave. *)
Lemma update_ratio key wl s :
  sheets_ok s ->
  exists s', update key wl s = Some s' /\
    sprint_decel_ratio s' =
      sprint_decel_ratio (fst (fst (sprint_rules key 0.5 7.5 1.7 1.7 s))).
Proof.
  intros Hs. destruct (update_physics key wl s Hs) as (a & Ha & Hb & _).
  exists (physics key wl a). split; [exact Ha|].
  pose proof (physics_body key wl s a Hb) as Hp.
  destruct Hp as (_ & _ & _ & _ & _ & _ & _ & _ & _ & _ & ->).
  rewrite physics_resolve.
  destruct (clamp_position_sprint wl (resolve key s)) as (_ & _ & _ & ->).
  unfold resolve, _handle_collisions.
  destruct (fold_collide_sprint
              (world_rects (_apply_gravity 30 1 (_handle_movement key s)))
              (_apply_gravity 30 1 (_handle_movement key s))) as (_ & _ & _ & ->).
  destruct (apply_gravity_sprint 30 1 (_handle_movement key s)) as (_ & _ & _ & ->).
  apply handle_movement_ratio.
Qed.

(** The ground ramp for the ratio in force: the one just captured on
    release, else the stored one. *)
Lemma sprint_rules_ramp key s :
  jumped s = false -> K_LSHIFT key = false ->
  let v := vel_x s in
  let ramped := fst (fst (sprint_rules key 0.5 7.5 1.7 1.7 s)) in
  let in_force :=
    if sprinting s then Some (Qabs v / (7.5 * 1.7))%Q
    else sprint_decel_ratio s in
  match in_force with
  | Some ratio =>
    ((7.5 * ratio < Qabs v)%Q ->
     sprint_decel_ratio ramped = Some (ratio * 0.99)%Q /\
     vel_x ramped = (v * 0.99)%Q) /\
    ((Qabs v <= 7.5 * ratio)%Q ->
     sprint_decel_ratio ramped = None /\ vel_x ramped = v)
  | None => sprint_decel_ratio ramped = None /\ vel_x ramped = v
  end.
Proof.
  intros Hj Hk. destruct s, key. fields. subst. unfold sprint_rules. fields.
  destruct sprinting0; fields; [|destruct sprint_decel_ratio0]; fields; auto;
    split_if_eqn; read_tests; split; intros; auto; lra.
Qed.

(** A player that stands still on an axis is not clamped on it. *)
Lemma fold_collide_still_x tiles s :
  vel_x s == 0 -> vel_x (fold_left collide tiles s) = vel_x s.
Proof.
  revert s. induction tiles as [|t tiles IH]; intros s H; simpl; auto.
  destruct (collide_horizontal s t) as (_ & _ & Hno).
  pose proof (Hno (or_intror H)) as Hv. rewrite <- Hv. apply IH.
  now rewrite Hv.
Qed.

Lemma fold_collide_still_y tiles s :
  vel_y s = 0 -> vel_y (fold_left collide tiles s) = vel_y s.
Proof.
  revert s. induction tiles as [|t tiles IH]; intros s H; simpl; auto.
  destruct (collide_vertical s t) as (_ & _ & Hno).
  destruct (Hno (or_intror H)) as [Hv _]. rewrite <- Hv. apply IH.
  now rewrite Hv.
Qed.

End KnightFacts.

(** ** The player: claims *)

Module KnightSpec.
Import Knight KnightFacts PyFacts Samples.

(** C1 (the code departs from the claim).  The claim: after a frame the
    player's box overlaps no tile.  The loop tests the box moved along x
    alone and the box moved along y alone, never the box moved along both.
    Here the player is clear of the tile, neither single-axis test fires,
    and the frame ends with the player's box inside the tile's corner. *)
Theorem corner_overlap :
  colliderect corner_tile (rect before_corner) = false /\
  exists s', update no_key 1000 before_corner = Some s' /\
    rect s' = mkRect 5 35 49 66 /\
    colliderect corner_tile (rect s') = true.
Proof. split; [reflexivity|]. eexists. split; [vm_compute; reflexivity|]. split; reflexivity. Qed.

(** C2, as stated, fails: gravity is applied in the frame of the jump, so
    with no tile at all the frame of the jump ends with [vel_y = -19], not
    -20, and the next frame ends with -18, not -19. *)
Lemma jump_velocity_counterexample :
  jumped floating = false /\ world_rects floating = [] /\
  exists s1 s2,
    update jump_key 1000 floating = Some s1 /\
    update no_key 1000 s1 = Some s2 /\
    vel_y s1 <> -20 /\ vel_y s2 <> -19.
Proof.
  split; [reflexivity|]. split; [reflexivity|].
  eexists. eexists. split; [vm_compute; reflexivity|].
  split; [vm_compute; reflexivity|]. split; discriminate.
Qed.

(** C2, amended.  When the jump key is down and the flag is clear, the
    movement step sets [vel_y] to -20 and raises the flag; gravity of the
    same frame makes it -19 by the end of that frame, and the frame after
    ends with -18 and the flag still up, as long as no tile is hit from
    above or below in either frame. *)
Theorem jump_then_gravity key key2 wl s :
  sheets_ok s -> jumped s = false -> K_SPACE key = true ->
  no_vertical_hit s (-19) ->
  vel_y (_handle_movement key s) = -20 /\
  jumped (_handle_movement key s) = true /\
  exists s1, update key wl s = Some s1 /\ vel_y s1 = -19 /\ jumped s1 = true /\
    (no_vertical_hit s1 (-18) ->
     exists s2, update key2 wl s1 = Some s2 /\ vel_y s2 = -18 /\
       jumped s2 = true).
Proof.
  intros Hs Hj Hk Hv.
  destruct (handle_movement_jump key s) as (_ & Hmj & Hmv).
  rewrite Hj, Hk in Hmj, Hmv. cbn in Hmj, Hmv.
  split; [exact Hmv|]. split; [exact Hmj|].
  destruct (apply_gravity_flight 30 1 (_handle_movement key s)) as (_ & _ & _ & Hg).
  rewrite Hmv in Hg. cbn in Hg.
  destruct (update_vertical key wl s Hs) as (s1 & Hu & Hv1 & Hj1).
  { rewrite Hg. exact Hv. }
  rewrite Hg in Hv1. rewrite Hj, Hk in Hj1. cbn in Hj1.
  exists s1. repeat split; auto. intros Hv2.
  pose proof (update_sheets_ok key wl s s1 Hs Hu) as Hs1.
  destruct (handle_movement_jump key2 s1) as (_ & _ & Hmv2).
  rewrite Hj1, andb_false_r, Hv1 in Hmv2.
  destruct (apply_gravity_flight 30 1 (_handle_movement key2 s1)) as (_ & _ & _ & Hg2).
  rewrite Hmv2 in Hg2. cbn in Hg2.
  destruct (update_vertical key2 wl s1 Hs1) as (s2 & Hu2 & Hv2' & Hj2).
  { rewrite Hg2. exact Hv2. }
  rewrite Hg2 in Hv2'. rewrite Hj1 in Hj2. cbn in Hj2. eauto.
Qed.

(** The jump from the floor, then a frame with no key held. *)
Lemma jump_then_gravity_witness :
  exists s1 s2,
    update jump_key 1000 standing = Some s1 /\ vel_y s1 = -19 /\
    update no_key 1000 s1 = Some s2 /\ vel_y s2 = -18.
Proof.
  destruct (jump_then_gravity jump_key no_key 1000 standing)
    as (_ & _ & s1 & Hu & Hv & _ & Hnext).
  - vm_compute. intuition discriminate.
  - reflexivity.
  - reflexivity.
  - repeat constructor.
  - pose proof Hu as E. vm_compute in E. injection E as E.
    destruct Hnext as (s2 & Hu2 & Hv2 & _).
    + rewrite <- E. repeat constructor.
    + exists s1, s2. auto.
Defined.

(** C3, as stated, fails: released at top sprint speed with no direction
    key, the ramp first takes one percent off [vel_x] and friction then
    takes 1.3, so the speed drops by 1.4275 in one frame. *)
Lemma friction_step_counterexample :
  jumped sprinting_fast = false /\ K_a no_key = false /\ K_d no_key = false /\
  exists s', update no_key 1000 sprinting_fast = Some s' /\
    ~ (Qabs (vel_x sprinting_fast) - Qabs (vel_x s') <= 1.3)%Q.
Proof.
  repeat (split; [reflexivity|]). eexists. split; [vm_compute; reflexivity|].
  vm_compute. intros H. apply H. reflexivity.
Qed.

(** C3, amended.  In a frame with neither direction key held, the player
    grounded and no tile hit from the side, [vel_x] moves toward 0 and
    keeps its sign, stopping at 0 exactly; the speed drops by at most
    [1.3 + 0.01 * |vel_x|], and by at most 1.3 when the sprint ramp cannot
    fire (sprint key held, or no ratio stored and sprint not just
    released). *)
Theorem friction_toward_zero key wl s :
  sheets_ok s -> jumped s = false -> K_a key = false -> K_d key = false ->
  no_horizontal_hit s (vel_x (_handle_movement key s)) ->
  exists s', update key wl s = Some s' /\
    let v := vel_x s in
    let v' := vel_x s' in
    ((0 <= v -> 0 <= v' <= v) /\ (v <= 0 -> v <= v' <= 0) /\
     Qabs v - Qabs v' <= 1.3 + 0.01 * Qabs v /\
     (K_LSHIFT key = true \/
      (sprinting s = false /\ sprint_decel_ratio s = None) ->
      Qabs v - Qabs v' <= 1.3) /\
     (Qabs v <= 1.3 -> v' == 0))%Q.
Proof.
  intros Hs Hj Ha Hd Hno.
  destruct (update_horizontal key wl s Hs Hno) as (s' & Hu & Hv).
  exists s'. split; [exact Hu|]. cbv zeta. rewrite Hv.
  rewrite (handle_movement_idle key s Hj Ha Hd).
  destruct (sprint_rules_vel_x key s Hj) as (Hm & Hkeep).
  destruct (apply_friction_spec key (fst (fst (sprint_rules key 0.5 7.5 1.7 1.7 s)))
              Ha Hd) as (Hpos & Hneg & Habs & Hstop).
  set (m := vel_x (fst (fst (sprint_rules key 0.5 7.5 1.7 1.7 s)))) in *.
  set (f := vel_x (_apply_friction key 1.3 _)) in *. clearbody m f.
  assert (Hmv : (Qabs m <= Qabs (vel_x s) /\
                 Qabs (vel_x s) - Qabs m <= 0.01 * Qabs (vel_x s) /\
                 (0 <= vel_x s -> 0 <= m <= vel_x s) /\
                 (vel_x s <= 0 -> vel_x s <= m <= 0))%Q).
  { destruct Hm as [->| ->].
    - pose proof (Qabs_nonneg (vel_x s)). repeat split; intros; lra.
    - rewrite Qabs_Qmult. replace (Qabs 0.99) with 0.99%Q by reflexivity.
      pose proof (Qabs_nonneg (vel_x s)). repeat split; intros; lra. }
  destruct Hmv as (H1 & H2 & H3 & H4).
  split; [|split; [|split; [|split]]].
  - intros H. pose proof (H3 H). pose proof (Hpos ltac:(lra)). lra.
  - intros H. pose proof (H4 H). pose proof (Hneg ltac:(lra)). lra.
  - lra.
  - intros H. rewrite <- (Hkeep H). lra.
  - intros H. apply Hstop. lra.
Qed.

(** Sliding at 3 on the floor with no key held. *)
Lemma friction_toward_zero_witness :
  exists s', update no_key 1000 sliding = Some s' /\
    (Qabs (vel_x sliding) - Qabs (vel_x s') <= 1.3)%Q.
Proof.
  destruct (friction_toward_zero no_key 1000 sliding)
    as (s' & Hu & _ & _ & _ & Hstep & _).
  - vm_compute. intuition discriminate.
  - reflexivity.
  - reflexivity.
  - reflexivity.
  - vm_compute. repeat constructor.
  - exists s'. split; [exact Hu|]. apply Hstep. right. split; reflexivity.
Defined.

(** C4, as stated, fails: the ramp test runs in the frame of the release
    too.  Released at top sprint speed, the ratio is captured as 1 and
    multiplied by 0.99 at once, so the frame ends with 0.99 stored. *)
Lemma sprint_release_counterexample :
  jumped sprinting_fast = false /\ sprinting sprinting_fast = true /\
  K_LSHIFT no_key = false /\
  (Qabs (vel_x sprinting_fast) == 7.5 * 1.7)%Q /\
  exists s' ratio, update no_key 1000 sprinting_fast = Some s' /\
    sprint_decel_ratio s' = Some ratio /\
    ~ ratio == Qabs (vel_x sprinting_fast) / (7.5 * 1.7) /\ ~ ratio == 1.
Proof.
  repeat (split; [reflexivity|]). eexists. eexists.
  split; [vm_compute; reflexivity|]. split; [reflexivity|].
  split; vm_compute; discriminate.
Qed.

(** C4, amended.  In a grounded frame without the sprint key: if sprint
    was held until now, the ratio [|vel_x| / (7.5 * 1.7)] is captured (1 at
    top sprint speed) and the ramp rule is applied to it in this same
    frame; otherwise the rule is applied to the stored ratio.  The rule:
    if [|vel_x|] exceeds [7.5 * ratio], [vel_x] and the ratio are
    multiplied by 0.99, else the ratio is removed.  For the captured ratio
    the test succeeds exactly when [vel_x] is not 0. *)
Theorem sprint_release_ramp key wl s :
  sheets_ok s -> jumped s = false -> K_LSHIFT key = false ->
  exists s', update key wl s = Some s' /\
    let v := vel_x s in
    let ramped := fst (fst (sprint_rules key 0.5 7.5 1.7 1.7 s)) in
    (sprinting s = true ->
     let captured := (Qabs v / (7.5 * 1.7))%Q in
     (Qabs v == 7.5 * 1.7 -> captured == 1) /\
     (~ v == 0 ->
      sprint_decel_ratio s' = Some (captured * 0.99)%Q /\
      vel_x ramped = (v * 0.99)%Q) /\
     (v == 0 -> sprint_decel_ratio s' = None /\ vel_x ramped = v)) /\
    (sprinting s = false -> forall ratio,
     sprint_decel_ratio s = Some ratio ->
     ((7.5 * ratio < Qabs v)%Q ->
      sprint_decel_ratio s' = Some (ratio * 0.99)%Q /\
      vel_x ramped = (v * 0.99)%Q) /\
     ((Qabs v <= 7.5 * ratio)%Q ->
      sprint_decel_ratio s' = None /\ vel_x ramped = v)).
Proof.
  intros Hs Hj Hk. destruct (update_ratio key wl s Hs) as (s' & Hu & Hr).
  exists s'. split; [exact Hu|]. cbv zeta. rewrite Hr.
  pose proof (sprint_rules_ramp key s Hj Hk) as Hramp. cbv zeta in Hramp.
  split.
  - intros Hsp. rewrite Hsp in Hramp. destruct Hramp as [Hgt Hle].
    assert (Hdiv : (7.5 * (Qabs (vel_x s) / (7.5 * 1.7)) == Qabs (vel_x s) / 1.7)%Q)
      by (field; split; discriminate).
    pose proof (Qabs_nonneg (vel_x s)) as Hnn.
    split; [|split].
    + intros E. rewrite E. reflexivity.
    + intros Hv. apply Hgt. rewrite Hdiv.
      assert (0 < Qabs (vel_x s))%Q.
      { destruct (Qlt_le_dec 0 (Qabs (vel_x s))) as [H|H]; auto.
        exfalso. apply Hv, Qabs_zero. lra. }
      assert (Qabs (vel_x s) / 1.7 == Qabs (vel_x s) * (10 # 17))%Q by (field; discriminate).
      lra.
    + intros Hv. apply Hle. rewrite Hdiv, Hv. discriminate.
  - intros Hsp ratio Hra. rewrite Hsp, Hra in Hramp. exact Hramp.
Qed.

(** Sprint released at top sprint speed. *)
Lemma sprint_release_ramp_witness :
  exists s', update no_key 1000 sprinting_fast = Some s' /\
    sprint_decel_ratio s' =
      Some (Qabs (vel_x sprinting_fast) / (7.5 * 1.7) * 0.99)%Q.
Proof.
  destruct (sprint_release_ramp no_key 1000 sprinting_fast)
    as (s' & Hu & Hrelease & _).
  - vm_compute. intuition discriminate.
  - reflexivity.
  - reflexivity.
  - exists s'. split; [exact Hu|].
    destruct (Hrelease eq_refl) as (_ & Hmoving & _).
    apply Hmoving. discriminate.
Defined.

(** C5.  For the tile the loop has reached, with the velocities left by the
    tiles before it: if the box moved by [vel_x] (pygame keeps the integer
    part of its left edge) overlaps the tile, [vel_x] becomes
    [tile.left - rect.right] when positive and [tile.right - rect.left] when
    negative; independently, if the box moved by [vel_y] overlaps it,
    [vel_y] becomes [tile.top - rect.bottom] and the flag is cleared when
    positive, [tile.bottom - rect.top] when negative.  The rectangle is the
    one the loop started with, for every tile.  A clamp after which no later
    tile is hit on that axis, or which leaves the velocity at 0, is the
    final one: the last tile that matches decides. *)
Theorem tile_clamps before tile after s :
  world_rects s = before ++ tile :: after ->
  let r := rect s in
  let s1 := fold_left collide before s in
  let s2 := collide s1 tile in
  let hit_x :=
    colliderect tile
      (rect_of_args (inject_Z (x r) + vel_x s1) (y r) (width r) (height r)) in
  let hit_y :=
    colliderect tile (mkRect (x r) (y r + vel_y s1) (width r) (height r)) in
  (rect s1 = r /\ rect s2 = r /\ rect (_handle_collisions s) = r) /\
  (hit_x = true -> (0 < vel_x s1)%Q ->
   vel_x s2 = inject_Z (left tile - right r)) /\
  (hit_x = true -> (vel_x s1 < 0)%Q ->
   vel_x s2 = inject_Z (right tile - left r)) /\
  (hit_x = false -> vel_x s2 = vel_x s1) /\
  (hit_y = true -> 0 < vel_y s1 ->
   vel_y s2 = top tile - bottom r /\ jumped s2 = false) /\
  (hit_y = true -> vel_y s1 < 0 ->
   vel_y s2 = bottom tile - top r /\ jumped s2 = jumped s1) /\
  (hit_y = false -> vel_y s2 = vel_y s1 /\ jumped s2 = jumped s1) /\
  (vel_x s2 == 0 \/
   Forall (fun later =>
             colliderect later
               (rect_of_args (inject_Z (x r) + vel_x s2) (y r) (width r)
                  (height r)) = false) after ->
   vel_x (_handle_collisions s) = vel_x s2) /\
  (vel_y s2 = 0 \/
   Forall (fun later =>
             colliderect later
               (mkRect (x r) (y r + vel_y s2) (width r) (height r)) = false)
          after ->
   vel_y (_handle_collisions s) = vel_y s2).
Proof.
  intros Hw r s1 s2 hit_x hit_y.
  assert (Hr1 : rect s1 = r) by apply fold_collide_rect.
  assert (Hr2 : rect s2 = r) by (unfold s2; now rewrite collide_rect).
  assert (Hfold : _handle_collisions s = fold_left collide after s2).
  { unfold _handle_collisions. rewrite Hw, fold_left_app. reflexivity. }
  destruct (collide_horizontal s1 tile) as (Hx1 & Hx2 & Hx3).
  destruct (collide_vertical s1 tile) as (Hy1 & Hy2 & Hy3).
  rewrite Hr1 in Hx1, Hx2, Hx3, Hy1, Hy2, Hy3.
  split; [|repeat split].
  - rewrite Hfold, fold_collide_rect. auto.
  - exact Hx1.
  - exact Hx2.
  - intros H. apply Hx3. now left.
  - apply Hy1; assumption.
  - apply Hy1; assumption.
  - apply Hy2; assumption.
  - apply Hy2; assumption.
  - apply Hy3. now left.
  - apply Hy3. now left.
  - rewrite Hfold. intros [H|H].
    + now apply fold_collide_still_x.
    + apply fold_collide_no_horizontal. rewrite Hr2. exact H.
  - rewrite Hfold. intros [H|H].
    + now apply fold_collide_still_y.
    + apply fold_collide_no_vertical. rewrite Hr2. exact H.
Qed.

(** Two tiles are hit in turn; the second one decides. *)
Lemma tile_clamps_witness :
  vel_x (_handle_collisions pushing) = inject_Z 3.
Proof.
  destruct (tile_clamps [mkRect 55 34 50 50] (mkRect 52 50 50 50) [] pushing
              eq_refl) as (_ & Hright & _ & _ & _ & _ & _ & Hlast & _).
  rewrite Hlast by (right; constructor).
  apply Hright; reflexivity.
Defined.

(** C6, as stated, fails in three ways.  In a world narrower than the
    player the clamp returns 0, which is to the right of
    [world_limit - width].  With a limit that is not a whole number, here
    100.7, the clamp's 51.7 is stored as 52, again to the right of
    [world_limit - width].  And with whole limits, a velocity that is not a
    whole number, here 2.9 from [x = 10], gives [x = 13], which is not
    [clamp(x + vel_x, 0, world_limit - width) = 12.9]. *)
Lemma world_clamp_counterexample :
  (exists s', update no_key 10 standing = Some s' /\
     ~ (inject_Z (x (rect s')) <= 10 - inject_Z (width (rect s')))%Q) /\
  (exists s', update no_key 100.7 arriving = Some s' /\
     x (rect s') = 52 /\
     ~ (inject_Z (x (rect s')) <= 100.7 - inject_Z (width (rect s')))%Q) /\
  (exists s', update no_key 1000 creeping = Some s' /\
     x (rect s') = 13 /\
     ~ inject_Z (x (rect s')) ==
         Py.max 0 (Py.min (inject_Z (x (rect creeping)) + vel_x s')
                          (1000 - inject_Z (width (rect creeping))))).
Proof.
  split; [|split].
  - eexists. split; [vm_compute; reflexivity|].
    vm_compute. intros H. apply H. reflexivity.
  - eexists. split; [vm_compute; reflexivity|]. split; [reflexivity|].
    vm_compute. intros H. apply H. reflexivity.
  - eexists. split; [vm_compute; reflexivity|]. split; [reflexivity|].
    vm_compute. discriminate.
Qed.

(** C6, amended.  For every key state and every world limit that is a whole
    number and at least the player's width, a frame ends with [x] within
    [[0, world_limit - width]]; [x] is
    [clamp(x + vel_x, 0, world_limit - width)] rounded to the nearest
    integer, halves away from zero, with the velocity the collisions left,
    and [y] is [y + vel_y], unclamped. *)
Theorem world_clamp key (world_limit : Z) s :
  sheets_ok s -> width (rect s) <= world_limit ->
  exists s', update key (inject_Z world_limit) s = Some s' /\
    0 <= x (rect s') <= world_limit - width (rect s') /\
    x (rect s') =
      nearest (Py.max 0 (Py.min (inject_Z (x (rect s)) + vel_x s')
                                (inject_Z world_limit
                                 - inject_Z (width (rect s)))))%Q /\
    y (rect s') = y (rect s) + vel_y s' /\
    width (rect s') = width (rect s) /\ height (rect s') = height (rect s).
Proof.
  intros Hs Hw.
  destruct (update_physics key (inject_Z world_limit) s Hs) as (a & Ha & Hb & _).
  exists (physics key (inject_Z world_limit) a). split; [exact Ha|].
  rewrite physics_resolve. pose proof (resolve_rect key a) as Hr.
  assert (Hra : rect a = rect s) by apply Hb.
  set (c := resolve key a) in *. clearbody c.
  unfold _clamp_position. fields. cbn [x y width height]. rewrite Hr, Hra.
  set (q := Py.max 0 _).
  assert (Hq0 : (0 <= q)%Q) by apply max_ge_l.
  assert (Hq1 : (q <= inject_Z world_limit - inject_Z (width (rect s)))%Q).
  { unfold q.
    destruct (max_cases 0 (Py.min (inject_Z (x (rect s)) + vel_x c)
                             (inject_Z world_limit
                              - inject_Z (width (rect s))))%Q)
      as [[_ ->]|[_ ->]]; [|apply min_le_r].
    rewrite Zle_Qle in Hw. lra. }
  repeat split; try reflexivity;
    apply (nearest_between q 0 (world_limit - width (rect s)));
    unfold Z.sub; rewrite inject_Z_plus, inject_Z_opp;
    change (inject_Z 0) with 0%Q; split; lra.
Qed.

(** Standing in a world 1000 pixels wide. *)
Lemma world_clamp_witness :
  exists s', update no_key (inject_Z 1000) standing = Some s' /\
    0 <= x (rect s') <= 1000 - width (rect s').
Proof.
  destruct (world_clamp no_key 1000 standing) as (s' & Hu & Hx & _).
  - vm_compute. intuition discriminate.
  - vm_compute. discriminate.
  - exists s'. auto.
Defined.

(** C9.  From a grounded state, frames without the jump key end grounded,
    whatever the tiles are (none below included).  In the state reached:
    the flag can rise only in a frame with the jump key down; the friction
    step is part of the movement; without the sprint key the speed limit
    and increment are the plain 7.5 and 0.5, whatever
    [was_sprinting_when_jumped] holds; and the ground ramp fires on a
    stored ratio. *)
Theorem grounded_until_jump keys wl s :
  sheets_ok s -> jumped s = false ->
  Forall (fun key => K_SPACE key = false) keys ->
  exists s', run keys wl s = Some s' /\ jumped s' = false /\
    (forall key s'', update key wl s' = Some s'' -> jumped s'' = true ->
       K_SPACE key = true) /\
    (forall key,
       vel_x (_handle_movement key s') =
         vel_x (_apply_friction key 1.3 (_move_x key 0.5 7.5 1.7 1.7 s'))) /\
    (forall key, K_LSHIFT key = false ->
       snd (fst (sprint_rules key 0.5 7.5 1.7 1.7 s')) = 7.5%Q /\
       snd (sprint_rules key 0.5 7.5 1.7 1.7 s') = 0.5%Q) /\
    (forall key ratio, K_LSHIFT key = false -> sprinting s' = false ->
       sprint_decel_ratio s' = Some ratio ->
       (7.5 * ratio < Qabs (vel_x s'))%Q ->
       sprint_decel_ratio (_handle_movement key s') = Some (ratio * 0.99)%Q /\
       vel_x (fst (fst (sprint_rules key 0.5 7.5 1.7 1.7 s'))) =
         (vel_x s' * 0.99)%Q).
Proof.
  intros Hs Hj Hk. destruct (run_grounded keys wl s Hs Hj Hk) as (s' & Hr & Hs' & Hj').
  exists s'. split; [exact Hr|]. split; [exact Hj'|]. split; [|split; [|split]].
  - intros key s'' Hu Hj''. destruct (update_jumped key wl s' s'' Hu Hj''); congruence.
  - intros key. now apply handle_movement_grounded_friction.
  - intros key Hsh. destruct s', key. fields. subst. unfold sprint_rules. fields.
    destruct sprinting0, sprint_decel_ratio0; fields; repeat split_if; auto.
  - intros key ratio Hsh Hsp Hra Hgt.
    destruct (handle_movement_grounded_friction key s' Hj') as (_ & ->).
    destruct s', key. fields. subst. unfold sprint_rules. fields.
    destruct (gtb_spec (Qabs vel_x0) (7.5 * ratio)); [|contradiction]. fields. auto.
Qed.

(** Two frames of free fall with no key held. *)
Lemma grounded_until_jump_witness :
  exists s', run [no_key; no_key] 1000 floating = Some s' /\ jumped s' = false.
Proof.
  destruct (grounded_until_jump [no_key; no_key] 1000 floating)
    as (s' & Hr & Hj & _).
  - vm_compute. intuition discriminate.
  - reflexivity.
  - repeat constructor.
  - exists s'. auto.
Defined.

(** C10.  After any frames, the next frame does not fail; if it cuts out a
    sprite frame, the index is the old one plus one modulo the length of
    the cycle selected in this frame (16 for run, 4 for idle), so it lies in
    [[0, steps - 1]] and the area cut out lies inside the sheet, also when
    the old index comes from the other cycle. *)
Theorem frame_index_in_cycle keys key wl s :
  sheets_ok s ->
  exists s1 s2, run keys wl s = Some s1 /\ update key wl s1 = Some s2 /\
    (cycle_cooldown key < counter s1 + 1 ->
     index s2 = (index s1 + 1) mod cycle_steps key /\
     0 <= index s2 <= cycle_steps key - 1 /\
     image s2 = mkFrame (cycle_sheet key s1)
                  (mkRect (index s2 * 14) 0 14 19) (flipped s1) /\
     inside (cycle_sheet key s1) (area (image s2))) /\
    (counter s1 + 1 <= cycle_cooldown key ->
     index s2 = index s1 /\ image s2 = image s1).
Proof.
  intros Hs. destruct (run_total keys wl s Hs) as (s1 & Hr & Hs1).
  destruct (update_physics key wl s1 Hs1) as (a & Ha & _ & Hnew & Hold).
  destruct (physics_untouched key wl a) as (_ & _ & _ & Hi & _ & Him & _).
  exists s1, (physics key wl a). rewrite Hi, Him.
  split; [exact Hr|]. split; [exact Ha|]. split.
  - intros Hc. destruct (Hnew Hc) as (_ & H1 & H2 & H3 & H4). auto.
  - intros Hc. destruct (Hold Hc) as (_ & H1 & H2). auto.
Qed.

(** The run cycle left at index 15, the idle cycle taking over. *)
Lemma frame_index_in_cycle_witness :
  exists s2, update no_key 1000 switching = Some s2 /\ index s2 = 0 /\
    inside (idle_sheet switching) (area (image s2)).
Proof.
  destruct (frame_index_in_cycle [] no_key 1000 switching)
    as (s1 & s2 & Hr & Hu & Hcut & _).
  - vm_compute. intuition discriminate.
  - injection Hr as <-. exists s2. split; [exact Hu|].
    destruct Hcut as (Hi & _ & _ & Hin); [reflexivity|].
    split; [exact Hi | exact Hin].
Defined.

End KnightSpec.

(** ** The camera: claims *)

Module CameraSpec.
Import Knight KnightFacts PyFacts Samples.

(** C7, as stated, fails: when the world is narrower than the viewport the
    upper bound is below the lower one, and the offset takes the upper
    bound. *)
Lemma narrow_bounds_counterexample :
  ~ (0 <= Vector2.x (Camera.offset (Camera.scroll standing 0 500 0 700 camera0))
     <= 500 - Camera.screen_width camera0)%Q.
Proof. vm_compute. intros [H _]. apply H. reflexivity. Qed.

(** C7, amended.  When [left <= right - screen_width] and
    [top <= bottom - screen_height], the offset after [scroll] lies within
    [[left, right - screen_width]] and [[top, bottom - screen_height]]; it
    is the clamp of the integer part of the smoothed offset. *)
Theorem scroll_within_bounds player l r t b c :
  (l <= r - Camera.screen_width c)%Q -> (t <= b - Camera.screen_height c)%Q ->
  let c' := Camera.scroll player l r t b c in
  (l <= Vector2.x (Camera.offset c') <= r - Camera.screen_width c /\
   t <= Vector2.y (Camera.offset c') <= b - Camera.screen_height c)%Q /\
  Vector2.x (Camera.offset c') =
    Py.min (Py.max l (inject_Z (Py.int (Vector2.x (Camera.offset_float c')))))
           (r - Camera.screen_width c)%Q /\
  Vector2.y (Camera.offset c') =
    Py.min (Py.max t (inject_Z (Py.int (Vector2.y (Camera.offset_float c')))))
           (b - Camera.screen_height c)%Q.
Proof.
  intros Hx Hy c'. unfold c', Camera.scroll.
  cbn [Camera.offset Camera.offset_float Vector2.x Vector2.y].
  split; [split|split]; try reflexivity; now apply clamp_between.
Qed.

(** The first scroll in a world 2000 pixels wide. *)
Lemma scroll_within_bounds_witness :
  (0 <= Vector2.x (Camera.offset (Camera.scroll standing 0 2000 0 700 camera0))
   <= 2000 - 900)%Q.
Proof.
  destruct (scroll_within_bounds standing 0 2000 0 700 camera0) as ((H & _) & _).
  - vm_compute. discriminate.
  - vm_compute. discriminate.
  - exact H.
Defined.

(** The game never touches the camera's constant or the sizes. *)
Lemma frames_const keys g :
  sheets_ok (Game.player g) ->
  exists g', Game.frames keys g = Some g' /\ sheets_ok (Game.player g') /\
    Game.world_limit_x g' = Game.world_limit_x g /\
    Game.world_limit_y g' = Game.world_limit_y g /\
    Camera.screen_width (Game.camera g') = Camera.screen_width (Game.camera g) /\
    Camera.screen_height (Game.camera g') = Camera.screen_height (Game.camera g) /\
    Camera.CONST (Game.camera g') = Camera.CONST (Game.camera g).
Proof.
  revert g. induction keys as [|key keys IH]; intros g Hs; simpl.
  - exists g. auto 10.
  - unfold Game._update.
    destruct (update_physics key (inject_Z (Game.world_limit_x g)) (Game.player g) Hs)
      as (a & Ha & _).
    pose proof (update_sheets_ok _ _ _ _ Hs Ha) as Hs'. rewrite Ha.
    match goal with |- context [Game.frames keys ?g1] =>
      destruct (IH g1 Hs') as (g' & Hf & Hg' & H1 & H2 & H3 & H4 & H5) end.
    exists g'. auto 10.
Qed.

(** C8.  The constant is [(-screen_width / 2 + x0 / 4, -y0)] for the
    player's position at construction and no frame changes it.  In every
    frame the camera is scrolled after the player has moved: per axis the
    float offset becomes [offset + (target - offset) * 0.1] with
    [target = position + constant] for the player's new position, and the
    integer offset is its truncation toward zero, then clamped. *)
Theorem camera_follow keys key g :
  sheets_ok (Game.player g) ->
  (forall p0 sw sh,
     Camera.CONST (Camera.__init__ p0 sw sh) =
       Vector2.mk (- sw / 2 + inject_Z (x (rect p0)) / 4)%Q
                  (- inject_Z (y (rect p0)))%Q) /\
  exists g1 g2,
    Game.frames keys g = Some g1 /\ Game._update key g1 = Some g2 /\
    Camera.CONST (Game.camera g1) = Camera.CONST (Game.camera g) /\
    Camera.CONST (Game.camera g2) = Camera.CONST (Game.camera g) /\
    let c := Game.camera g1 in
    let c' := Game.camera g2 in
    let p := rect (Game.player g2) in
    let K := Camera.CONST (Game.camera g) in
    let fx := Vector2.x (Camera.offset_float c) in
    let fy := Vector2.y (Camera.offset_float c) in
    let fx' := Vector2.x (Camera.offset_float c') in
    let fy' := Vector2.y (Camera.offset_float c') in
    fx' = (fx + (inject_Z (x p) + Vector2.x K - fx) * 0.1)%Q /\
    fy' = (fy + (inject_Z (y p) + Vector2.y K - fy) * 0.1)%Q /\
    Py.truncated fx' (Py.int fx') /\ Py.truncated fy' (Py.int fy') /\
    Vector2.x (Camera.offset c') =
      Py.min (Py.max 0 (inject_Z (Py.int fx')))
        (inject_Z (Game.world_limit_x g) - Camera.screen_width (Game.camera g))%Q /\
    Vector2.y (Camera.offset c') =
      Py.min (Py.max 0 (inject_Z (Py.int fy')))
        (inject_Z (Game.world_limit_y g) - Camera.screen_height (Game.camera g))%Q.
Proof.
  intros Hs. split; [reflexivity|].
  destruct (frames_const keys g Hs) as (g1 & Hf & Hs1 & Hx & Hy & Hw & Hh & HK).
  destruct (update_physics key (inject_Z (Game.world_limit_x g1)) (Game.player g1) Hs1)
    as (a & Ha & _).
  eexists g1, _. split; [exact Hf|]. split.
  { unfold Game._update. rewrite Ha. reflexivity. }
  cbn [Game.camera Game.player]. unfold Camera.scroll.
  cbn [Camera.CONST Camera.offset Camera.offset_float Vector2.x Vector2.y].
  rewrite HK, Hx, Hy, Hw, Hh.
  repeat split; try reflexivity; try apply int_truncated; auto.
Qed.

(** Two frames of the game with no key held. *)
Lemma camera_follow_witness :
  exists g1 g2,
    Game.frames [no_key] game0 = Some g1 /\ Game._update no_key g1 = Some g2 /\
    Camera.CONST (Game.camera g2) = Camera.CONST camera0.
Proof.
  destruct (camera_follow [no_key] no_key game0)
    as (_ & g1 & g2 & Hf & Hu & _ & HK & _).
  - vm_compute. intuition discriminate.
  - exists g1, g2. auto.
Defined.

End CameraSpec.

(** * Further properties of the code *)

(** ** The player *)

Module KnightMore.
Import Knight KnightFacts PyFacts Samples Pending Scenes.

(** In a world without tiles the collision loop does nothing. *)
Lemma resolve_empty key s :
  world_rects s = [] ->
  resolve key s = _apply_gravity 30 1 (_handle_movement key s).
Proof.
  intros Hw. unfold resolve, _handle_collisions.
  destruct (handle_movement_untouched key s) as (Hw1 & _).
  destruct (apply_gravity_untouched 30 1 (_handle_movement key s)) as (Hw2 & _).
  rewrite Hw2, Hw1, Hw. reflexivity.
Qed.

(** The vertical velocity the collision loop receives. *)
Lemma pending_vel_y key s :
  Pending.vel_y key s =
    let v := if K_SPACE key && negb (jumped s) then -20 else Knight.vel_y s in
    if v <? 30 then v + 1 else v.
Proof.
  unfold Pending.vel_y.
  destruct (apply_gravity_flight 30 1 (_handle_movement key s)) as (_ & _ & _ & ->).
  destruct (handle_movement_jump key s) as (_ & _ & ->). reflexivity.
Qed.

(** A frame that succeeds is [physics] after an animation step that has
    left movement and physics alone. *)
Lemma update_inv key wl s s' :
  update key wl s = Some s' ->
  exists a, same_body s a /\ s' = physics key wl a.
Proof.
  unfold update. intros Hu.
  destruct (K_a key || K_d key); unfold animate in Hu; fields;
    destruct (_ <? _);
    try (destruct subsurface; [|discriminate]);
    injection Hu as <-; eexists; (split; [|reflexivity]);
    destruct s; unfold same_body; done_fields.
Qed.

(** What a frame leaves alone. *)
Lemma update_untouched key wl s s' :
  update key wl s = Some s' ->
  world_rects s' = world_rects s /\ idle_sheet s' = idle_sheet s /\
  run_sheet s' = run_sheet s /\ width (rect s') = width (rect s) /\
  height (rect s') = height (rect s).
Proof.
  intros Hu. destruct (update_inv key wl s s' Hu) as (a & Hb & ->).
  destruct (physics_untouched key wl a) as (-> & -> & -> & _ & _ & _ & -> & ->).
  destruct Hb as (-> & -> & -> & -> & _). auto.
Qed.

(** X1.  In a frame that starts no jump (the jump key is up or the player
    is in the air already) and in which no tile is met from above or below,
    [vel_y] grows by 1 while it is below the terminal velocity 30 and keeps
    its value otherwise; [y] moves by the new [vel_y] and the [jumped] flag
    keeps its value. *)
Theorem gravity_step key wl s :
  sheets_ok s -> K_SPACE key && negb (jumped s) = false ->
  let v := if Knight.vel_y s <? 30 then Knight.vel_y s + 1 else Knight.vel_y s in
  no_vertical_hit s v ->
  exists s', update key wl s = Some s' /\ Knight.vel_y s' = v /\
    y (rect s') = y (rect s) + v /\ jumped s' = jumped s.
Proof.
  intros Hs Hk v Hv.
  assert (Hp : Pending.vel_y key s = v).
  { rewrite pending_vel_y, Hk. reflexivity. }
  destruct (update_vertical key wl s Hs) as (s' & Hu & Hv' & Hj').
  { fold (Pending.vel_y key s). rewrite Hp. exact Hv. }
  fold (Pending.vel_y key s) in Hv'. rewrite Hp in Hv'.
  exists s'. split; [exact Hu|]. split; [exact Hv'|].
  destruct (update_physics key wl s Hs) as (a & Ha & Hb & _).
  rewrite Ha in Hu. injection Hu as <-.
  rewrite physics_resolve in *. pose proof (resolve_rect key a) as Hr.
  destruct (clamp_position_vel wl (resolve key a)) as (_ & Hcv & _).
  rewrite Hcv in Hv'.
  set (c := resolve key a) in *. clearbody c.
  split.
  - unfold _clamp_position. fields. cbn [y]. rewrite Hr, Hv'.
    replace (rect a) with (rect s) by (symmetry; apply Hb). reflexivity.
  - rewrite Hj'. apply andb_false_iff in Hk. destruct Hk as [->|Hk].
    + apply orb_false_r.
    + apply negb_false_iff in Hk. rewrite Hk. reflexivity.
Qed.

(** A player in mid-air with no tile around, from rest. *)
Lemma gravity_step_witness :
  exists s', update no_key 1000 floating = Some s' /\ Knight.vel_y s' = 1.
Proof.
  destruct (gravity_step no_key 1000 floating) as (s' & Hu & Hv & _).
  - vm_compute. intuition discriminate.
  - reflexivity.
  - constructor.
  - exists s'. auto.
Defined.

(** One frame in the air of a world without tiles. *)
Lemma update_air_empty key wl s :
  sheets_ok s -> world_rects s = [] -> jumped s = true ->
  exists s', update key wl s = Some s' /\ sheets_ok s' /\
    world_rects s' = [] /\ jumped s' = true /\
    Knight.vel_y s' =
      (if Knight.vel_y s <? 30 then Knight.vel_y s + 1 else Knight.vel_y s).
Proof.
  intros Hs Hw Hj.
  destruct (update_vertical key wl s Hs) as (s' & Hu & Hv & Hj').
  - unfold no_vertical_hit. rewrite Hw. constructor.
  - fold (Pending.vel_y key s) in Hv.
    rewrite pending_vel_y, Hj, andb_false_r in Hv. cbv zeta in Hv.
    exists s'. split; [exact Hu|]. split; [eapply update_sheets_ok; eauto|].
    split; [|split; [rewrite Hj', Hj; reflexivity | exact Hv]].
    destruct (update_untouched key wl s s' Hu) as (-> & _). exact Hw.
Qed.

(** X2.  In a world without tiles an airborne player with [vel_y <= 30]
    has, after [n] frames of any keys, [vel_y = min (vel_y + n) 30] and is
    still airborne: gravity adds 1 per frame up to the terminal velocity,
    and the jump key changes nothing. *)
Theorem free_fall keys wl s :
  sheets_ok s -> world_rects s = [] -> jumped s = true ->
  Knight.vel_y s <= 30 ->
  exists s', run keys wl s = Some s' /\ jumped s' = true /\
    Knight.vel_y s' = Z.min (Knight.vel_y s + Z.of_nat (length keys)) 30.
Proof.
  revert s. induction keys as [|key keys IH]; intros s Hs Hw Hj Hv.
  - exists s. cbn [run length Z.of_nat]. repeat split; auto. lia.
  - destruct (update_air_empty key wl s Hs Hw Hj) as (s1 & Hu & Hs1 & Hw1 & Hj1 & Hv1).
    cbn [run]. rewrite Hu.
    destruct (Z.ltb_spec (Knight.vel_y s) 30) as [Hlt|Hge];
      (destruct (IH s1 Hs1 Hw1 Hj1) as (s' & Hr & Hj' & Hv'); [lia|]);
      exists s'; repeat split; auto; rewrite Hv', Hv1; cbn [length]; lia.
Qed.

(** Seven frames from [vel_y = 25]. *)
Lemma free_fall_witness :
  exists s', run [no_key; no_key; jump_key; no_key; no_key; no_key; no_key]
               1000 falling = Some s' /\ Knight.vel_y s' = 30.
Proof.
  destruct (free_fall [no_key; no_key; jump_key; no_key; no_key; no_key; no_key]
              1000 falling) as (s' & Hr & _ & Hv).
  - vm_compute. intuition discriminate.
  - reflexivity.
  - reflexivity.
  - vm_compute. discriminate.
  - exists s'. split; [exact Hr | exact Hv].
Defined.

(** In the air the jump key is not looked at. *)
Lemma handle_movement_space b b' key s :
  jumped s = true ->
  _handle_movement (with_space b key) s = _handle_movement (with_space b' key) s.
Proof.
  intros Hj. destruct s, key. fields. subst.
  unfold _handle_movement, _move_x, sprint_rules, with_space. fields.
  destruct was_sprinting_when_jumped0; fields;
    unfold steer, scale_target; fields;
    destruct K_a0, K_d0, sprint_decel_ratio0; fields;
    destruct b, b'; fields; reflexivity.
Qed.

(** X3.  For an airborne player the jump key is not looked at: the frame
    with the jump key down has the same result as the frame with it up, the
    other keys being equal. *)
Theorem no_double_jump key wl s :
  jumped s = true ->
  update (with_space true key) wl s = update (with_space false key) wl s.
Proof.
  intros Hj. unfold update. cbn [with_space K_a K_d].
  assert (H : forall a, jumped a = true ->
            physics (with_space true key) wl a =
            physics (with_space false key) wl a).
  { intros a Ha. unfold physics.
    now rewrite (handle_movement_space true false key a Ha). }
  assert (Hanim : forall sheet steps cooldown a,
            animate sheet steps cooldown s = Some a -> jumped a = true).
  { intros sheet steps cooldown a. unfold animate. fields.
    destruct (_ <? _).
    - destruct subsurface; [|discriminate]. intros E. injection E as <-.
      destruct s. fields. exact Hj.
    - intros E. injection E as <-. destruct s. fields. exact Hj. }
  destruct (K_a key || K_d key).
  - destruct (animate (run_sheet s) 16 8 s) as [a|] eqn:E; [|reflexivity].
    f_equal. apply H. eapply Hanim. exact E.
  - destruct (animate (idle_sheet s) 4 10 s) as [a|] eqn:E; [|reflexivity].
    f_equal. apply H. eapply Hanim. exact E.
Qed.

Lemma no_double_jump_witness :
  update jump_key 1000 falling = update no_key 1000 falling.
Proof. apply (no_double_jump no_key 1000 falling). reflexivity. Defined.

(** The flags [_handle_movement] leaves. *)
Lemma handle_movement_flags key s :
  sprinting (_handle_movement key s) = K_LSHIFT key /\
  was_sprinting_when_jumped (_handle_movement key s) =
    (if K_SPACE key && negb (jumped s) then K_LSHIFT key
     else was_sprinting_when_jumped s) /\
  flipped (_handle_movement key s) =
    (if K_d key then false else if K_a key then true else flipped s).
Proof.
  unfold _handle_movement, _move_x.
  assert (H1 : let s1 := fst (fst (sprint_rules key 0.5 7.5 1.7 1.7 s)) in
               sprinting s1 = K_LSHIFT key /\
               was_sprinting_when_jumped s1 = was_sprinting_when_jumped s /\
               flipped s1 = flipped s /\ jumped s1 = jumped s).
  { destruct s, key. unfold sprint_rules. fields.
    destruct sprint_decel_ratio0; repeat split_if; done_fields. }
  destruct (sprint_rules key 0.5 7.5 1.7 1.7 s) as [[s1 m1] i1].
  cbn [fst] in H1. cbv zeta in H1. destruct H1 as (Hsp & Hws & Hfl & Hj).
  assert (H2 : sprinting (steer key i1 m1 s1) = sprinting s1 /\
               was_sprinting_when_jumped (steer key i1 m1 s1) =
                 (if K_SPACE key && negb (jumped s1) then sprinting s1
                  else was_sprinting_when_jumped s1) /\
               flipped (steer key i1 m1 s1) =
                 (if K_d key then false else if K_a key then true
                  else flipped s1) /\
               jumped (steer key i1 m1 s1) = jumped s1).
  { clear. destruct s1, key. unfold steer, scale_target. fields.
    destruct sprint_decel_ratio0; repeat split_if; done_fields. }
  set (s2 := steer key i1 m1 s1) in *. clearbody s2.
  destruct H2 as (Hsp2 & Hws2 & Hfl2 & Hj2).
  rewrite Hsp, Hws, Hfl, Hj in *. rewrite <- Hws2, <- Hfl2, <- Hsp2.
  assert (H3 : same_sprint s2 (if negb (jumped s2) then _apply_friction key 1.3 s2 else s2)).
  { destruct (negb (jumped s2)); [|unfold same_sprint; repeat split].
    destruct s2, key. unfold same_sprint, _apply_friction. fields.
    repeat split_if; done_fields. }
  set (s3 := if negb (jumped s2) then _ else _) in *. clearbody s3.
  destruct H3 as (<- & <- & <- & _).
  clear. destruct s3. destruct (K_SPACE key); fields; repeat split_if; done_fields.
Qed.

(** The flags after a frame. *)
Lemma update_flags key wl s s' :
  update key wl s = Some s' ->
    sprinting s' = K_LSHIFT key /\
    was_sprinting_when_jumped s' =
      (if K_SPACE key && negb (jumped s) then K_LSHIFT key
       else was_sprinting_when_jumped s) /\
    flipped s' =
      (if K_d key then false else if K_a key then true else flipped s).
Proof.
  intros Hu. destruct (update_inv key wl s s' Hu) as (a & Hb & ->).
  pose proof (physics_body key wl s a Hb) as Hp.
  destruct Hp as (_ & _ & _ & _ & _ & _ & -> & _ & -> & -> & _).
  rewrite physics_resolve.
  destruct (clamp_position_sprint wl (resolve key s)) as (-> & -> & -> & _).
  unfold resolve, _handle_collisions.
  destruct (fold_collide_sprint
              (world_rects (_apply_gravity 30 1 (_handle_movement key s)))
              (_apply_gravity 30 1 (_handle_movement key s))) as (-> & -> & -> & _).
  destruct (apply_gravity_sprint 30 1 (_handle_movement key s)) as (-> & -> & -> & _).
  apply handle_movement_flags.
Qed.

(** X4.  After a frame [sprinting] is the state of the sprint key;
    [was_sprinting_when_jumped] is the state of the sprint key if the frame
    starts a jump and keeps its value otherwise; the sprite faces right if
    the right key is down, also when the left key is down as well, faces
    left if only the left key is down, and keeps its direction if neither
    is. *)
Theorem frame_flags key wl s :
  sheets_ok s ->
  exists s', update key wl s = Some s' /\
    sprinting s' = K_LSHIFT key /\
    was_sprinting_when_jumped s' =
      (if K_SPACE key && negb (jumped s) then K_LSHIFT key
       else was_sprinting_when_jumped s) /\
    flipped s' =
      (if K_d key then false else if K_a key then true else flipped s).
Proof.
  intros Hs. destruct (update_physics key wl s Hs) as (a & Ha & _).
  exists (physics key wl a). split; [exact Ha|].
  exact (update_flags key wl s _ Ha).
Qed.

(** All four keys at once, from the ground. *)
Lemma frame_flags_witness :
  exists s', update (mkKeys true true true true) 1000 standing = Some s' /\
    was_sprinting_when_jumped s' = true /\ flipped s' = false.
Proof.
  destruct (frame_flags (mkKeys true true true true) 1000 standing)
    as (s' & Hu & _ & Hw & Hf).
  - vm_compute. intuition discriminate.
  - exists s'. auto.
Defined.

(** The horizontal velocity [_handle_movement] leaves in the air. *)
Lemma pending_vel_x_air key s :
  jumped s = true ->
  Pending.vel_x key s =
    let v := if K_a key
             then Py.max (- air_limit s) (Knight.vel_x s - air_increment s)%Q
             else Knight.vel_x s in
    if K_d key then Py.min (air_limit s) (v + air_increment s)%Q else v.
Proof.
  intros Hj. destruct s, key. fields. subst.
  unfold Pending.vel_x, _handle_movement, _move_x, sprint_rules, air_limit,
    air_increment. fields.
  destruct was_sprinting_when_jumped0; fields;
    unfold steer, scale_target; fields;
    destruct K_a0, K_d0, K_SPACE0, K_LSHIFT0, sprint_decel_ratio0; fields;
    reflexivity.
Qed.

(** X5.  In the air the left key lowers [vel_x] by the increment, not below
    minus the limit, and the right key raises it by the increment, not above
    the limit, where limit and increment are 7.5 and 0.5, or 1.7 times that
    if the jump began sprinting, whatever the sprint key is now; there is no
    friction and no ramp.  This is the velocity the frame ends with if no
    tile is met sideways; [was_sprinting_when_jumped] and the stored ratio
    keep their values. *)
Theorem air_steer key wl s :
  sheets_ok s -> jumped s = true ->
  let v := if K_a key
           then Py.max (- air_limit s) (Knight.vel_x s - air_increment s)%Q
           else Knight.vel_x s in
  let v' := if K_d key then Py.min (air_limit s) (v + air_increment s)%Q
            else v in
  no_horizontal_hit s v' ->
  exists s', update key wl s = Some s' /\ Knight.vel_x s' = v' /\
    was_sprinting_when_jumped s' = was_sprinting_when_jumped s /\
    sprint_decel_ratio s' = sprint_decel_ratio s.
Proof.
  intros Hs Hj v v' Hno.
  pose proof (pending_vel_x_air key s Hj) as Hp. cbv zeta in Hp.
  fold v in Hp. fold v' in Hp.
  destruct (update_horizontal key wl s Hs) as (s' & Hu & Hv).
  { fold (Pending.vel_x key s). rewrite Hp. exact Hno. }
  fold (Pending.vel_x key s) in Hv. rewrite Hp in Hv.
  exists s'. split; [exact Hu|]. split; [exact Hv|].
  destruct (update_flags key wl s s' Hu) as (_ & Hw & _).
  destruct (update_ratio key wl s Hs) as (s2 & Hu2 & Hr).
  rewrite Hu in Hu2. injection Hu2 as <-.
  rewrite Hw, Hr, Hj, andb_false_r. split; [reflexivity|].
  clear - Hj. destruct s, key. fields. subst. unfold sprint_rules. fields.
  destruct was_sprinting_when_jumped0; reflexivity.
Qed.

(** The right key in the air, from rest. *)
Lemma air_steer_witness :
  exists s', update right_key 1000 falling = Some s' /\
    (Knight.vel_x s' == 0.5)%Q.
Proof.
  destruct (air_steer right_key 1000 falling) as (s' & Hu & Hv & _).
  - vm_compute. intuition discriminate.
  - reflexivity.
  - constructor.
  - exists s'. split; [exact Hu|]. rewrite Hv. reflexivity.
Defined.

(** Case analysis on a [max] or [min] whose arguments contain no other. *)
Ltac minmax_cases :=
  repeat match goal with
         | |- context [Py.max ?a ?b] =>
           lazymatch a with
           | context [Py.max _ _] => fail
           | context [Py.min _ _] => fail
           | _ =>
             lazymatch b with
             | context [Py.max _ _] => fail
             | context [Py.min _ _] => fail
             | _ => destruct (max_cases a b) as [[? ->]|[? ->]]
             end
           end
         | |- context [Py.min ?a ?b] =>
           lazymatch a with
           | context [Py.max _ _] => fail
           | context [Py.min _ _] => fail
           | _ =>
             lazymatch b with
             | context [Py.max _ _] => fail
             | context [Py.min _ _] => fail
             | _ => destruct (min_cases a b) as [[? ->]|[? ->]]
             end
           end
         end.

Lemma capture_fraction v :
  (Qabs v <= 7.5 * 1.7 -> 0 <= Qabs v / (7.5 * 1.7) <= 1)%Q.
Proof.
  intros H. pose proof (Qabs_nonneg v). split.
  - apply Qle_shift_div_l; [reflexivity | lra].
  - apply Qle_shift_div_r; [reflexivity | lra].
Qed.

(** Closes a goal [speed_ok] has been unfolded to. *)
Ltac speed_goal :=
  repeat match goal with
         | |- _ /\ _ => split
         | |- True => exact I
         | |- (Qabs _ <= _)%Q => apply Qabs_Qle_condition
         end;
  try lra.

Lemma sprint_rules_speed key s :
  speed_ok s ->
  speed_ok (fst (fst (sprint_rules key 0.5 7.5 1.7 1.7 s))) /\
  (snd (fst (sprint_rules key 0.5 7.5 1.7 1.7 s)) = 7.5%Q \/
   snd (fst (sprint_rules key 0.5 7.5 1.7 1.7 s)) = (7.5 * 1.7)%Q) /\
  (snd (sprint_rules key 0.5 7.5 1.7 1.7 s) = 0.5%Q \/
   snd (sprint_rules key 0.5 7.5 1.7 1.7 s) = (0.5 * 1.7)%Q).
Proof.
  destruct s, key. unfold speed_ok, sprint_rules. fields. intros [Hv Hr].
  pose proof (capture_fraction vel_x0 Hv) as Hc.
  apply Qabs_Qle_condition in Hv.
  set (captured := (Qabs vel_x0 / (7.5 * 1.7))%Q) in *. clearbody captured.
  destruct jumped0, K_LSHIFT0, sprinting0, was_sprinting_when_jumped0,
    sprint_decel_ratio0; fields; repeat split_if_eqn; fields;
    (split; [speed_goal | split; auto]).
Qed.

Lemma steer_speed key inc M s :
  speed_ok s -> (M = 7.5%Q \/ M = (7.5 * 1.7)%Q) -> (0 <= inc)%Q ->
  speed_ok (steer key inc M s).
Proof.
  destruct s, key. unfold speed_ok, steer, scale_target. fields.
  intros [Hv Hr] HM Hinc. apply Qabs_Qle_condition in Hv.
  destruct HM; subst M;
    destruct K_a0, K_d0, K_SPACE0, jumped0, sprinting0, sprint_decel_ratio0;
    fields; minmax_cases; speed_goal.
Qed.

Lemma apply_friction_speed key s :
  speed_ok s -> speed_ok (_apply_friction key 1.3 s).
Proof.
  destruct s, key. unfold speed_ok, _apply_friction. fields.
  intros [Hv Hr]. apply Qabs_Qle_condition in Hv.
  destruct sprint_decel_ratio0; repeat split_if_eqn; read_tests;
    minmax_cases; speed_goal.
Qed.

(** The movement step keeps the speed within the sprint limit. *)
Lemma handle_movement_speed key s :
  speed_ok s -> speed_ok (_handle_movement key s).
Proof.
  intros H. unfold _handle_movement, _move_x.
  destruct (sprint_rules_speed key s H) as (H1 & HM & Hi).
  destruct (sprint_rules key 0.5 7.5 1.7 1.7 s) as [[s1 m1] i1].
  cbn [fst snd] in *.
  assert (H2 : speed_ok (steer key i1 m1 s1)).
  { apply steer_speed; auto. destruct Hi; subst i1; discriminate. }
  set (s2 := steer key i1 m1 s1) in *. clearbody s2.
  assert (H3 : speed_ok (if negb (jumped s2) then _apply_friction key 1.3 s2 else s2)).
  { destruct (negb (jumped s2)); auto using apply_friction_speed. }
  set (s3 := if negb (jumped s2) then _ else _) in *. clearbody s3.
  clear - H3. destruct s3. unfold speed_ok in *. fields.
  destruct (K_SPACE key), jumped0; fields; exact H3.
Qed.

(** [Py.int] stays within one unit of its argument. *)
Lemma int_near q :
  (inject_Z (Py.int q) - 1 < q /\ q < inject_Z (Py.int q) + 1)%Q.
Proof.
  destruct (Qlt_le_dec q 0) as [H|H].
  - destruct (int_nonpos q) as [[H1 H2] H3]; [lra|]. split; lra.
  - destruct (int_nonneg q H) as [[H1 H2] H3]. split; lra.
Qed.

Lemma inject_Z_lt_succ a b : a < b -> (inject_Z a + 1 <= inject_Z b)%Q.
Proof.
  intros H. assert (E : a + 1 <= b) by lia. rewrite Zle_Qle in E.
  rewrite inject_Z_plus in E. exact E.
Qed.

(** Reads the four comparisons of [colliderect]. *)
Lemma colliderect_true tile r :
  colliderect tile r = true ->
  left tile < right r /\ left r < right tile /\
  top tile < bottom r /\ top r < bottom tile.
Proof.
  unfold colliderect. rewrite !andb_true_iff, !Z.ltb_lt. tauto.
Qed.

Lemma colliderect_false tile r :
  colliderect tile r = false ->
  right r <= left tile \/ right tile <= left r \/
  bottom r <= top tile \/ bottom tile <= top r.
Proof.
  unfold colliderect. rewrite !andb_false_iff, !Z.ltb_ge. tauto.
Qed.

(** A clamp by a tile the player is clear of shortens the move along x and
    keeps its direction. *)
Lemma collide_shortens_x s tile :
  colliderect tile (rect s) = false ->
  ((0 <= Knight.vel_x s ->
    0 <= Knight.vel_x (collide s tile) <= Knight.vel_x s) /\
   (Knight.vel_x s <= 0 ->
    Knight.vel_x s <= Knight.vel_x (collide s tile) <= 0))%Q.
Proof.
  intros Hclear. destruct (collide_horizontal s tile) as (Hr & Hl & Hno).
  cbv zeta in Hr, Hl, Hno.
  destruct (colliderect tile (rect_of_args _ _ _ _)) eqn:Hhit.
  2:{ rewrite (Hno (or_introl eq_refl)). split; intros; lra. }
  apply colliderect_true in Hhit. apply colliderect_false in Hclear.
  unfold rect_of_args, left, right, top, bottom in *. cbn [x y width height] in *.
  destruct (int_near (inject_Z (x (rect s)) + Knight.vel_x s)) as [Hn1 Hn2].
  set (k := Py.int (inject_Z (x (rect s)) + Knight.vel_x s)) in *. clearbody k.
  destruct Hhit as (H1 & H2 & H3 & H4).
  destruct (Qlt_le_dec 0 (Knight.vel_x s)) as [Hpos|Hnp].
  - rewrite (Hr eq_refl Hpos).
    assert (Hx : x (rect s) <= k).
    { apply Z.lt_succ_r. rewrite Zlt_Qlt. unfold Z.succ. rewrite inject_Z_plus.
      change (inject_Z 1) with 1%Q. lra. }
    assert (Htl : x (rect s) + width (rect s) <= x tile) by lia.
    pose proof (inject_Z_lt_succ _ _ H1) as Hq.
    rewrite inject_Z_plus in Hq.
    split; intros Hc; split.
    + change 0%Q with (inject_Z 0). rewrite <- Zle_Qle. lia.
    + unfold Z.sub. rewrite inject_Z_plus, inject_Z_opp, inject_Z_plus. lra.
    + exfalso. lra.
    + exfalso. lra.
  - destruct (Qlt_le_dec (Knight.vel_x s) 0) as [Hneg|Hnn].
    + rewrite (Hl eq_refl Hneg).
      assert (Hx : k <= x (rect s)).
      { apply Z.lt_succ_r. rewrite Zlt_Qlt. unfold Z.succ. rewrite inject_Z_plus.
        change (inject_Z 1) with 1%Q. lra. }
      assert (Htr : x tile + width tile <= x (rect s)) by lia.
      pose proof (inject_Z_lt_succ _ _ H2) as Hq.
      rewrite inject_Z_plus in Hq.
      split; intros Hc; split.
      * exfalso. lra.
      * exfalso. lra.
      * unfold Z.sub. rewrite inject_Z_plus, inject_Z_opp, inject_Z_plus. lra.
      * change 0%Q with (inject_Z 0). rewrite <- Zle_Qle. lia.
    + assert (E : Knight.vel_x s == 0) by lra.
      rewrite (Hno (or_intror E)). split; intros; lra.
Qed.

(** The same along y. *)
Lemma collide_shortens_y s tile :
  colliderect tile (rect s) = false ->
  (0 <= Knight.vel_y s ->
   0 <= Knight.vel_y (collide s tile) <= Knight.vel_y s) /\
  (Knight.vel_y s <= 0 ->
   Knight.vel_y s <= Knight.vel_y (collide s tile) <= 0).
Proof.
  intros Hclear. destruct (collide_vertical s tile) as (Hd & Hu & Hno).
  cbv zeta in Hd, Hu, Hno.
  destruct (colliderect tile (mkRect _ _ _ _)) eqn:Hhit.
  2:{ destruct (Hno (or_introl eq_refl)) as [-> _]. lia. }
  apply colliderect_true in Hhit. apply colliderect_false in Hclear.
  unfold left, right, top, bottom in *. cbn [x y width height] in *.
  destruct (Z.lt_trichotomy 0 (Knight.vel_y s)) as [Hpos|[Hz|Hneg]].
  - destruct (Hd eq_refl Hpos) as [-> _]. unfold top, bottom. lia.
  - destruct (Hno (or_intror (eq_sym Hz))) as [-> _]. lia.
  - destruct (Hu eq_refl Hneg) as [-> _]. unfold top, bottom. lia.
Qed.

Lemma fold_collide_shortens tiles s :
  Forall (fun tile => colliderect tile (rect s) = false) tiles ->
  ((0 <= Knight.vel_x s ->
    0 <= Knight.vel_x (fold_left collide tiles s) <= Knight.vel_x s) /\
   (Knight.vel_x s <= 0 ->
    Knight.vel_x s <= Knight.vel_x (fold_left collide tiles s) <= 0))%Q /\
  (0 <= Knight.vel_y s ->
   0 <= Knight.vel_y (fold_left collide tiles s) <= Knight.vel_y s) /\
  (Knight.vel_y s <= 0 ->
   Knight.vel_y s <= Knight.vel_y (fold_left collide tiles s) <= 0).
Proof.
  revert s. induction tiles as [|t tiles IH]; intros s H; cbn [fold_left].
  - repeat split; intros; lra || lia.
  - inversion H as [|? ? Ht Hrest]; subst.
    destruct (collide_shortens_x s t Ht) as (Hx1 & Hx2).
    destruct (collide_shortens_y s t Ht) as (Hy1 & Hy2).
    destruct (IH (collide s t)) as ((Ix1 & Ix2) & Iy1 & Iy2).
    { rewrite collide_rect. exact Hrest. }
    split; [split|split]; intros Hs.
    + destruct (Hx1 Hs) as [A B]. destruct (Ix1 A) as [C D]. split; lra.
    + destruct (Hx2 Hs) as [A B]. destruct (Ix2 B) as [C D]. split; lra.
    + destruct (Hy1 Hs) as [A B]. destruct (Iy1 A) as [C D]. split; lia.
    + destruct (Hy2 Hs) as [A B]. destruct (Iy2 B) as [C D]. split; lia.
Qed.

(** The collision loop of a frame that starts clear of every tile. *)
Lemma resolve_shortens key s :
  clear_of_tiles s ->
  ((0 <= Pending.vel_x key s ->
    0 <= Knight.vel_x (resolve key s) <= Pending.vel_x key s) /\
   (Pending.vel_x key s <= 0 ->
    Pending.vel_x key s <= Knight.vel_x (resolve key s) <= 0))%Q /\
  (0 <= Pending.vel_y key s ->
   0 <= Knight.vel_y (resolve key s) <= Pending.vel_y key s) /\
  (Pending.vel_y key s <= 0 ->
   Pending.vel_y key s <= Knight.vel_y (resolve key s) <= 0).
Proof.
  intros H. unfold resolve, _handle_collisions, Pending.vel_x, Pending.vel_y.
  destruct (handle_movement_jump key s) as (Hr & _).
  destruct (apply_gravity_flight 30 1 (_handle_movement key s)) as (Hr' & Hx & _).
  destruct (handle_movement_untouched key s) as (Hw & _).
  destruct (apply_gravity_untouched 30 1 (_handle_movement key s)) as (Hw' & _).
  rewrite <- Hx.
  apply fold_collide_shortens. rewrite Hw', Hw, Hr', Hr. exact H.
Qed.

(** A frame succeeds, and what movement and physics read and write is what
    [physics] computes from the state before the frame. *)
Lemma update_body key wl s :
  sheets_ok s ->
  exists s', update key wl s = Some s' /\ same_body (physics key wl s) s'.
Proof.
  intros Hs. destruct (update_physics key wl s Hs) as (a & Ha & Hb & _).
  exists (physics key wl a). split; [exact Ha | now apply physics_body].
Qed.

(** X6.  When the player's box overlaps no tile, the collision loop keeps
    the direction of either velocity and never lengthens it: a velocity that
    is at least 0 ends between 0 and its old value, one that is at most 0
    between its old value and 0. *)
Theorem clamp_shortens s :
  clear_of_tiles s ->
  ((0 <= Knight.vel_x s ->
    0 <= Knight.vel_x (_handle_collisions s) <= Knight.vel_x s) /\
   (Knight.vel_x s <= 0 ->
    Knight.vel_x s <= Knight.vel_x (_handle_collisions s) <= 0))%Q /\
  (0 <= Knight.vel_y s ->
   0 <= Knight.vel_y (_handle_collisions s) <= Knight.vel_y s) /\
  (Knight.vel_y s <= 0 ->
   Knight.vel_y s <= Knight.vel_y (_handle_collisions s) <= 0).
Proof. intros H. apply fold_collide_shortens. exact H. Qed.

(** The player moving right into two tiles. *)
Lemma clamp_shortens_witness :
  (0 <= Knight.vel_x (_handle_collisions pushing) <= 10)%Q.
Proof.
  destruct (clamp_shortens pushing) as ((H & _) & _).
  - repeat constructor.
  - apply H. discriminate.
Defined.

(** X7.  From a state whose box overlaps no tile, with [|vel_x|] at most
    the sprint limit [7.5 * 1.7], a stored ratio, if any, between 0 and 1,
    and [vel_y] between -20 and 30, a frame with any keys succeeds and ends
    within the same limits. *)
Theorem velocity_bounds key wl s :
  sheets_ok s -> clear_of_tiles s -> speed_ok s ->
  -20 <= Knight.vel_y s <= 30 ->
  exists s', update key wl s = Some s' /\ speed_ok s' /\
    -20 <= Knight.vel_y s' <= 30.
Proof.
  intros Hs Hclear Hok Hvy.
  destruct (update_body key wl s Hs) as (s' & Hu & Hb).
  exists s'. split; [exact Hu|].
  destruct Hb as (_ & _ & _ & _ & Hx & Hy & _ & _ & _ & _ & Hr).
  rewrite physics_resolve in Hx, Hy, Hr.
  destruct (clamp_position_vel wl (resolve key s)) as (Ex & Ey & _).
  destruct (clamp_position_sprint wl (resolve key s)) as (_ & _ & _ & Er).
  rewrite Ex in Hx. rewrite Ey in Hy. rewrite Er in Hr.
  assert (Hr2 : sprint_decel_ratio (resolve key s) =
                sprint_decel_ratio (_handle_movement key s)).
  { unfold resolve, _handle_collisions.
    destruct (fold_collide_sprint
                (world_rects (_apply_gravity 30 1 (_handle_movement key s)))
                (_apply_gravity 30 1 (_handle_movement key s))) as (_ & _ & _ & ->).
    apply (apply_gravity_sprint 30 1 (_handle_movement key s)). }
  destruct (resolve_shortens key s Hclear) as ((Sx1 & Sx2) & Sy1 & Sy2).
  destruct (handle_movement_speed key s Hok) as (Hpx & Hpr).
  fold (Pending.vel_x key s) in Hpx. apply Qabs_Qle_condition in Hpx.
  split.
  - unfold speed_ok. rewrite Hx, Hr, Hr2. split; [|exact Hpr].
    apply Qabs_Qle_condition.
    destruct (Qlt_le_dec (Pending.vel_x key s) 0) as [Hn|Hp].
    + destruct Sx2; [lra|]. split; lra.
    + destruct (Sx1 Hp). split; lra.
  - rewrite Hy. pose proof (pending_vel_y key s) as Hp. cbv zeta in Hp.
    assert (Hpy : -19 <= Pending.vel_y key s <= 30).
    { rewrite Hp. destruct (K_SPACE key && negb (jumped s));
        repeat match goal with
               | |- context [?a <? ?b] => destruct (Z.ltb_spec a b)
               end; lia. }
    destruct (Z.le_gt_cases 0 (Pending.vel_y key s)) as [H0|H0].
    + destruct (Sy1 H0). lia.
    + destruct Sy2; lia.
Qed.

(** A jump from the floor. *)
Lemma velocity_bounds_witness :
  exists s', update jump_key 1000 standing = Some s' /\
    (Qabs (Knight.vel_x s') <= 7.5 * 1.7)%Q /\ -20 <= Knight.vel_y s' <= 30.
Proof.
  destruct (velocity_bounds jump_key 1000 standing) as (s' & Hu & (Hx & _) & Hy).
  - vm_compute. intuition discriminate.
  - repeat constructor.
  - split; [discriminate | exact I].
  - cbn. lia.
  - exists s'. auto.
Defined.

(** The movement step of a player that never sprinted. *)
Lemma handle_movement_walk key s :
  walk_ok s -> K_LSHIFT key = false -> walk_ok (_handle_movement key s).
Proof.
  destruct s, key. unfold walk_ok. fields. intros (Hv & -> & -> & ->) ->.
  apply Qabs_Qle_condition in Hv.
  unfold _handle_movement, _move_x, sprint_rules. fields.
  destruct jumped0; fields; unfold steer, scale_target; fields;
    destruct K_a0, K_d0, K_SPACE0; fields; unfold _apply_friction; fields;
    repeat split_if_eqn; read_tests; minmax_cases;
    (split; [apply Qabs_Qle_condition; split; lra | auto]).
Qed.

(** X8.  A player that has not sprinted ([sprinting] and
    [was_sprinting_when_jumped] clear, no stored ratio), whose box overlaps
    no tile and whose speed is at most 7.5, is in the same situation after
    a frame without the sprint key: the plain limit 7.5 holds on the ground
    and in the air. *)
Theorem walk_limit key wl s :
  sheets_ok s -> clear_of_tiles s -> walk_ok s -> K_LSHIFT key = false ->
  exists s', update key wl s = Some s' /\ walk_ok s'.
Proof.
  intros Hs Hclear Hok Hk.
  destruct (update_body key wl s Hs) as (s' & Hu & Hb).
  destruct (update_flags key wl s s' Hu) as (Hsp & Hws & _).
  exists s'. split; [exact Hu|].
  destruct Hb as (_ & _ & _ & _ & Hx & _ & _ & _ & _ & _ & Hr).
  rewrite physics_resolve in Hx, Hr.
  destruct (clamp_position_vel wl (resolve key s)) as (Ex & _).
  destruct (clamp_position_sprint wl (resolve key s)) as (_ & _ & _ & Er).
  rewrite Ex in Hx. rewrite Er in Hr.
  assert (Hr2 : sprint_decel_ratio (resolve key s) =
                sprint_decel_ratio (_handle_movement key s)).
  { unfold resolve, _handle_collisions.
    destruct (fold_collide_sprint
                (world_rects (_apply_gravity 30 1 (_handle_movement key s)))
                (_apply_gravity 30 1 (_handle_movement key s))) as (_ & _ & _ & ->).
    apply (apply_gravity_sprint 30 1 (_handle_movement key s)). }
  destruct (resolve_shortens key s Hclear) as ((Sx1 & Sx2) & _).
  destruct (handle_movement_walk key s Hok Hk) as (Hpx & _ & _ & Hpr).
  fold (Pending.vel_x key s) in Hpx. apply Qabs_Qle_condition in Hpx.
  destruct Hok as (_ & _ & Hw0 & _).
  unfold walk_ok. rewrite Hx, Hr, Hr2, Hsp, Hws, Hk, Hw0.
  split; [|split; [reflexivity | split; [|exact Hpr]]].
  - apply Qabs_Qle_condition.
    destruct (Qlt_le_dec (Pending.vel_x key s) 0) as [Hn|Hp].
    + destruct Sx2; [lra|]. split; lra.
    + destruct (Sx1 Hp). split; lra.
  - destruct (K_SPACE key && negb (jumped s)); reflexivity.
Qed.

(** The right key on the floor. *)
Lemma walk_limit_witness :
  exists s', update right_key 1000 standing = Some s' /\
    (Qabs (Knight.vel_x s') <= 7.5)%Q.
Proof.
  destruct (walk_limit right_key 1000 standing) as (s' & Hu & Hx & _).
  - vm_compute. intuition discriminate.
  - repeat constructor.
  - repeat split. discriminate.
  - reflexivity.
  - exists s'. auto.
Defined.

Lemma colliderect_apart tile r :
  right r <= left tile \/ right tile <= left r \/
  bottom r <= top tile \/ bottom tile <= top r ->
  colliderect tile r = false.
Proof.
  unfold colliderect. rewrite !andb_false_iff, !Z.ltb_ge. tauto.
Qed.

Lemma clamp_value lo hi v :
  (lo <= v <= hi)%Q -> Py.max lo (Py.min v hi) == v.
Proof.
  intros [H1 H2].
  destruct (min_cases v hi) as [[? ->]|[? ->]];
    [destruct (max_cases lo v) as [[? ->]|[? ->]]
    |destruct (max_cases lo hi) as [[? ->]|[? ->]]]; lra.
Qed.

(** Tiles that are not hit along y, or any tiles once the player stands
    still along y, change neither [vel_y] nor the flag. *)
Lemma fold_collide_keep_y tiles s :
  Knight.vel_y s = 0 \/
  Forall (fun tile => colliderect tile (box_y s (Knight.vel_y s)) = false) tiles ->
  Knight.vel_y (fold_left collide tiles s) = Knight.vel_y s /\
  jumped (fold_left collide tiles s) = jumped s.
Proof.
  intros [H|H]; [|now apply fold_collide_no_vertical].
  revert s H. induction tiles as [|t tiles IH]; intros s H; cbn [fold_left]; auto.
  destruct (collide_vertical s t) as (_ & _ & Hno).
  destruct (Hno (or_intror H)) as [Hv Hj]. rewrite <- Hv, <- Hj.
  apply IH. now rewrite Hv.
Qed.

Lemma fold_collide_keep_x tiles s :
  Knight.vel_x s == 0 \/
  Forall (fun tile => colliderect tile (box_x s (Knight.vel_x s)) = false) tiles ->
  Knight.vel_x (fold_left collide tiles s) = Knight.vel_x s.
Proof.
  intros [H|H]; [now apply fold_collide_still_x|].
  now apply fold_collide_no_horizontal.
Qed.

(** The state the collision loop of a frame starts from. *)
Lemma pending_state key s :
  let m := _apply_gravity 30 1 (_handle_movement key s) in
  world_rects m = world_rects s /\ rect m = rect s /\
  Knight.vel_x m = Pending.vel_x key s /\ Knight.vel_y m = Pending.vel_y key s /\
  jumped m = jumped s || K_SPACE key.
Proof.
  cbv zeta. unfold Pending.vel_x, Pending.vel_y.
  destruct (handle_movement_jump key s) as (Hr & Hj & _).
  destruct (apply_gravity_flight 30 1 (_handle_movement key s)) as (Hr' & Hx & Hj' & _).
  destruct (handle_movement_untouched key s) as (Hw & _).
  destruct (apply_gravity_untouched 30 1 (_handle_movement key s)) as (Hw' & _).
  rewrite Hw', Hw, Hr', Hr, Hx, Hj', Hj. auto.
Qed.

(** The collision loop when one tile decides the vertical velocity. *)
Lemma resolve_vertical_hit key s before tile after :
  world_rects s = before ++ tile :: after ->
  let v := Pending.vel_y key s in
  let v2 := if 0 <? v then top tile - bottom (rect s)
            else bottom tile - top (rect s) in
  v <> 0 ->
  Forall (fun t => colliderect t (box_y s v) = false) before ->
  colliderect tile (box_y s v) = true ->
  v2 = 0 \/ Forall (fun t => colliderect t (box_y s v2) = false) after ->
  Knight.vel_y (resolve key s) = v2 /\
  jumped (resolve key s) = if 0 <? v then false else jumped s || K_SPACE key.
Proof.
  intros Hw v v2 Hv Hbefore Hhit Hafter.
  destruct (pending_state key s) as (Ew & Er & _ & Ey & Ej). cbv zeta in *.
  unfold resolve, _handle_collisions.
  set (m := _apply_gravity 30 1 (_handle_movement key s)) in *. clearbody m.
  rewrite Ew, Hw, fold_left_app. cbn [fold_left].
  destruct (fold_collide_no_vertical before m) as (Hy1 & Hj1).
  { unfold box_y in Hbefore. rewrite Er, Ey. exact Hbefore. }
  pose proof (fold_collide_rect before m) as Hr1.
  set (s1 := fold_left collide before m) in *. clearbody s1.
  destruct (collide_vertical s1 tile) as (Hd & Hu & _). cbv zeta in Hd, Hu.
  rewrite Hr1, Er, Hy1, Ey in Hd, Hu. fold v in Hd, Hu.
  unfold box_y in Hhit. fold v in Hhit.
  pose proof (collide_rect s1 tile) as Hr2.
  assert (H2 : Knight.vel_y (collide s1 tile) = v2 /\
               jumped (collide s1 tile) =
                 if 0 <? v then false else jumped s || K_SPACE key).
  { unfold v2. destruct (Z.ltb_spec 0 v) as [Hp|Hn].
    - apply Hd; auto.
    - destruct Hu as [Hu1 Hu2]; [exact Hhit | lia |].
      rewrite Hu1, Hu2, Hj1, Ej. auto. }
  destruct H2 as [Hv2 Hj2].
  set (s2 := collide s1 tile) in *. clearbody s2.
  destruct (fold_collide_keep_y after s2) as (Hy3 & Hj3).
  { rewrite Hv2. destruct Hafter as [H|H]; [now left | right].
    unfold box_y in *. rewrite Hr2, Hr1, Er. exact H. }
  rewrite Hy3, Hj3, Hv2, Hj2. auto.
Qed.

(** The collision loop when one tile decides the horizontal velocity. *)
Lemma resolve_horizontal_hit key s before tile after :
  world_rects s = before ++ tile :: after ->
  let v := Pending.vel_x key s in
  let v2 := if Py.gtb v 0 then left tile - right (rect s)
            else right tile - left (rect s) in
  ~ v == 0 ->
  Forall (fun t => colliderect t (box_x s v) = false) before ->
  colliderect tile (box_x s v) = true ->
  v2 = 0 \/ Forall (fun t => colliderect t (box_x s (inject_Z v2)) = false) after ->
  Knight.vel_x (resolve key s) = inject_Z v2.
Proof.
  intros Hw v v2 Hv Hbefore Hhit Hafter.
  destruct (pending_state key s) as (Ew & Er & Ex & _ & _). cbv zeta in *.
  unfold resolve, _handle_collisions.
  set (m := _apply_gravity 30 1 (_handle_movement key s)) in *. clearbody m.
  rewrite Ew, Hw, fold_left_app. cbn [fold_left].
  pose proof (fold_collide_no_horizontal before m) as Hx1.
  rewrite Er, Ex in Hx1. specialize (Hx1 Hbefore).
  pose proof (fold_collide_rect before m) as Hr1.
  set (s1 := fold_left collide before m) in *. clearbody s1.
  destruct (collide_horizontal s1 tile) as (Hr & Hl & _). cbv zeta in Hr, Hl.
  rewrite Hr1, Er, Hx1 in Hr, Hl. fold v in Hr, Hl.
  unfold box_x in Hhit. fold v in Hhit.
  pose proof (collide_rect s1 tile) as Hr2.
  assert (H2 : Knight.vel_x (collide s1 tile) = inject_Z v2).
  { unfold v2. destruct (gtb_spec v 0) as [Hp|Hn].
    - apply Hr; auto.
    - apply Hl; auto. lra. }
  set (s2 := collide s1 tile) in *. clearbody s2.
  rewrite <- H2. apply fold_collide_keep_x.
  rewrite H2. destruct Hafter as [H|H].
  - left. rewrite H. reflexivity.
  - right. unfold box_x in *. rewrite Hr2, Hr1, Er. exact H.
Qed.

(** The rectangle after a frame, from the velocities the loop leaves. *)
Lemma update_rect_inv key wl s s' :
  update key wl s = Some s' ->
    Knight.vel_x s' = Knight.vel_x (resolve key s) /\
    Knight.vel_y s' = Knight.vel_y (resolve key s) /\
    jumped s' = jumped (resolve key s) /\
    rect s' =
      mkRect
        (nearest (Py.max 0 (Py.min (inject_Z (x (rect s))
                                    + Knight.vel_x (resolve key s))
                                   (wl - inject_Z (width (rect s)))))%Q)
        (y (rect s) + Knight.vel_y (resolve key s))
        (width (rect s)) (height (rect s)).
Proof.
  intros Hu. destruct (update_inv key wl s s' Hu) as (a & Ha & E).
  pose proof (physics_body key wl s a Ha) as Hb. rewrite <- E in Hb.
  destruct Hb as (_ & _ & _ & Hr & Hx & Hy & _ & Hj & _).
  rewrite physics_resolve in Hr, Hx, Hy, Hj.
  destruct (clamp_position_vel wl (resolve key s)) as (Ex & Ey & Ej).
  rewrite Hx, Hy, Hj, Hr, Ex, Ey, Ej. repeat split.
  unfold _clamp_position. rewrite (resolve_rect key s).
  destruct (resolve key s). reflexivity.
Qed.

Lemma update_rect key wl s :
  sheets_ok s ->
  exists s', update key wl s = Some s' /\
    Knight.vel_x s' = Knight.vel_x (resolve key s) /\
    Knight.vel_y s' = Knight.vel_y (resolve key s) /\
    jumped s' = jumped (resolve key s) /\
    rect s' =
      mkRect
        (nearest (Py.max 0 (Py.min (inject_Z (x (rect s))
                                    + Knight.vel_x (resolve key s))
                                   (wl - inject_Z (width (rect s)))))%Q)
        (y (rect s) + Knight.vel_y (resolve key s))
        (width (rect s)) (height (rect s)).
Proof.
  intros Hs. destruct (update_physics key wl s Hs) as (a & Ha & _).
  exists (physics key wl a). split; [exact Ha|].
  exact (update_rect_inv key wl s _ Ha).
Qed.

(** X9.  A player moving down that meets a tile from above, no earlier
    tile of the list being met and no later tile being met by the shortened
    move (or the tile's top being at the player's feet already), ends the
    frame standing on the tile: its bottom is the tile's top, [vel_y] is the
    distance that was left, the [jumped] flag is clear and the box does not
    overlap the tile. *)
Theorem landing key wl s before tile after :
  sheets_ok s -> world_rects s = before ++ tile :: after ->
  let v := Pending.vel_y key s in
  0 < v ->
  Forall (fun t => colliderect t (box_y s v) = false) before ->
  colliderect tile (box_y s v) = true ->
  top tile = bottom (rect s) \/
  Forall (fun t => colliderect t (box_y s (top tile - bottom (rect s))) = false)
         after ->
  exists s', update key wl s = Some s' /\
    bottom (rect s') = top tile /\
    Knight.vel_y s' = top tile - bottom (rect s) /\
    jumped s' = false /\ colliderect tile (rect s') = false.
Proof.
  intros Hs Hw v Hv Hbefore Hhit Hafter.
  destruct (resolve_vertical_hit key s before tile after Hw) as (Hy & Hj);
    try assumption.
  { fold v. lia. }
  { fold v. destruct (Z.ltb_spec 0 v); [|lia].
    destruct Hafter as [Ha|Ha]; [left; lia | right; exact Ha]. }
  fold v in Hy, Hj. destruct (Z.ltb_spec 0 v); [|lia].
  destruct (update_rect key wl s Hs) as (s' & Hu & _ & Ey & Ej & Er).
  exists s'. split; [exact Hu|]. rewrite Ey, Ej, Hy, Hj.
  assert (Hb : bottom (rect s') = top tile).
  { rewrite Er, Hy. unfold bottom, top. cbn [x y width height]. lia. }
  repeat split; auto. apply colliderect_apart. lia.
Qed.

(** X10.  A player moving up that meets a tile from below, no earlier tile
    of the list being met and no later tile being met by the shortened
    move, ends the frame with its top at the tile's bottom and [vel_y] the
    distance that was left; the [jumped] flag is not cleared, so a jump
    started in this frame stays a jump. *)
Theorem head_bump key wl s before tile after :
  sheets_ok s -> world_rects s = before ++ tile :: after ->
  let v := Pending.vel_y key s in
  v < 0 ->
  Forall (fun t => colliderect t (box_y s v) = false) before ->
  colliderect tile (box_y s v) = true ->
  bottom tile = top (rect s) \/
  Forall (fun t => colliderect t (box_y s (bottom tile - top (rect s))) = false)
         after ->
  exists s', update key wl s = Some s' /\
    top (rect s') = bottom tile /\
    Knight.vel_y s' = bottom tile - top (rect s) /\
    jumped s' = jumped s || K_SPACE key /\
    colliderect tile (rect s') = false.
Proof.
  intros Hs Hw v Hv Hbefore Hhit Hafter.
  destruct (resolve_vertical_hit key s before tile after Hw) as (Hy & Hj);
    try assumption.
  { fold v. lia. }
  { fold v. destruct (Z.ltb_spec 0 v); [lia|].
    destruct Hafter as [Ha|Ha]; [left; lia | right; exact Ha]. }
  fold v in Hy, Hj. destruct (Z.ltb_spec 0 v); [lia|].
  destruct (update_rect key wl s Hs) as (s' & Hu & _ & Ey & Ej & Er).
  exists s'. split; [exact Hu|]. rewrite Ey, Ej, Hy, Hj.
  assert (Hb : top (rect s') = bottom tile).
  { rewrite Er, Hy. unfold bottom, top. cbn [x y width height]. lia. }
  repeat split; auto. apply colliderect_apart. lia.
Qed.

(** X11.  A player moving sideways that meets a tile, no earlier tile of
    the list being met and no later tile being met by the shortened move,
    ends the frame against the tile, if that place is within the world
    limits: [vel_x] is the whole distance that was left, and the player's
    right side is the tile's left side when moving right, its left side the
    tile's right side when moving left. *)
Theorem wall_stop key wl s before tile after :
  sheets_ok s -> world_rects s = before ++ tile :: after ->
  let v := Pending.vel_x key s in
  let v2 := if Py.gtb v 0 then left tile - right (rect s)
            else right tile - left (rect s) in
  ~ v == 0 ->
  Forall (fun t => colliderect t (box_x s v) = false) before ->
  colliderect tile (box_x s v) = true ->
  v2 = 0 \/ Forall (fun t => colliderect t (box_x s (inject_Z v2)) = false) after ->
  0 <= x (rect s) + v2 ->
  (inject_Z (x (rect s) + v2) <= wl - inject_Z (width (rect s)))%Q ->
  exists s', update key wl s = Some s' /\
    Knight.vel_x s' = inject_Z v2 /\
    x (rect s') = x (rect s) + v2 /\
    ((0 < v)%Q -> right (rect s') = left tile) /\
    ((v < 0)%Q -> left (rect s') = right tile) /\
    colliderect tile (rect s') = false.
Proof.
  intros Hs Hw v v2 Hv Hbefore Hhit Hafter Hlo Hhi.
  pose proof (resolve_horizontal_hit key s before tile after Hw Hv Hbefore
                Hhit Hafter) as Hx.
  fold v in Hx. fold v2 in Hx.
  destruct (update_rect key wl s Hs) as (s' & Hu & Ex & _ & _ & Er).
  exists s'. split; [exact Hu|]. rewrite Ex, Hx. split; [reflexivity|].
  assert (Hxx : x (rect s') = x (rect s) + v2).
  { rewrite Er, Hx. cbn [x]. apply nearest_of_eq.
    rewrite clamp_value; [rewrite inject_Z_plus; reflexivity|].
    rewrite <- inject_Z_plus. split; [|exact Hhi].
    change 0%Q with (inject_Z 0). rewrite <- Zle_Qle. exact Hlo. }
  assert (Hww : width (rect s') = width (rect s)) by (rewrite Er; reflexivity).
  split; [exact Hxx|].
  assert (Hr : (0 < v)%Q -> right (rect s') = left tile).
  { intros Hp. unfold right, left in *. rewrite Hxx, Hww. unfold v2.
    destruct (gtb_spec v 0); [lia | contradiction]. }
  assert (Hl : (v < 0)%Q -> left (rect s') = right tile).
  { intros Hn. unfold right, left in *. rewrite Hxx. unfold v2.
    destruct (gtb_spec v 0); [lra | lia]. }
  split; [exact Hr|]. split; [exact Hl|].
  apply colliderect_apart.
  destruct (Qlt_le_dec 0 v) as [Hp|Hn].
  - left. rewrite (Hr Hp). lia.
  - right. left. rewrite <- Hl; [lia|].
    destruct (Qlt_le_dec v 0); auto. exfalso. apply Hv. lra.
Qed.

(** Falling from four pixels above the floor. *)
Lemma landing_witness :
  exists s', update no_key 1000 dropping = Some s' /\
    bottom (rect s') = top floor /\ jumped s' = false.
Proof.
  destruct (landing no_key 1000 dropping [] floor []) as (s' & Hu & Hb & _ & Hj & _).
  - vm_compute. intuition discriminate.
  - reflexivity.
  - reflexivity.
  - constructor.
  - reflexivity.
  - right. constructor.
  - exists s'. auto.
Defined.

(** Rising under a tile ten pixels above. *)
Lemma head_bump_witness :
  exists s', update no_key 1000 rising = Some s' /\
    top (rect s') = bottom ceiling /\ Knight.vel_y s' = -10.
Proof.
  destruct (head_bump no_key 1000 rising [] ceiling []) as (s' & Hu & Hb & Hv & _).
  - vm_compute. intuition discriminate.
  - reflexivity.
  - reflexivity.
  - constructor.
  - reflexivity.
  - right. constructor.
  - exists s'. auto.
Defined.

(** Drifting right with a tile six pixels ahead. *)
Lemma wall_stop_witness :
  exists s', update no_key 1000 drifting = Some s' /\
    right (rect s') = left wall /\ Knight.vel_x s' = inject_Z 6.
Proof.
  destruct (wall_stop no_key 1000 drifting [] wall []) as (s' & Hu & Hv & _ & Hr & _).
  - vm_compute. intuition discriminate.
  - reflexivity.
  - vm_compute. discriminate.
  - constructor.
  - reflexivity.
  - right. constructor.
  - vm_compute. discriminate.
  - vm_compute. discriminate.
  - exists s'. split; [exact Hu|]. split; [|exact Hv]. apply Hr. reflexivity.
Defined.

Lemma fold_collide_floor tiles s :
  0 < Knight.vel_y s ->
  Exists (fun tile => colliderect tile (box_y s (Knight.vel_y s)) = true) tiles ->
  Forall (fun tile => colliderect tile (box_y s (Knight.vel_y s)) = true ->
                      top tile = bottom (rect s)) tiles ->
  Knight.vel_y (fold_left collide tiles s) = 0 /\
  jumped (fold_left collide tiles s) = false.
Proof.
  revert s. induction tiles as [|t tiles IH]; intros s Hv Hex Hall.
  - inversion Hex.
  - cbn [fold_left]. inversion Hall as [|? ? Ht Hrest]; subst.
    destruct (collide_vertical s t) as (Hd & _ & Hno). cbv zeta in Hd, Hno.
    fold (box_y s (Knight.vel_y s)) in Hd, Hno.
    destruct (colliderect t (box_y s (Knight.vel_y s))) eqn:Hhit.
    + destruct (Hd eq_refl Hv) as [Hy Hj]. rewrite (Ht eq_refl), Z.sub_diag in Hy.
      destruct (fold_collide_keep_y tiles (collide s t) (or_introl Hy)) as [-> ->].
      auto.
    + destruct (Hno (or_introl eq_refl)) as [Hy Hj].
      inversion Hex as [? ? Hx|? ? Hx]; subst; [congruence|].
      apply IH.
      * now rewrite Hy.
      * unfold box_y in *. rewrite collide_rect, Hy. exact Hx.
      * unfold box_y in *. rewrite collide_rect, Hy. exact Hrest.
Qed.

(** X12.  A player at rest on the floor (both velocities 0, [jumped]
    clear, at least one tile right under its feet and every tile it would
    sink into having its top there), within the world limits, is in the
    same place and at rest after a frame without the direction keys and the
    jump key: gravity is undone by the floor in every frame. *)
Theorem rest_is_stable key wl s :
  sheets_ok s -> jumped s = false -> Knight.vel_y s = 0 ->
  Knight.vel_x s == 0 ->
  K_a key = false -> K_d key = false -> K_SPACE key = false ->
  on_floor s ->
  0 <= x (rect s) ->
  (inject_Z (x (rect s)) <= wl - inject_Z (width (rect s)))%Q ->
  exists s', update key wl s = Some s' /\ rect s' = rect s /\
    Knight.vel_y s' = 0 /\ Knight.vel_x s' == 0 /\ jumped s' = false.
Proof.
  intros Hs Hj Hvy Hvx Ha Hd Hsp (Hex & Hall) Hlo Hhi.
  destruct (update_rect key wl s Hs) as (s' & Hu & Ex & Ey & Ej & Er).
  exists s'. split; [exact Hu|].
  destruct (pending_state key s) as (Ew & Erm & Exm & Eym & Ejm). cbv zeta in *.
  assert (Hpy : Pending.vel_y key s = 1).
  { rewrite pending_vel_y, Hsp, Hvy. reflexivity. }
  assert (Hpx : Pending.vel_x key s == 0).
  { unfold Pending.vel_x. rewrite (handle_movement_idle key s Hj Ha Hd).
    destruct (sprint_rules_vel_x key s Hj) as (Hm & _). cbv zeta in Hm.
    destruct (apply_friction_spec key
                (fst (fst (sprint_rules key 0.5 7.5 1.7 1.7 s))) Ha Hd)
      as (_ & _ & _ & Hstop).
    apply Hstop. destruct Hm as [-> | ->].
    - rewrite Hvx. discriminate.
    - rewrite Hvx. discriminate. }
  assert (Hry : Knight.vel_y (resolve key s) = 0 /\ jumped (resolve key s) = false).
  { unfold resolve, _handle_collisions.
    set (m := _apply_gravity 30 1 (_handle_movement key s)) in *. clearbody m.
    rewrite Ew. apply fold_collide_floor.
    - rewrite Eym, Hpy. lia.
    - unfold box_y in *. rewrite Erm, Eym, Hpy. exact Hex.
    - unfold box_y in *. rewrite Erm, Eym, Hpy. exact Hall. }
  assert (Hrx : Knight.vel_x (resolve key s) == 0).
  { unfold resolve, _handle_collisions.
    set (m := _apply_gravity 30 1 (_handle_movement key s)) in *. clearbody m.
    rewrite fold_collide_still_x; rewrite Exm; exact Hpx. }
  destruct Hry as [Hry Hrj].
  rewrite Ex, Ey, Ej, Hry, Hrj. repeat split; auto.
  rewrite Er, Hry, Z.add_0_r.
  assert (E : nearest (Py.max 0 (Py.min (inject_Z (x (rect s))
                                         + Knight.vel_x (resolve key s))
                                        (wl - inject_Z (width (rect s)))))%Q
              = x (rect s)).
  { apply nearest_of_eq. rewrite clamp_value.
    - rewrite Hrx. ring.
    - rewrite Hrx. split; [|lra].
      assert (0 <= inject_Z (x (rect s)))%Q
        by (change 0%Q with (inject_Z 0); rewrite <- Zle_Qle; exact Hlo).
      lra. }
  rewrite E. destruct (rect s). reflexivity.
Qed.

(** Standing across two tiles of a floor. *)
Lemma rest_is_stable_witness :
  exists s', update no_key 1000 astride = Some s' /\ rect s' = rect astride.
Proof.
  destruct (rest_is_stable no_key 1000 astride) as (s' & Hu & Hr & _);
    try reflexivity.
  - vm_compute. intuition discriminate.
  - split.
    + constructor. reflexivity.
    + repeat constructor.
  - vm_compute. discriminate.
  - vm_compute. discriminate.
  - exists s'. auto.
Defined.

(** The movement step with both direction keys down. *)
Lemma pending_vel_x_both key s :
  K_a key = true -> K_d key = true -> ramp_idle key s ->
  (- limit key s + increment key s <= Knight.vel_x s <= limit key s)%Q ->
  Pending.vel_x key s == Knight.vel_x s.
Proof.
  destruct s, key. unfold ramp_idle, limit, increment, air_limit,
    air_increment, Pending.vel_x. fields. intros -> -> Hidle Hv.
  unfold _handle_movement, _move_x, sprint_rules. fields.
  destruct jumped0; fields.
  - destruct was_sprinting_when_jumped0; fields;
      unfold steer, scale_target; fields;
      destruct K_SPACE0, K_LSHIFT0, sprint_decel_ratio0; fields;
      minmax_cases; lra.
  - destruct K_LSHIFT0, sprinting0, sprint_decel_ratio0, K_SPACE0;
      try (exfalso; destruct Hidle as [H|[H|[H1 H2]]]; discriminate);
      fields; unfold steer, scale_target; fields;
      unfold _apply_friction; fields; minmax_cases; lra.
Qed.

(** X13.  With both direction keys down the two steps cancel: if the
    ground ramp is out of play (the player is in the air, or the sprint key
    is down, or it was not sprinting and no ratio is stored), [vel_x] is at
    most the limit of the frame and at least the increment above minus the
    limit, and no tile is met sideways, the frame leaves [vel_x] as it was,
    without friction, and the sprite faces right. *)
Theorem opposite_keys_cancel key wl s :
  sheets_ok s -> K_a key = true -> K_d key = true -> ramp_idle key s ->
  (- limit key s + increment key s <= Knight.vel_x s <= limit key s)%Q ->
  no_horizontal_hit s (Pending.vel_x key s) ->
  exists s', update key wl s = Some s' /\
    Knight.vel_x s' == Knight.vel_x s /\ flipped s' = false.
Proof.
  intros Hs Ha Hd Hidle Hv Hno.
  destruct (update_horizontal key wl s Hs Hno) as (s' & Hu & Hx).
  destruct (update_flags key wl s s' Hu) as (_ & _ & Hf).
  exists s'. split; [exact Hu|]. split.
  - rewrite Hx. now apply pending_vel_x_both.
  - rewrite Hf, Hd. reflexivity.
Qed.

(** Sliding right on the floor at speed 5. *)
Lemma opposite_keys_cancel_witness :
  exists s', update both_keys 1000 gliding = Some s' /\
    Knight.vel_x s' == 5.
Proof.
  destruct (opposite_keys_cancel both_keys 1000 gliding) as (s' & Hu & Hx & _);
    try reflexivity.
  - vm_compute. intuition discriminate.
  - right. right. split; reflexivity.
  - vm_compute. split; discriminate.
  - vm_compute. repeat constructor.
  - exists s'. auto.
Defined.

(** The animation attributes after a frame. *)
Lemma update_animation key wl s :
  sheets_ok s ->
  exists s', update key wl s = Some s' /\ sheets_ok s' /\
    (cycle_cooldown key < counter s + 1 ->
     counter s' = 0 /\ index s' = (index s + 1) mod cycle_steps key) /\
    (counter s + 1 <= cycle_cooldown key ->
     counter s' = counter s + 1 /\ index s' = index s /\ image s' = image s).
Proof.
  intros Hs. destruct (update_physics key wl s Hs) as (a & Ha & _ & Hnew & Hold).
  exists (physics key wl a). split; [exact Ha|].
  split; [eapply update_sheets_ok; eauto|].
  destruct (physics_untouched key wl a) as (_ & _ & _ & -> & -> & -> & _).
  split; intros Hc.
  - destruct (Hnew Hc) as (H1 & H2 & _). auto.
  - apply Hold. exact Hc.
Qed.

Lemma hold_time_from keys key0 wl s :
  sheets_ok s -> 0 <= counter s <= cycle_cooldown key0 ->
  Forall (fun k => K_a k || K_d k = K_a key0 || K_d key0) keys ->
  exists s', run keys wl s = Some s' /\
    (counter s + Z.of_nat (length keys) <= cycle_cooldown key0 ->
     counter s' = counter s + Z.of_nat (length keys) /\
     index s' = index s /\ image s' = image s) /\
    (counter s + Z.of_nat (length keys) = cycle_cooldown key0 + 1 ->
     counter s' = 0 /\ index s' = (index s + 1) mod cycle_steps key0).
Proof.
  revert s. induction keys as [|key keys IH]; intros s Hs Hc Hk.
  - exists s. cbn [run length Z.of_nat]. split; [reflexivity|].
    split; intros; [auto with zarith | lia].
  - inversion Hk as [|? ? Hkey Hrest]; subst.
    assert (Ecd : cycle_cooldown key = cycle_cooldown key0)
      by (unfold cycle_cooldown; now rewrite Hkey).
    assert (Est : cycle_steps key = cycle_steps key0)
      by (unfold cycle_steps; now rewrite Hkey).
    destruct (update_animation key wl s Hs) as (s1 & Hu & Hs1 & Hnew & Hold).
    rewrite Ecd, Est in *. cbn [run]. rewrite Hu.
    cbn [length]. rewrite Nat2Z.inj_succ.
    destruct (Z.le_gt_cases (counter s + 1) (cycle_cooldown key0)) as [Hle|Hgt].
    + destruct (Hold Hle) as (Hc1 & Hi1 & Him1).
      destruct (IH s1 Hs1) as (s' & Hr & Hshort & Hfull); [lia | exact Hrest |].
      exists s'. split; [exact Hr|]. rewrite Hc1, Hi1, Him1 in *.
      split; intros Hn.
      * destruct Hshort as (-> & -> & ->); [lia|]. repeat split; lia.
      * apply Hfull. lia.
    + destruct (Hnew ltac:(lia)) as (Hc1 & Hi1).
      destruct (IH s1 Hs1) as (s' & Hr & Hshort & Hfull); [lia | exact Hrest |].
      exists s'. split; [exact Hr|].
      split; intros Hn; [lia|].
      assert (Hlen : Z.of_nat (length keys) = 0) by lia.
      destruct keys; [|cbn [length] in Hlen; lia].
      cbn [run] in Hr. injection Hr as <-. auto.
Qed.

(** X14.  Starting with the counter at 0, in frames that all select the
    same cycle (all with a direction key down, or all with none), the sprite
    frame is held for [cooldown] frames and replaced in the next one: after
    [n <= cooldown] frames the counter is [n] and index and image are the
    old ones; after [cooldown + 1] frames the counter is back at 0 and the
    index has advanced by one modulo the length of the cycle.  The cooldown
    is 8 frames for the run cycle and 10 for the idle cycle. *)
Theorem hold_time keys key0 wl s :
  sheets_ok s -> counter s = 0 ->
  Forall (fun k => K_a k || K_d k = K_a key0 || K_d key0) keys ->
  exists s', run keys wl s = Some s' /\
    (Z.of_nat (length keys) <= cycle_cooldown key0 ->
     counter s' = Z.of_nat (length keys) /\
     index s' = index s /\ image s' = image s) /\
    (Z.of_nat (length keys) = cycle_cooldown key0 + 1 ->
     counter s' = 0 /\ index s' = (index s + 1) mod cycle_steps key0).
Proof.
  intros Hs Hc Hk.
  destruct (hold_time_from keys key0 wl s Hs) as (s' & Hr & H1 & H2);
    [unfold cycle_cooldown; destruct (_ || _); lia | exact Hk |].
  rewrite Hc in H1, H2. exists s'. auto.
Qed.

(** Eleven idle frames. *)
Lemma hold_time_witness :
  exists s', run (repeat no_key 11) 1000 standing = Some s' /\
    counter s' = 0 /\ index s' = 1.
Proof.
  destruct (hold_time (repeat no_key 11) no_key 1000 standing)
    as (s' & Hr & _ & Hfull).
  - vm_compute. intuition discriminate.
  - reflexivity.
  - repeat constructor.
  - exists s'. split; [exact Hr|]. apply Hfull. reflexivity.
Defined.

(** The animation attributes after a frame that has not raised. *)
Lemma update_animation_inv key wl s s' :
  update key wl s = Some s' ->
  (cycle_cooldown key < counter s + 1 ->
   counter s' = 0 /\ index s' = (index s + 1) mod cycle_steps key) /\
  (counter s + 1 <= cycle_cooldown key ->
   counter s' = counter s + 1 /\ index s' = index s).
Proof.
  unfold update, cycle_cooldown, cycle_steps. intros Hu.
  assert (H : forall sheet steps cooldown a,
            animate sheet steps cooldown s = Some a ->
            (cooldown < counter s + 1 ->
             counter a = 0 /\ index a = (index s + 1) mod steps) /\
            (counter s + 1 <= cooldown ->
             counter a = counter s + 1 /\ index a = index s)).
  { intros sheet steps cooldown a. unfold animate. fields.
    destruct (Z.ltb_spec cooldown (counter s + 1)) as [Hc|Hc].
    - destruct subsurface; [|discriminate]. intros E. injection E as <-.
      destruct s. fields. split; [auto | lia].
    - intros E. injection E as <-. destruct s. fields. split; [lia | auto]. }
  destruct (K_a key || K_d key).
  - destruct (animate (run_sheet s) 16 8 s) as [a|] eqn:Ea; [|discriminate].
    injection Hu as <-.
    destruct (physics_untouched key wl a) as (_ & _ & _ & -> & -> & _).
    exact (H _ _ _ _ Ea).
  - destruct (animate (idle_sheet s) 4 10 s) as [a|] eqn:Ea; [|discriminate].
    injection Hu as <-.
    destruct (physics_untouched key wl a) as (_ & _ & _ & -> & -> & _).
    exact (H _ _ _ _ Ea).
Qed.

(** X15.  From a state with the counter between 0 and 10 and the index
    between 0 and 15, a run of frames that does not raise, whatever the
    keys, the tiles and the sheets, ends with the counter between 0 and 10
    and the index between 0 and 15. *)
Theorem animation_ranges keys wl s s' :
  0 <= counter s <= 10 -> 0 <= index s <= 15 ->
  run keys wl s = Some s' ->
  0 <= counter s' <= 10 /\ 0 <= index s' <= 15.
Proof.
  revert s. induction keys as [|key keys IH]; intros s Hc Hi Hr; cbn [run] in Hr.
  - injection Hr as <-. auto.
  - destruct (update key wl s) as [s1|] eqn:Hu; [|discriminate].
    destruct (update_animation_inv key wl s s1 Hu) as (Hnew & Hold).
    assert (Hcd : 8 <= cycle_cooldown key <= 10)
      by (unfold cycle_cooldown; destruct (_ || _); lia).
    assert (Hst : 0 < cycle_steps key <= 16)
      by (unfold cycle_steps; destruct (_ || _); lia).
    pose proof (Z.mod_pos_bound (index s + 1) (cycle_steps key)) as Hm.
    apply (IH s1); [| |exact Hr];
      (destruct (Z.le_gt_cases (counter s + 1) (cycle_cooldown key)) as [Hle|Hgt];
       [destruct (Hold Hle) as (E1 & E2)
       |destruct (Hnew ltac:(lia)) as (E1 & E2)]); rewrite ?E1, ?E2; lia.
Qed.

(** Forty frames of the right key from the end of the run cycle. *)
Lemma animation_ranges_witness :
  exists s', run (repeat right_key 40) 1000 switching = Some s' /\
    0 <= index s' <= 15.
Proof.
  destruct (run (repeat right_key 40) 1000 switching) as [s'|] eqn:Hr;
    [|vm_compute in Hr; discriminate].
  exists s'. split; [reflexivity|].
  apply (animation_ranges (repeat right_key 40) 1000 switching s').
  - cbn. lia.
  - cbn. lia.
  - exact Hr.
Defined.

(** What no frame changes. *)
Lemma run_untouched keys wl s s' :
  run keys wl s = Some s' ->
  world_rects s' = world_rects s /\ idle_sheet s' = idle_sheet s /\
  run_sheet s' = run_sheet s /\ width (rect s') = width (rect s) /\
  height (rect s') = height (rect s).
Proof.
  revert s. induction keys as [|key keys IH]; intros s Hr; cbn [run] in Hr.
  - injection Hr as <-. auto 10.
  - destruct (update key wl s) as [s1|] eqn:Hu; [|discriminate].
    destruct (update_untouched key wl s s1 Hu) as (E1 & E2 & E3 & E4 & E5).
    destruct (IH s1 Hr) as (F1 & F2 & F3 & F4 & F5).
    rewrite F1, F2, F3, F4, F5. auto.
Qed.

(** X16.  No run of frames changes the list of tiles, the two sprite
    sheets, or the width and height of the player's rectangle. *)
Theorem run_preserves keys wl s :
  sheets_ok s ->
  exists s', run keys wl s = Some s' /\
    world_rects s' = world_rects s /\ idle_sheet s' = idle_sheet s /\
    run_sheet s' = run_sheet s /\ width (rect s') = width (rect s) /\
    height (rect s') = height (rect s).
Proof.
  intros Hs. destruct (run_total keys wl s Hs) as (s' & Hr & _).
  exists s'. split; [exact Hr|]. exact (run_untouched keys wl s s' Hr).
Qed.

(** A jump, a step to the right, a rest. *)
Lemma run_preserves_witness :
  exists s', run [jump_key; right_key; no_key] 1000 standing = Some s' /\
    world_rects s' = [floor].
Proof.
  destruct (run_preserves [jump_key; right_key; no_key] 1000 standing)
    as (s' & Hr & Hw & _).
  - vm_compute. intuition discriminate.
  - exists s'. auto.
Defined.

(** X17.  For a positive number of steps, [animate] raises exactly when a
    new sprite frame is due (the counter plus one exceeds the cooldown) and
    the rectangle of the next index, [((index + 1) mod steps) * 14] pixels
    from the left, 14 by 19, does not lie inside the sheet. *)
Theorem animate_raises sprite_sheet steps cooldown s :
  0 < steps ->
  (animate sprite_sheet steps cooldown s = None <->
   cooldown < counter s + 1 /\
   ~ inside sprite_sheet
       (mkRect ((index s + 1) mod steps * 14) 0 14 19)).
Proof.
  intros Hsteps. unfold animate. fields.
  pose proof (Z.mod_pos_bound (index s + 1) steps Hsteps) as Hm.
  destruct (Z.ltb_spec cooldown (counter s + 1)) as [Hc|Hc].
  - unfold subsurface, size, inside. cbn [fst snd x y width height].
    destruct ((0 <=? _) && _ && _ && _) eqn:E.
    + split; [discriminate|]. intros [_ H]. exfalso. apply H.
      rewrite !andb_true_iff, !Z.leb_le in E. lia.
    + split; [|reflexivity]. intros _. split; [exact Hc|]. intros H.
      rewrite !andb_false_iff, !Z.leb_gt in E. lia.
  - split; [discriminate|]. intros [H _]. lia.
Qed.

(** A sheet of four frames asked for sixteen. *)
Lemma animate_raises_witness :
  animate (mkSurface 56 19) 16 8 (with_counter 8 (with_index 3 standing)) = None.
Proof.
  apply (animate_raises (mkSurface 56 19) 16 8
           (with_counter 8 (with_index 3 standing))).
  - reflexivity.
  - split; [reflexivity|]. unfold inside. cbn. lia.
Defined.

(** X18.  The constructor raises exactly when the idle sheet is less than
    14 pixels wide or less than 19 pixels high, so that its first frame
    cannot be cut out, or [x] or [y] does not fit a C int, so that the
    rectangle cannot take it; the run sheet is not looked at. *)
Theorem constructor_raises x0 y0 tiles idle run_ :
  __init__ x0 y0 tiles idle run_ = None <->
  surf_w idle < 14 \/ surf_h idle < 19 \/
  ~ INT_MIN <= x0 <= INT_MAX \/ ~ INT_MIN <= y0 <= INT_MAX.
Proof.
  unfold __init__, _init_sprite, subsurface, size, fits_int. cbn [fst snd].
  destruct ((0 <=? 0) && (0 <=? 0) && (0 + 14 <=? surf_w idle)
            && (0 + 19 <=? surf_h idle)) eqn:E.
  - rewrite !andb_true_iff, !Z.leb_le in E.
    destruct ((INT_MIN <=? x0) && (x0 <=? INT_MAX)
              && ((INT_MIN <=? y0) && (y0 <=? INT_MAX))) eqn:F.
    + rewrite !andb_true_iff, !Z.leb_le in F. split; [discriminate | lia].
    + rewrite !andb_false_iff, !Z.leb_gt in F. split; [lia | reflexivity].
  - rewrite !andb_false_iff, !Z.leb_gt in E. split; [lia | reflexivity].
Qed.

(** X19.  With an idle sheet that holds one frame of 14 by 19 pixels and
    [x] and [y] that fit a C int, the constructor succeeds: it gives a
    grounded player at rest with cleared flags, no stored ratio and the
    animation at its start, drawn with the first idle frame, whose rectangle
    is 49 by 66 pixels at [(x, y)].  A run of frames from it that does not
    raise ends with the tiles given to the constructor and a rectangle of 49
    by 66 pixels. *)
Theorem constructed_player x0 y0 tiles idle run_ :
  14 <= surf_w idle -> 19 <= surf_h idle ->
  INT_MIN <= x0 <= INT_MAX -> INT_MIN <= y0 <= INT_MAX ->
  exists s0, __init__ x0 y0 tiles idle run_ = Some s0 /\
    rect s0 = mkRect x0 y0 49 66 /\
    Knight.vel_x s0 = 0%Q /\ Knight.vel_y s0 = 0 /\ jumped s0 = false /\
    sprinting s0 = false /\ flipped s0 = false /\
    was_sprinting_when_jumped s0 = false /\ sprint_decel_ratio s0 = None /\
    index s0 = 0 /\ counter s0 = 0 /\
    image s0 = mkFrame idle (mkRect 0 0 14 19) false /\
    forall keys wl s', run keys wl s0 = Some s' ->
      world_rects s' = tiles /\ width (rect s') = 49 /\ height (rect s') = 66.
Proof.
  intros H1 H2 Hx Hy.
  pose (s0 := mkState 0 0 tiles idle run_ (mkFrame idle (mkRect 0 0 14 19) false)
                (mkRect x0 y0 49 66) 0 0 false false false false None).
  assert (Hi : __init__ x0 y0 tiles idle run_ = Some s0).
  { unfold __init__, _init_sprite, subsurface, size, fits_int. cbn [fst snd].
    replace ((0 <=? 0) && (0 <=? 0) && (0 + 14 <=? surf_w idle)
             && (0 + 19 <=? surf_h idle)) with true
      by (symmetry; rewrite !andb_true_iff, !Z.leb_le; lia).
    replace ((INT_MIN <=? x0) && (x0 <=? INT_MAX)
             && ((INT_MIN <=? y0) && (y0 <=? INT_MAX))) with true
      by (symmetry; rewrite !andb_true_iff, !Z.leb_le; lia).
    reflexivity. }
  exists s0. split; [exact Hi|]. do 11 (split; [reflexivity|]).
  intros keys wl s' Hr.
  destruct (run_untouched keys wl s0 s' Hr) as (Hw & _ & _ & Hwd & Hh).
  auto.
Qed.

(** The player of [main.py]. *)
Lemma constructed_player_witness :
  exists s0, __init__ 450 470 [floor] idle0 run0 = Some s0 /\
    rect s0 = mkRect 450 470 49 66.
Proof.
  destruct (constructed_player 450 470 [floor] idle0 run0)
    as (s0 & Hi & Hr & _); try (vm_compute; intuition discriminate).
  exists s0. auto.
Defined.

End KnightMore.

(** ** The camera *)

Module CameraMore.
Import Knight KnightFacts PyFacts Samples Scenes Follow.

(** One call of [scroll] moves the float offset a tenth of the way to the
    target and keeps the constant and the screen size. *)
Lemma scroll_float player l r t b c :
  let c' := Camera.scroll player l r t b c in
  Vector2.x (Camera.offset_float c') - Vector2.x (target player c)
    == 0.9 * (Vector2.x (Camera.offset_float c) - Vector2.x (target player c)) /\
  Vector2.y (Camera.offset_float c') - Vector2.y (target player c)
    == 0.9 * (Vector2.y (Camera.offset_float c) - Vector2.y (target player c)) /\
  target player c' = target player c.
Proof.
  unfold Camera.scroll, target.
  cbn [Camera.offset_float Camera.CONST Vector2.x Vector2.y].
  repeat split; ring.
Qed.

Lemma scrolls_target n player l r t b c :
  target player (scrolls n player l r t b c) = target player c.
Proof.
  revert c. induction n as [|n IH]; intros c; cbn [scrolls]; [reflexivity|].
  rewrite IH. apply scroll_float.
Qed.

(** X20.  While the player does not move, [n] calls of [scroll] multiply
    the distance of the float offset from the target, the player's position
    plus the constant, by [0.9 ^ n] on either axis, whatever the borders
    are: the clamped integer offset is not fed back. *)
Theorem scrolls_closed_form n player l r t b c :
  let c' := scrolls n player l r t b c in
  Vector2.x (Camera.offset_float c') - Vector2.x (target player c)
    == 0.9 ^ Z.of_nat n
       * (Vector2.x (Camera.offset_float c) - Vector2.x (target player c)) /\
  Vector2.y (Camera.offset_float c') - Vector2.y (target player c)
    == 0.9 ^ Z.of_nat n
       * (Vector2.y (Camera.offset_float c) - Vector2.y (target player c)).
Proof.
  cbv zeta. revert c. induction n as [|n IH]; intros c.
  - cbn [scrolls Z.of_nat Qpower]. split; ring.
  - cbn [scrolls]. rewrite Nat2Z.inj_succ. unfold Z.succ.
    rewrite Qpower_plus by discriminate.
    destruct (scroll_float player l r t b c) as (Hx & Hy & Ht). cbv zeta in *.
    destruct (IH (Camera.scroll player l r t b c)) as [Ix Iy].
    rewrite Ht in Ix, Iy. rewrite Ix, Iy, Hx, Hy.
    change (0.9 ^ 1)%Q with 0.9%Q. split; ring.
Qed.

(** X21.  While the player does not move, the float offset after any
    number of calls of [scroll] lies between its old value and the target
    on either axis: it nears the target and never passes it. *)
Theorem scrolls_approach n player l r t b c :
  let c' := scrolls n player l r t b c in
  let goal := target player c in
  ((Vector2.x (Camera.offset_float c) <= Vector2.x goal ->
    Vector2.x (Camera.offset_float c) <= Vector2.x (Camera.offset_float c')
      <= Vector2.x goal) /\
   (Vector2.x goal <= Vector2.x (Camera.offset_float c) ->
    Vector2.x goal <= Vector2.x (Camera.offset_float c')
      <= Vector2.x (Camera.offset_float c)) /\
   (Vector2.y (Camera.offset_float c) <= Vector2.y goal ->
    Vector2.y (Camera.offset_float c) <= Vector2.y (Camera.offset_float c')
      <= Vector2.y goal) /\
   (Vector2.y goal <= Vector2.y (Camera.offset_float c) ->
    Vector2.y goal <= Vector2.y (Camera.offset_float c')
      <= Vector2.y (Camera.offset_float c)))%Q.
Proof.
  cbv zeta. revert c. induction n as [|n IH]; intros c.
  - cbn [scrolls]. repeat split; intros; lra.
  - cbn [scrolls].
    destruct (scroll_float player l r t b c) as (Hx & Hy & Ht). cbv zeta in *.
    destruct (IH (Camera.scroll player l r t b c)) as (I1 & I2 & I3 & I4).
    rewrite Ht in I1, I2, I3, I4.
    set (c1 := Camera.scroll player l r t b c) in *. clearbody c1.
    set (cn := scrolls n player l r t b c1) in *. clearbody cn.
    split; [|split; [|split]]; intros H.
    + destruct I1 as [A B]; [lra|]. split; lra.
    + destruct I2 as [A B]; [lra|]. split; lra.
    + destruct I3 as [A B]; [lra|]. split; lra.
    + destruct I4 as [A B]; [lra|]. split; lra.
Qed.

(** A camera at rest, 100 pixels left of its target. *)
Lemma scrolls_approach_witness :
  (0 <= Vector2.x (Camera.offset_float (scrolls 25 standing 0 2000 0 700 behind))
   <= 100)%Q.
Proof.
  destruct (scrolls_approach 25 standing 0 2000 0 700 behind) as (H & _).
  apply H. vm_compute. discriminate.
Defined.

(** X22.  After [scroll] the offset is at most
    [right_border - screen_width] and [bottom_border - screen_height],
    whatever the borders are; when that bound is below the left or top
    border, the offset is that bound, below the border. *)
Theorem scroll_upper_bound player l r t b c :
  let c' := Camera.scroll player l r t b c in
  ((Vector2.x (Camera.offset c') <= r - Camera.screen_width c)%Q /\
   (Vector2.y (Camera.offset c') <= b - Camera.screen_height c)%Q) /\
  ((r - Camera.screen_width c < l)%Q ->
   Vector2.x (Camera.offset c') = (r - Camera.screen_width c)%Q) /\
  ((b - Camera.screen_height c < t)%Q ->
   Vector2.y (Camera.offset c') = (b - Camera.screen_height c)%Q).
Proof.
  unfold Camera.scroll. cbn [Camera.offset Vector2.x Vector2.y].
  split; [split; apply min_le_r|].
  split; intros H.
  - match goal with |- Py.min (Py.max ?a ?k) ?h = _ =>
      pose proof (max_ge_l a k);
      destruct (min_cases (Py.max a k) h) as [[? _]|[_ ->]]; [lra | reflexivity]
    end.
  - match goal with |- Py.min (Py.max ?a ?k) ?h = _ =>
      pose proof (max_ge_l a k);
      destruct (min_cases (Py.max a k) h) as [[? _]|[_ ->]]; [lra | reflexivity]
    end.
Qed.

(** A world 500 pixels wide on a screen of 900. *)
Lemma scroll_upper_bound_witness :
  Vector2.x (Camera.offset (Camera.scroll standing 0 500 0 700 camera0))
  = (500 - 900)%Q.
Proof.
  destruct (scroll_upper_bound standing 0 500 0 700 camera0) as (_ & H & _).
  apply H. vm_compute. reflexivity.
Defined.

(** The offset [scroll] leaves is a whole number when the borders and the
    screen size are. *)
Lemma scroll_whole player l r t b c sw sh :
  Camera.screen_width c == inject_Z sw ->
  Camera.screen_height c == inject_Z sh ->
  let c' := Camera.scroll player (inject_Z l) (inject_Z r) (inject_Z t)
              (inject_Z b) c in
  exists ox oy,
    Vector2.x (Camera.offset c') == inject_Z ox /\
    Vector2.y (Camera.offset c') == inject_Z oy.
Proof.
  intros Hw Hh. unfold Camera.scroll. cbn [Camera.offset Vector2.x Vector2.y].
  assert (N : forall a k e w h, w == inject_Z h ->
            exists o, Py.min (Py.max (inject_Z a) (inject_Z k))
                             (inject_Z e - w) == inject_Z o).
  { intros a k e w h Hwh.
    destruct (min_cases (Py.max (inject_Z a) (inject_Z k)) (inject_Z e - w))
      as [[_ ->]|[_ ->]].
    - destruct (max_cases (inject_Z a) (inject_Z k)) as [[_ ->]|[_ ->]];
        eexists; reflexivity.
    - exists (e - h). rewrite Hwh. unfold Z.sub.
      rewrite inject_Z_plus, inject_Z_opp. ring. }
  destruct (N l (Py.int (Vector2.x (Camera.offset_float c)
              + (inject_Z (x (rect player)) + Vector2.x (Camera.CONST c)
                 - Vector2.x (Camera.offset_float c)) * 0.1)) r
              (Camera.screen_width c) sw Hw) as [ox Hox].
  destruct (N t (Py.int (Vector2.y (Camera.offset_float c)
              + (inject_Z (y (rect player)) + Vector2.y (Camera.CONST c)
                 - Vector2.y (Camera.offset_float c)) * 0.1)) b
              (Camera.screen_height c) sh Hh) as [oy Hoy].
  exists ox, oy. split; assumption.
Qed.

End CameraMore.

(** ** The game *)

Module MainMore.
Import Knight KnightFacts KnightMore PyFacts Samples Scenes Main Inputs.

(** X23.  [_handle_events] returns [False] exactly when the event queue
    holds a [QUIT] event, wherever it is in the queue and whatever the
    other events are. *)
Theorem handle_events_quit events :
  _handle_events events = false <->
  Exists (fun event => type event = QUIT) events.
Proof.
  induction events as [|event events IH]; cbn [_handle_events].
  - split; [discriminate | intros H; inversion H].
  - destruct (Z.eqb_spec (type event) QUIT) as [E|E].
    + split; [intros _; now left | reflexivity].
    + rewrite IH. split; [intros H; now right|].
      intros H. inversion H; subst; [contradiction | assumption].
Qed.

(** One frame of the game that does not raise keeps the level, the screen
    size and the player's width, and ends within the level. *)
Lemma update_in_world key g g' sw sh :
  Game._update key g = Some g' ->
  width (rect (Game.player g)) <= Game.world_limit_x g ->
  Camera.screen_width (Game.camera g) == inject_Z sw ->
  Camera.screen_height (Game.camera g) == inject_Z sh ->
  sw <= Game.world_limit_x g -> sh <= Game.world_limit_y g ->
  width (rect (Game.player g')) = width (rect (Game.player g)) /\
  Game.world_limit_x g' = Game.world_limit_x g /\
  Game.world_limit_y g' = Game.world_limit_y g /\
  Camera.screen_width (Game.camera g') = Camera.screen_width (Game.camera g) /\
  Camera.screen_height (Game.camera g') = Camera.screen_height (Game.camera g) /\
  in_world g'.
Proof.
  unfold Game._update. intros Hg Hwd Hw Hh Hsw Hsh.
  destruct (update key (inject_Z (Game.world_limit_x g)) (Game.player g))
    as [p|] eqn:Hu; [|discriminate].
  injection Hg as <-.
  destruct (update_rect_inv _ _ _ _ Hu) as (_ & _ & _ & Hr).
  cbn [Game.player Game.camera Game.world_limit_x Game.world_limit_y].
  split; [rewrite Hr; reflexivity|].
  do 4 (split; [reflexivity|]).
  unfold in_world.
  cbn [Game.player Game.camera Game.world_limit_x Game.world_limit_y].
  split.
  - rewrite Hr. cbn [x width].
    set (q := Py.max 0 _).
    assert (Hq0 : (0 <= q)%Q) by apply max_ge_l.
    assert (Hq1 : (q <= inject_Z (Game.world_limit_x g)
                       - inject_Z (width (rect (Game.player g))))%Q).
    { unfold q.
      match goal with |- (Py.max 0 ?m <= _)%Q =>
        destruct (max_cases 0 m) as [[_ ->]|[_ ->]]; [|apply min_le_r] end.
      rewrite Zle_Qle in Hwd. lra. }
    apply nearest_between. unfold Z.sub.
    rewrite inject_Z_plus, inject_Z_opp. change (inject_Z 0) with 0%Q.
    split; lra.
  - destruct (CameraMore.scroll_whole p 0 (Game.world_limit_x g) 0
                (Game.world_limit_y g) (Game.camera g) sw sh Hw Hh)
      as (ox & oy & Hox & Hoy).
    change (inject_Z 0) with 0%Q in *. cbv zeta in *.
    exists ox, oy. split; [exact Hox|]. split; [exact Hoy|].
    rewrite <- Hox, <- Hoy. unfold Camera.scroll.
    cbn [Camera.offset Camera.screen_width Camera.screen_height
         Vector2.x Vector2.y].
    rewrite Zle_Qle in Hsw, Hsh.
    split; apply clamp_between; lra.
Qed.

(** One pass through the loop body. *)
Lemma frame_step i st :
  sheets_ok (Game.player (game st)) ->
  exists g, Game._update (key i) (game st) = Some g /\
    sheets_ok (Game.player g) /\
    frame i st =
      Some (mkState g (_monitor_performance (get_time i) (reading i) (monitor st)),
            _handle_events (events i)).
Proof.
  intros Hs. unfold frame, Game._update.
  destruct (update_physics (key i) (inject_Z (Game.world_limit_x (game st)))
              (Game.player (game st)) Hs) as (a & Ha & _).
  pose proof (update_sheets_ok _ _ _ _ Hs Ha) as Hs'. rewrite Ha.
  eexists. split; [reflexivity|]. split; [exact Hs' | reflexivity].
Qed.

(** The loop over frames without a [QUIT] event. *)
Lemma run_prefix inputs st :
  sheets_ok (Game.player (game st)) ->
  Forall (fun i => _handle_events (events i) = true) inputs ->
  exists st', run inputs st = Some (st', true) /\
    sheets_ok (Game.player (game st')) /\
    Game.frames (map key inputs) (game st) = Some (game st') /\
    monitor st' = monitors inputs (monitor st).
Proof.
  revert st. induction inputs as [|i inputs IH]; intros st Hs Hrun.
  - exists st. cbn. auto.
  - inversion Hrun as [|? ? Hi Hrest]; subst.
    destruct (frame_step i st Hs) as (g & Hu & Hs' & Hf).
    cbn [run map Game.frames]. rewrite Hf, Hi, Hu.
    match goal with |- context [run inputs ?s1] =>
      destruct (IH s1 Hs' Hrest) as (st' & Hr & Hs'' & Hg & Hm) end.
    exists st'. auto.
Qed.

(** X24.  As long as no frame's queue holds a [QUIT] event the loop goes
    on: the game is what [_update] makes of it frame by frame with the keys
    of each frame, and the monitor what [_monitor_performance] makes of it
    with the clock and the readings of each frame. *)
Theorem run_no_quit inputs st :
  sheets_ok (Game.player (game st)) ->
  Forall (fun i => _handle_events (events i) = true) inputs ->
  exists st', run inputs st = Some (st', true) /\
    Game.frames (map key inputs) (game st) = Some (game st') /\
    monitor st' = monitors inputs (monitor st).
Proof.
  intros Hs Hrun.
  destruct (run_prefix inputs st Hs Hrun) as (st' & Hr & _ & Hg & Hm).
  exists st'. auto.
Qed.

(** X25.  The first frame whose queue holds a [QUIT] event is the last
    one, and it is a full frame: the game and the monitor are still updated
    in it, with its keys, clock and reading, and no later input is
    looked at. *)
Theorem run_until_quit pre q post st :
  sheets_ok (Game.player (game st)) ->
  Forall (fun i => _handle_events (events i) = true) pre ->
  _handle_events (events q) = false ->
  exists st', run (pre ++ q :: post) st = Some (st', false) /\
    Game.frames (map key (pre ++ [q])) (game st) = Some (game st') /\
    monitor st' = monitors (pre ++ [q]) (monitor st).
Proof.
  revert st. induction pre as [|i pre IH]; intros st Hs Hrun Hq.
  - destruct (frame_step q st Hs) as (g & Hu & Hs' & Hf).
    cbn [app run map Game.frames]. rewrite Hf, Hq, Hu.
    eexists. split; [reflexivity|]. split; reflexivity.
  - inversion Hrun as [|? ? Hi Hrest]; subst.
    destruct (frame_step i st Hs) as (g & Hu & Hs' & Hf).
    cbn [app run map Game.frames]. rewrite Hf, Hi, Hu.
    match goal with |- context [run (pre ++ q :: post) ?s1] =>
      destruct (IH s1 Hs' Hrest Hq) as (st' & Hr & Hg & Hm) end.
    exists st'. auto.
Qed.

(** The loop keeps the player and the view within the level. *)
Lemma run_in_world inputs st st' running sw sh :
  run inputs st = Some (st', running) ->
  width (rect (Game.player (game st))) <= Game.world_limit_x (game st) ->
  Camera.screen_width (Game.camera (game st)) == inject_Z sw ->
  Camera.screen_height (Game.camera (game st)) == inject_Z sh ->
  sw <= Game.world_limit_x (game st) -> sh <= Game.world_limit_y (game st) ->
  in_world (game st) ->
  in_world (game st') /\
  width (rect (Game.player (game st'))) = width (rect (Game.player (game st))) /\
  Game.world_limit_x (game st') = Game.world_limit_x (game st) /\
  Game.world_limit_y (game st') = Game.world_limit_y (game st) /\
  Camera.screen_width (Game.camera (game st'))
    = Camera.screen_width (Game.camera (game st)) /\
  Camera.screen_height (Game.camera (game st'))
    = Camera.screen_height (Game.camera (game st)).
Proof.
  revert st. induction inputs as [|i inputs IH];
    intros st Hrun Hwd Hw Hh Hsw Hsh Hin; cbn [run] in Hrun.
  - injection Hrun as <- <-. auto 10.
  - unfold frame in Hrun.
    destruct (Game._update (key i) (game st)) as [g|] eqn:Hu; [|discriminate].
    destruct (update_in_world (key i) (game st) g sw sh Hu Hwd Hw Hh Hsw Hsh)
      as (E1 & E2 & E3 & E4 & E5 & Hin').
    destruct (_handle_events (events i)).
    + match type of Hrun with run inputs ?s1 = _ =>
        destruct (IH s1 Hrun) as (Hw' & F1 & F2 & F3 & F4 & F5) end;
        cbn [game]; try assumption;
        try (rewrite ?E1, ?E2, ?E3, ?E4, ?E5; assumption).
      cbn [game] in *.
      rewrite F1, F2, F3, F4, F5, E1, E2, E3, E4, E5. auto 10.
    + injection Hrun as <- <-. cbn [game]. auto 10.
Qed.

(** X26.  With an idle sheet that holds a frame of 14 by 19 pixels and a
    level of at least 18 columns and 14 rows of tiles (the 900 by 700
    screen), [Game.__init__] succeeds, and whenever the loop ends without
    having raised, whatever the inputs, the player's [x] lies within
    [[0, columns * 50 - 49]] and the camera offset is a whole number of
    pixels within [[0, columns * 50 - 900]] by [[0, rows * 50 - 700]]. *)
Theorem main_in_world columns rows rects idle_sheet run_sheet first :
  14 <= surf_w idle_sheet -> 19 <= surf_h idle_sheet ->
  18 <= columns -> 14 <= rows ->
  exists st0,
    __init__ columns rows rects idle_sheet run_sheet first = Some st0 /\
    forall inputs st' running, run inputs st0 = Some (st', running) ->
      0 <= x (rect (Game.player (game st'))) <= columns * 50 - 49 /\
      exists ox oy,
        Vector2.x (Camera.offset (Game.camera (game st'))) == inject_Z ox /\
        Vector2.y (Camera.offset (Game.camera (game st'))) == inject_Z oy /\
        0 <= ox <= columns * 50 - 900 /\ 0 <= oy <= rows * 50 - 700.
Proof.
  intros H1 H2 Hc Hr.
  pose (p0 := Knight.mkState 0 0 rects idle_sheet run_sheet
                (mkFrame idle_sheet (mkRect 0 0 14 19) false)
                (mkRect 450 470 49 66) 0 0 false false false false None).
  pose (st0 := mkState
                 (Game.mkState (columns * 50) (rows * 50) p0
                    (Camera.__init__ p0 900 700))
                 (monitor_init first)).
  assert (Hi : __init__ columns rows rects idle_sheet run_sheet first = Some st0).
  { unfold __init__, Knight.__init__, _init_sprite, subsurface, size.
    cbn [fst snd].
    replace ((0 <=? 0) && (0 <=? 0) && (0 + 14 <=? surf_w idle_sheet)
             && (0 + 19 <=? surf_h idle_sheet)) with true; [reflexivity|].
    symmetry. rewrite !andb_true_iff, !Z.leb_le. lia. }
  exists st0. split; [exact Hi|]. intros inputs st' b Hrun.
  destruct (run_in_world inputs st0 st' b 900 700 Hrun)
    as (Hin & F1 & F2 & F3 & F4 & F5).
  - cbn. lia.
  - reflexivity.
  - reflexivity.
  - cbn. lia.
  - cbn. lia.
  - unfold in_world. cbn. split; [lia|]. exists 0, 0.
    split; [reflexivity|]. split; [reflexivity|].
    change (inject_Z 0) with 0%Q.
    assert (A : 900 <= columns * 50) by lia.
    assert (B : 700 <= rows * 50) by lia.
    rewrite Zle_Qle in A, B. change (inject_Z 900) with 900%Q in A.
    change (inject_Z 700) with 700%Q in B. lra.
  - destruct Hin as (Hx & ox & oy & Hox & Hoy & Bx & By).
    rewrite F1, F2 in Hx. rewrite F2, F4 in Bx. rewrite F3, F5 in By.
    cbn in Hx, Bx, By. split; [exact Hx|].
    exists ox, oy. split; [exact Hox|]. split; [exact Hoy|].
    change 0%Q with (inject_Z 0) in Bx, By.
    change 900%Q with (inject_Z 900) in Bx.
    change 700%Q with (inject_Z 700) in By.
    destruct Bx as [Bx1 Bx2], By as [By1 By2].
    rewrite <- Zle_Qle in Bx1, By1.
    assert (Cx : ox + 900 <= columns * 50).
    { rewrite Zle_Qle, inject_Z_plus. lra. }
    assert (Cy : oy + 700 <= rows * 50).
    { rewrite Zle_Qle, inject_Z_plus. lra. }
    lia.
Qed.

(** One call of [_monitor_performance]. *)
Lemma monitor_step t r m :
  let m' := _monitor_performance t r m in
  cpu_update_interval m' = cpu_update_interval m /\
  (max_cpu_usage m <= max_cpu_usage m')%Q /\
  (max_cpu_usage m' = max_cpu_usage m \/ max_cpu_usage m' = r) /\
  ((cpu_usage m <= max_cpu_usage m)%Q ->
   (cpu_usage m' <= max_cpu_usage m')%Q) /\
  ((0 <= cpu_update_accumulator m < cpu_update_interval m)%Q ->
   (0 <= inject_Z t / 1000 < cpu_update_interval m)%Q ->
   (0 <= cpu_update_accumulator m' < cpu_update_interval m)%Q).
Proof.
  unfold _monitor_performance.
  destruct (ltb_spec (cpu_update_accumulator m + inject_Z t / 1000)
              (cpu_update_interval m)) as [Hlt|Hge]; cbn [negb].
  - cbn [cpu_usage max_cpu_usage cpu_update_interval cpu_update_accumulator].
    repeat split; auto; try lra.
  - destruct (gtb_spec r (max_cpu_usage m)) as [Hgt|Hle];
      cbn [cpu_usage max_cpu_usage cpu_update_interval cpu_update_accumulator];
      repeat split; auto; try lra.
Qed.

(** X27.  If [cpu_usage <= max_cpu_usage] holds it holds after any number
    of frames; [max_cpu_usage] never decreases, and it is its old value or
    one of the readings of these frames. *)
Theorem monitor_max inputs m :
  (cpu_usage m <= max_cpu_usage m)%Q ->
  let m' := monitors inputs m in
  (cpu_usage m' <= max_cpu_usage m')%Q /\
  (max_cpu_usage m <= max_cpu_usage m')%Q /\
  (max_cpu_usage m' = max_cpu_usage m \/
   In (max_cpu_usage m') (map reading inputs)).
Proof.
  cbv zeta. revert m. induction inputs as [|i inputs IH]; intros m Hm.
  - cbn. repeat split; auto; lra.
  - unfold monitors in *. cbn [fold_left map].
    destruct (monitor_step (get_time i) (reading i) m) as (_ & H1 & H2 & H3 & _).
    cbv zeta in *.
    destruct (IH _ (H3 Hm)) as (I1 & I2 & I3).
    split; [exact I1|]. split; [lra|].
    destruct I3 as [I3|I3].
    + rewrite I3. destruct H2 as [H2|H2]; [now left|].
      right. left. symmetry. exact H2.
    + right. right. exact I3.
Qed.

(** X28.  If the accumulator is within [[0, interval)] and every frame
    lasts less than the interval, the accumulator is within
    [[0, interval)] after any number of frames, and the interval is never
    changed. *)
Theorem monitor_accumulator inputs m :
  (0 <= cpu_update_accumulator m < cpu_update_interval m)%Q ->
  Forall (fun i => (0 <= inject_Z (get_time i) / 1000
                      < cpu_update_interval m)%Q) inputs ->
  let m' := monitors inputs m in
  cpu_update_interval m' = cpu_update_interval m /\
  (0 <= cpu_update_accumulator m' < cpu_update_interval m)%Q.
Proof.
  cbv zeta. revert m. induction inputs as [|i inputs IH]; intros m Hm Ht.
  - cbn. auto.
  - inversion Ht as [|? ? Hi Hrest]; subst.
    unfold monitors in *. cbn [fold_left].
    destruct (monitor_step (get_time i) (reading i) m) as (H0 & _ & _ & _ & H4).
    cbv zeta in *.
    destruct (IH (_monitor_performance (get_time i) (reading i) m)) as (I1 & I2).
    + rewrite H0. auto.
    + rewrite H0. exact Hrest.
    + rewrite H0 in I1, I2. auto.
Qed.

(** Three frames from the first reading. *)
Lemma monitor_max_witness :
  (3 <= max_cpu_usage (monitors [still; closing; still] (monitor_init 3)))%Q.
Proof.
  destruct (monitor_max [still; closing; still] (monitor_init 3)) as (_ & H & _).
  - cbn. lra.
  - exact H.
Defined.

(** Three frames of 16 ms. *)
Lemma monitor_accumulator_witness :
  (0 <= cpu_update_accumulator (monitors [still; closing; still] (monitor_init 3))
   < 1)%Q.
Proof.
  destruct (monitor_accumulator [still; closing; still] (monitor_init 3))
    as (_ & H).
  - cbn. lra.
  - repeat constructor; vm_compute; discriminate || reflexivity.
  - exact H.
Defined.

(** Two frames without events. *)
Lemma run_no_quit_witness :
  exists st', run [still; still] main0 = Some (st', true) /\
    Game.frames [no_key; no_key] game0 = Some (game st').
Proof.
  destruct (run_no_quit [still; still] main0) as (st' & Hr & Hg & _).
  - vm_compute. intuition discriminate.
  - repeat constructor.
  - exists st'. auto.
Defined.

(** The window is closed in the second of four frames. *)
Lemma run_until_quit_witness :
  exists st', run ([still] ++ closing :: [still; still]) main0 = Some (st', false) /\
    Game.frames [no_key; right_key] game0 = Some (game st').
Proof.
  destruct (run_until_quit [still] closing [still; still] main0)
    as (st' & Hr & Hg & _).
  - vm_compute. intuition discriminate.
  - repeat constructor.
  - reflexivity.
  - exists st'. auto.
Defined.

(** A level of 40 by 14 tiles; the window is closed in the second frame. *)
Lemma main_in_world_witness :
  exists st0 st',
    __init__ 40 14 [floor] idle0 run0 3 = Some st0 /\
    run [still; closing; still] st0 = Some (st', false) /\
    0 <= x (rect (Game.player (game st'))) <= 40 * 50 - 49.
Proof.
  destruct (main_in_world 40 14 [floor] idle0 run0 3)
    as (st0 & Hi & H); try (cbn; lia).
  destruct (run [still; closing; still] st0) as [[st' b]|] eqn:Hr.
  - assert (Hb : b = false).
    { revert Hr. vm_compute in Hi. injection Hi as <-. vm_compute.
      intros E. injection E as _ <-. reflexivity. }
    subst b. exists st0, st'. split; [exact Hi|]. split; [exact Hr|].
    exact (proj1 (H _ _ _ Hr)).
  - exfalso. revert Hr. vm_compute in Hi. injection Hi as <-. vm_compute.
    discriminate.
Defined.

End MainMore.
